(** * The p2p instance runtime: swarm table, introductions, probing, shutdown

    A shallow embedding of the Go package [ptp] (swarm table, utility
    functions, endpoints and the instance runtime) together with the
    properties its specification states about them.

    Conventions of the embedding:
    - a Go [string] is a [string]; a Go [byte] is a [Byte.byte];
    - a Go map is a [gmap]; a map that may still be [nil] is an
      [option (gmap _ _)], read with [mget];
    - a Go [error] is an [option error] ([None] is [nil]);
    - a slice that the code compares with [nil] is an [option (list _)];
    - the clock is an input: a function that reads it takes the readings
      as arguments, and a loop that sleeps runs in a world with a clock
      that each sleep advances. *)

From Stdlib Require Import ZArith NArith List String Ascii Bool Lia.
From Stdlib.Strings Require Import Byte.
From Stdlib Require Import DecimalString.
From stdpp Require Import gmap strings list fin_maps.

Local Open Scope string_scope.
Local Open Scope list_scope.
Local Open Scope Z_scope.

(** Go errors are built by [fmt.Errorf]; their text is all the code shows. *)
Definition error := string.

(* ===================================================================== *)
(** * The parts of Go's [net] and [strings] packages the code calls *)
(* ===================================================================== *)

Module GoNet.

(** ** Strings *)

(** [strings.Split(s, sep)] for a one-byte separator: n separators give
    n+1 fields, and the empty string gives one empty field. *)
Fixpoint Split (sep : ascii) (s : string) : list string :=
  match s with
  | EmptyString => [EmptyString]
  | String c s' =>
      if Ascii.eqb c sep then EmptyString :: Split sep s'
      else match Split sep s' with
           | [] => [String c EmptyString]
           | p :: ps => String c p :: ps
           end
  end.

(** Does the byte [c] occur in [s]? *)
Fixpoint contains (c : ascii) (s : string) : bool :=
  match s with
  | EmptyString => false
  | String c' s' => Ascii.eqb c' c || contains c s'
  end.

(** [s[n:]] *)
Fixpoint drop_str (n : nat) (s : string) : string :=
  match n, s with
  | O, _ => s
  | S n', String _ s' => drop_str n' s'
  | S _, EmptyString => EmptyString
  end.

Definition strlen (s : string) : Z := Z.of_nat (String.length s).

(** ** Numerals *)

Definition digit_val (c : ascii) : option N :=
  let n := N_of_ascii c in
  if (48 <=? n)%N && (n <=? 57)%N then Some (n - 48)%N else None.

Definition hex_val (c : ascii) : option N :=
  let n := N_of_ascii c in
  if (48 <=? n)%N && (n <=? 57)%N then Some (n - 48)%N
  else if (97 <=? n)%N && (n <=? 102)%N then Some (n - 97 + 10)%N
  else if (65 <=? n)%N && (n <=? 70)%N then Some (n - 65 + 10)%N
  else None.

(** [const big = 0xFFFFFF] of [net/parse.go]. *)
Definition big : N := 0xFFFFFF%N.

(** [dtoi]: decimal to integer.  Returns the number, the count of bytes
    consumed and the success flag. *)
Fixpoint dtoi_loop (s : string) (n : N) (i : nat) : N * nat * bool :=
  match s with
  | EmptyString => if Nat.eqb i 0 then (0%N, 0%nat, false) else (n, i, true)
  | String c s' =>
      match digit_val c with
      | Some d =>
          let n' := (n * 10 + d)%N in
          if (big <=? n')%N then (big, i, false) else dtoi_loop s' n' (S i)
      | None => if Nat.eqb i 0 then (0%N, 0%nat, false) else (n, i, true)
      end
  end.

Definition dtoi (s : string) : N * nat * bool := dtoi_loop s 0%N 0%nat.

(** [xtoi]: hexadecimal to integer, same result shape as [dtoi]. *)
Fixpoint xtoi_loop (s : string) (n : N) (i : nat) : N * nat * bool :=
  match s with
  | EmptyString => if Nat.eqb i 0 then (0%N, i, false) else (n, i, true)
  | String c s' =>
      match hex_val c with
      | Some d =>
          let n' := (n * 16 + d)%N in
          if (big <=? n')%N then (0%N, i, false) else xtoi_loop s' n' (S i)
      | None => if Nat.eqb i 0 then (0%N, i, false) else (n, i, true)
      end
  end.

Definition xtoi (s : string) : N * nat * bool := xtoi_loop s 0%N 0%nat.

(** [byte(n)]: conversion of an integer to a byte keeps the low 8 bits. *)
Definition byte_of_N (n : N) : byte :=
  match Byte.of_N (n mod 256)%N with
  | Some b => b
  | None => x00
  end.

(** [xtoi2]: two hex digits, followed (when anything follows) by the
    byte [e]. *)
Definition xtoi2 (s : string) (e : ascii) : option byte :=
  let follows_ok :=
    match drop_str 2 s with
    | EmptyString => true
    | String c _ => Ascii.eqb c e
    end in
  if negb follows_ok then None
  else
    let '(n, ei, ok) := xtoi (String.substring 0 2 s) in
    if ok && Nat.eqb ei 2 then Some (byte_of_N n) else None.

(** [uitoa]: an unsigned integer in decimal. *)
Definition uitoa (n : N) : string :=
  NilZero.string_of_uint (N.to_uint n).

(** [hexDigit = "0123456789abcdef"] indexed by a nibble. *)
Definition hexDigit (n : N) : ascii :=
  if (n <? 10)%N then ascii_of_N (48 + n) else ascii_of_N (97 + (n - 10)).

(** ** Hardware addresses *)

(** [net.HardwareAddr] is a byte slice; [None] is the [nil] slice. *)
Definition HardwareAddr := option (list byte).

Fixpoint hw_bytes_string (first : bool) (a : list byte) : string :=
  match a with
  | [] => EmptyString
  | b :: a' =>
      let n := Byte.to_N b in
      let two := String (hexDigit (N.shiftr n 4))
                   (String (hexDigit (N.land n 15)) (hw_bytes_string false a')) in
      if first then two else String ":" two
  end.

(** [HardwareAddr.String]: empty for a slice of length 0, else the bytes
    as two lowercase hex digits each, joined by colons. *)
Definition HW_String (a : HardwareAddr) : string :=
  match a with
  | None => EmptyString
  | Some l => hw_bytes_string true l
  end.

(** The loop of the colon/dash branch of [ParseMAC]: [n] groups, the
    [i]-th read by [xtoi2] at offset [3*i]. *)
Fixpoint parse_mac_groups (n : nat) (s : string) (sep : ascii) : option (list byte) :=
  match n with
  | O => Some []
  | S n' =>
      match xtoi2 s sep with
      | None => None
      | Some b =>
          match parse_mac_groups n' (drop_str 3 s) sep with
          | None => None
          | Some bs => Some (b :: bs)
          end
      end
  end.

(** The loop of the dotted branch of [ParseMAC]: groups of four hex
    digits, two bytes each, at offsets [5*i]. *)
Fixpoint parse_mac_quads (n : nat) (s : string) : option (list byte) :=
  match n with
  | O => Some []
  | S n' =>
      match xtoi2 (String.substring 0 2 s) zero, xtoi2 (drop_str 2 s) "." with
      | Some b1, Some b2 =>
          match parse_mac_quads n' (drop_str 5 s) with
          | None => None
          | Some bs => Some (b1 :: b2 :: bs)
          end
      | _, _ => None
      end
  end.

Definition mac_len_ok (n : Z) : bool :=
  (n =? 6) || (n =? 8) || (n =? 20).

(** [net.ParseMAC]: 6, 8 or 20 bytes written [xx:xx:...], [xx-xx-...] or
    [xxxx.xxxx....]; [None] is the error result. *)
Definition ParseMAC (s : string) : option (list byte) :=
  if strlen s <? 14 then None
  else
    match String.get 2 s, String.get 4 s with
    | Some c2, Some c4 =>
        if Ascii.eqb c2 ":" || Ascii.eqb c2 "-" then
          if negb ((strlen s + 1) mod 3 =? 0) then None
          else
            let n := (strlen s + 1) / 3 in
            if negb (mac_len_ok n) then None
            else parse_mac_groups (Z.to_nat n) s c2
        else if Ascii.eqb c4 "." then
          if negb ((strlen s + 1) mod 5 =? 0) then None
          else
            let n := 2 * (strlen s + 1) / 5 in
            if negb (mac_len_ok n) then None
            else parse_mac_quads (Z.to_nat (n / 2)) s
        else None
    | _, _ => None
    end.

(** ** IP addresses *)

(** The overlay carries IPv4 addresses only, so a [net.IP] is modelled as
    either [nil] or four octets; the 4-byte and the 16-byte form of the
    same IPv4 address are one value here (they are [net.IP.Equal]). *)
Inductive IP : Type :=
| IPnil
| IPv4 (a b c d : byte).

Definition IP_is_nil (ip : IP) : bool :=
  match ip with IPnil => true | IPv4 _ _ _ _ => false end.

(** [net.IP.String]. *)
Definition IP_String (ip : IP) : string :=
  match ip with
  | IPnil => "<nil>"
  | IPv4 a b c d =>
      uitoa (Byte.to_N a) +:+ "." +:+ uitoa (Byte.to_N b) +:+ "." +:+
      uitoa (Byte.to_N c) +:+ "." +:+ uitoa (Byte.to_N d)
  end.

(** One turn of the loop of [parseIPv4]: an octet in decimal, preceded by
    a dot unless it is the first. *)
Definition parse_octet (first : bool) (s : string) : option (byte * string) :=
  match s with
  | EmptyString => None
  | String c s' =>
      let s1 := if first then Some s
                else if Ascii.eqb c "." then Some s' else None in
      match s1 with
      | None => None
      | Some s1 =>
          let '(n, k, ok) := dtoi s1 in
          if negb ok || (0xFF <? n)%N then None
          else Some (byte_of_N n, drop_str k s1)
      end
  end.

(** [parseIPv4]: exactly four decimal octets, each at most 255. *)
Definition parseIPv4 (s : string) : IP :=
  match parse_octet true s with
  | None => IPnil
  | Some (a, s) =>
  match parse_octet false s with
  | None => IPnil
  | Some (b, s) =>
  match parse_octet false s with
  | None => IPnil
  | Some (c, s) =>
  match parse_octet false s with
  | None => IPnil
  | Some (d, s) =>
      match s with
      | EmptyString => IPv4 a b c d
      | _ => IPnil
      end
  end end end end.

(** Which of ['.'] and [':'] comes first in [s]. *)
Fixpoint first_dot_or_colon (s : string) : option ascii :=
  match s with
  | EmptyString => None
  | String c s' =>
      if Ascii.eqb c "." then Some "."%char
      else if Ascii.eqb c ":" then Some ":"%char
      else first_dot_or_colon s'
  end.

(** [net.ParseIP].  A text whose first separator is a colon is an IPv6
    text; it denotes no overlay address and is answered [nil] here. *)
Definition ParseIP (s : string) : IP :=
  match first_dot_or_colon s with
  | Some c => if Ascii.eqb c "." then parseIPv4 s else IPnil
  | None => IPnil
  end.

(** ** UDP addresses *)

Record UDPAddr : Type := mkUDPAddr { uIP : IP; uPort : N }.

(** [UDPAddr.String]: host and port joined by a colon; no host text for
    a nil IP. *)
Definition UDPAddr_String (a : UDPAddr) : string :=
  (match uIP a with IPnil => "" | ip => IP_String ip end)
    +:+ ":" +:+ uitoa (uPort a).

(** The bytes before and after the last colon of [s]. *)
Fixpoint split_last_colon (s : string) : option (string * string) :=
  match s with
  | EmptyString => None
  | String c s' =>
      match split_last_colon s' with
      | Some (h, p) => Some (String c h, p)
      | None => if Ascii.eqb c ":" then Some (EmptyString, s') else None
      end
  end.

Section Resolver.

(** Name resolution is the operating system's.  Whatever is not a
    literal ["a.b.c.d:port"] (host names, service names, an empty host,
    signs) is answered by the resolver at hand. *)
Variable resolveOther : string -> option UDPAddr.

(** [net.ResolveUDPAddr("udp4", s)]; [None] is the error result. *)
Definition ResolveUDPAddr (s : string) : option UDPAddr :=
  match split_last_colon s with
  | None => None
  | Some (host, port) =>
      match parseIPv4 host, dtoi port with
      | IPv4 a b c d, (n, k, true) =>
          if Nat.eqb k (String.length port) && (n <=? 65535)%N
          then Some (mkUDPAddr (IPv4 a b c d) n)
          else resolveOther s
      | _, _ => resolveOther s
      end
  end.

End Resolver.

End GoNet.

Import GoNet.

(* ===================================================================== *)
(** * Peers *)
(* ===================================================================== *)

(** The connection states named by [StringifyState]. *)
Inductive PeerState : Type :=
| PeerStateInit
| PeerStateRequestedIP
| PeerStateRequestingProxy
| PeerStateWaitingForProxy
| PeerStateWaitingToConnect
| PeerStateConnecting
| PeerStateConnected
| PeerStateDisconnect
| PeerStateStop
| PeerStateCooldown.

Definition PeerState_eqb (a b : PeerState) : bool :=
  match a, b with
  | PeerStateInit, PeerStateInit
  | PeerStateRequestedIP, PeerStateRequestedIP
  | PeerStateRequestingProxy, PeerStateRequestingProxy
  | PeerStateWaitingForProxy, PeerStateWaitingForProxy
  | PeerStateWaitingToConnect, PeerStateWaitingToConnect
  | PeerStateConnecting, PeerStateConnecting
  | PeerStateConnected, PeerStateConnected
  | PeerStateDisconnect, PeerStateDisconnect
  | PeerStateStop, PeerStateStop
  | PeerStateCooldown, PeerStateCooldown => true
  | _, _ => false
  end.

(** [StringifyState] *)
Definition StringifyState (state : PeerState) : string :=
  match state with
  | PeerStateInit => "INITIALIZING"
  | PeerStateRequestedIP => "WAITING_IP"
  | PeerStateRequestingProxy => "REQUESTING_PROXIES"
  | PeerStateWaitingForProxy => "WAITING_PROXIES"
  | PeerStateWaitingToConnect => "WAITING_CONNECTION"
  | PeerStateConnecting => "INITIALIZING_CONNECTION"
  | PeerStateConnected => "CONNECTED"
  | PeerStateDisconnect => "DISCONNECTED"
  | PeerStateStop => "STOPPED"
  | PeerStateCooldown => "COOLDOWN"
  end.

(** The fields of [NetworkPeer] that the swarm table and the instance
    runtime read.  A peer is stored by value: the table is observed right
    after each of its own operations. *)
Record NetworkPeer : Type := mkPeer {
  PeerLocalIP : IP;
  PeerHW : HardwareAddr;
  Endpoint : option UDPAddr;
  State : PeerState
}.

(* ===================================================================== *)
(** * The swarm table *)
(* ===================================================================== *)

Module SwarmTable.

(** [type ListOperation int] *)
Definition ListOperation := Z.
Definition OperateDelete : ListOperation := 0.
Definition OperateUpdate : ListOperation := 1.

Record Swarm : Type := mkSwarm {
  peers : option (gmap string NetworkPeer);
  tableIPID : option (gmap string string);
  tableMacID : option (gmap string string)
}.

(** Reading a Go map that may be [nil]: a [nil] map has no entry. *)
Definition mget {V} (m : option (gmap string V)) (k : string) : option V :=
  match m with
  | Some m => m !! k
  | None => None
  end.

(** The zero value of the struct: every map is [nil]. *)
Definition zero : Swarm := mkSwarm None None None.

(** [Swarm.Init] *)
Definition Init (l : Swarm) : Swarm := mkSwarm (Some ∅) (Some ∅) (Some ∅).

(** [Swarm.updateTables] *)
Definition updateTables (id ip mac : string) (l : Swarm) : Swarm :=
  let l1 :=
    if String.eqb ip "" then l
    else mkSwarm (peers l) (insert ip id <$> tableIPID l) (tableMacID l) in
  if String.eqb mac "" then l1
  else mkSwarm (peers l1) (tableIPID l1) (insert mac id <$> tableMacID l1).

(** [Swarm.deleteTables] *)
Definition deleteTables (ip mac : string) (l : Swarm) : Swarm :=
  let l1 :=
    if String.eqb ip "" then l
    else match mget (tableIPID l) ip with
         | Some _ => mkSwarm (peers l) (delete ip <$> tableIPID l) (tableMacID l)
         | None => l
         end in
  if String.eqb mac "" then l1
  else match mget (tableMacID l1) mac with
       | Some _ => mkSwarm (peers l1) (tableIPID l1) (delete mac <$> tableMacID l1)
       | None => l1
       end.

(** How a call ends: it returns its [error] result, or the Go runtime
    panics on a nil pointer. *)
Inductive outcome : Type :=
| Returned (err : option error)
| Panicked.

(** [Swarm.operate].  [peer] is a pointer: [None] is [nil], which
    [Delete] passes and which the update branch dereferences. *)
Definition operate (action : ListOperation) (id : string)
    (peer : option NetworkPeer) (l : Swarm) : outcome * Swarm :=
  match peers l, tableIPID l, tableMacID l with
  | None, _, _ => (Returned (Some "peers is nil - not initialized"), l)
  | Some _, None, _ => (Returned (Some "IP-ID table is nil - not initialized"), l)
  | Some _, Some _, None => (Returned (Some "Mac-ID table is nil - not initialized"), l)
  | Some ps, Some _, Some _ =>
      if action =? OperateUpdate then
        match peer with
        | None => (Panicked, l)
        | Some p =>
            let l1 := mkSwarm (Some (<[id := p]> ps)) (tableIPID l) (tableMacID l) in
            let ip := if IP_is_nil (PeerLocalIP p) then "" else IP_String (PeerLocalIP p) in
            let mac := match PeerHW p with None => "" | Some _ => HW_String (PeerHW p) end in
            (Returned None, updateTables id ip mac l1)
        end
      else if action =? OperateDelete then
        match ps !! id with
        | None => (Returned (Some "can't delete peer: entry doesn't exists"), l)
        | Some p =>
            let l1 := deleteTables (IP_String (PeerLocalIP p)) (HW_String (PeerHW p)) l in
            (Returned None, mkSwarm (delete id <$> peers l1) (tableIPID l1) (tableMacID l1))
        end
      else (Returned None, l)
  end.

(** [Swarm.Delete]: the result of [operate] is dropped; the method has no
    result of its own. *)
Definition Delete (id : string) (l : Swarm) : unit * Swarm :=
  (tt, snd (operate OperateDelete id None l)).

(** [Swarm.Update]: likewise. *)
Definition Update (id : string) (peer : NetworkPeer) (l : Swarm) : unit * Swarm :=
  (tt, snd (operate OperateUpdate id (Some peer) l)).

(** [Swarm.Get]: a copy of the primary map. *)
Definition Get (l : Swarm) : gmap string NetworkPeer :=
  match peers l with
  | Some ps => ps
  | None => ∅
  end.

(** [Swarm.GetPeer] *)
Definition GetPeer (id : string) (l : Swarm) : option NetworkPeer :=
  mget (peers l) id.

(** [Swarm.GetEndpoint] *)
Definition GetEndpoint (mac : string) (l : Swarm) : option UDPAddr * option error :=
  let not_found := (None, Some "Specified hardware address was not found in table") in
  match mget (tableMacID l) mac with
  | Some id =>
      match mget (peers l) id with
      | Some peer =>
          match Endpoint peer with
          | Some e => (Some e, None)
          | None => not_found
          end
      | None => not_found
      end
  | None => not_found
  end.

(** [Swarm.GetID] *)
Definition GetID (ip : string) (l : Swarm) : string * option error :=
  match mget (tableIPID l) ip with
  | Some id => (id, None)
  | None => ("", Some "Specified IP was not found in table")
  end.

(** [Swarm.Length] *)
Definition Length (l : Swarm) : Z := Z.of_nat (size (Get l)).

(** ** Sequences of table operations *)

Inductive op : Type :=
| OpUpdate (id : string) (peer : NetworkPeer)
| OpDelete (id : string).

Definition step (l : Swarm) (o : op) : Swarm :=
  match o with
  | OpUpdate id p => snd (Update id p l)
  | OpDelete id => snd (Delete id l)
  end.

Definition run (ops : list op) (l : Swarm) : Swarm := fold_left step ops l.

(** The two keys under which [Update] indexes a peer. *)
Definition ipKey (p : NetworkPeer) : string := IP_String (PeerLocalIP p).
Definition macKey (p : NetworkPeer) : string := HW_String (PeerHW p).




End SwarmTable.

(* ===================================================================== *)
(** * Utility functions ([utils.go]) *)
(* ===================================================================== *)

Module Utils.

(** [fmt.Sprintf("%02x", b)] *)
Definition hex2 (b : byte) : string :=
  let n := Byte.to_N b in
  String (hexDigit (N.shiftr n 4)) (String (hexDigit (N.land n 15)) EmptyString).

(** [b | 2] on a byte. *)
Definition byte_or2 (b : byte) : byte := byte_of_N (N.lor (Byte.to_N b) 2).

(** [GenerateMAC].  [rnd] is what [rand.Read] leaves in the 6-byte
    buffer, or [None] when it reports an error. *)
Definition GenerateMAC (rnd : option (list byte)) : string * HardwareAddr :=
  match rnd with
  | None => ("", None)
  | Some buf0 =>
      let buf := <[0%nat := byte_or2 (nth 0 buf0 x00)]> buf0 in
      let mac := "06:" +:+ hex2 (nth 1 buf x00) +:+ ":" +:+ hex2 (nth 2 buf x00)
                   +:+ ":" +:+ hex2 (nth 3 buf x00) +:+ ":" +:+ hex2 (nth 4 buf x00)
                   +:+ ":" +:+ hex2 (nth 5 buf x00) in
      match ParseMAC mac with
      | None => ("", None)
      | Some hw => (mac, Some hw)
      end
  end.

(** [PeerHandshake] *)
Record PeerHandshake : Type := mkHandshake {
  hsID : string;
  hsIP : IP;
  hsHardwareAddr : HardwareAddr;
  hsEndpoint : option UDPAddr;
  hsAutoIP : bool
}.

Section Parse.

Variable resolveOther : string -> option UDPAddr.

(** [ParseIntroString] *)
Definition ParseIntroString (intro : string) : option PeerHandshake * option error :=
  let parts := Split "," intro in
  if negb (Nat.eqb (length parts) 4) then
    (None, Some ("Failed to parse introduction string: " +:+ intro))
  else
    let part i := nth i parts "" in
    match ParseMAC (part 1%nat) with
    | None =>
        (None, Some ("Failed to parse MAC address from introduction packet: address "
                       +:+ part 1%nat +:+ ": invalid MAC address"))
    | Some hw =>
        let ipres :=
          if String.eqb (part 2%nat) "auto" then Some (true, IPnil)
          else match ParseIP (part 2%nat) with
               | IPnil => None
               | ip => Some (false, ip)
               end in
        match ipres with
        | None => (None, Some "Failed to parse IP address from introduction packet")
        | Some (auto, ip) =>
            match ResolveUDPAddr resolveOther (part 3%nat) with
            | None => (None, Some ("Failed to parse handshake endpoint: " +:+ part 3%nat))
            | Some ep => (Some (mkHandshake (part 0%nat) ip (Some hw) (Some ep) auto), None)
            end
        end
    end.

End Parse.

End Utils.

(* ===================================================================== *)
(** * Endpoints ([endpoint.go]) *)
(* ===================================================================== *)

(** [binary.BigEndian.PutUint16] after the conversion [uint16(v)]. *)
Definition put_uint16 (v : Z) : list byte :=
  let u := v mod 65536 in
  [byte_of_N (Z.to_N (u / 256)); byte_of_N (Z.to_N (u mod 256))].

Module EndpointProbe.

(** Times are [time.Time] readings and [time.Duration]s, in nanoseconds. *)
Record Endpoint : Type := mkEndpoint {
  Addr : option UDPAddr;
  LastContact : Z;
  LastPing : Z;
  broken : bool;
  Latency : Z;
  LastLatencyQuery : Z
}.

(** [Endpoint.addrToBytes]: 4 bytes of IP and 2 bytes of port. *)
Definition addrToBytes (e : Endpoint) : option (list byte) :=
  match Addr e with
  | None => None
  | Some a =>
      match uIP a with
      | IPnil => None
      | IPv4 b0 b1 b2 b3 => Some ([b0; b1; b2; b3] ++ put_uint16 (Z.of_N (uPort a)))
      end
  end.

(** The readings of the clock that one call of [Measure] takes, in
    program order: by [time.Since], by the two [time.Now()] that follow
    it, and by the [time.Now()] of the error branch. *)
Record Clock : Type := mkClock {
  t_since : Z;
  t_stamp : Z;
  t_ts : Z;
  t_err : Z
}.

Section Measure.

(** Not among the sources: the message type and its constructor, the
    socket, two constants and the encoding of a time stamp. *)
Variable P2PMessage : Type.
Variable Network : Type.
Variable CreateMessageStatic : Z -> list byte -> P2PMessage + error.
Variable MsgTypeLatency : Z.
Variable LatencyRequestHeader : list byte.
Variable EndpointLatencyRequestInterval : Z.
Variable MarshalBinary : Z -> list byte.

Definition set_LastLatencyQuery (t : Z) (e : Endpoint) : Endpoint :=
  mkEndpoint (Addr e) (LastContact e) (LastPing e) (broken e) (Latency e) t.

(** [Endpoint.Measure].  The result is the endpoint afterwards and the
    calls [n.SendMessage(msg, addr)] made. *)
Definition Measure (e : Endpoint) (n : option Network) (id : string) (clk : Clock)
    : Endpoint * list (P2PMessage * UDPAddr) :=
  if broken e then (e, [])
  else
    match Addr e with
    | None => (e, [])
    | Some addr =>
        match n with
        | None => (e, [])
        | Some _ =>
            if t_since clk - LastLatencyQuery e <? EndpointLatencyRequestInterval
            then (e, [])
            else
              let e1 := set_LastLatencyQuery (t_stamp clk) e in
              let ts := MarshalBinary (t_ts clk) in
              match addrToBytes e1 with
              | None => (e1, [])
              | Some ba =>
                  let payload :=
                    LatencyRequestHeader ++ ba ++ list_byte_of_string id ++ ts in
                  match CreateMessageStatic MsgTypeLatency payload with
                  | inr _ => (set_LastLatencyQuery (t_err clk) e1, [])
                  | inl msg => (e1, [(msg, addr)])
                  end
              end
        end
    end.

(** A series of [Measure] calls on one endpoint.  Each send is paired
    with the stamp the call left in [LastLatencyQuery]. *)
Definition call : Type := option Network * string * Clock.

Fixpoint probes (calls : list call) (e : Endpoint)
    : Endpoint * list (Z * (P2PMessage * UDPAddr)) :=
  match calls with
  | [] => (e, [])
  | (n, id, clk) :: rest =>
      let '(e1, sent) := Measure e n id clk in
      let '(e2, later) := probes rest e1 in
      (e2, map (pair (t_stamp clk)) sent ++ later)
  end.

(** The clock never runs backwards: the readings of a call are in
    order, and a call starts no earlier than the previous one ended. *)
Definition clock_ordered (clk : Clock) : Prop :=
  t_since clk <= t_stamp clk /\ t_stamp clk <= t_ts clk /\ t_ts clk <= t_err clk.

Fixpoint clocks_monotone (prev : Z) (calls : list call) : Prop :=
  match calls with
  | [] => True
  | (_, _, clk) :: rest =>
      prev <= t_since clk /\ clock_ordered clk /\ clocks_monotone (t_err clk) rest
  end.

(** Consecutive stamps are at least [d] apart. *)
Fixpoint spaced (d : Z) (stamps : list Z) : Prop :=
  match stamps with
  | [] => True
  | s1 :: rest =>
      match rest with
      | [] => True
      | s2 :: _ => d <= s2 - s1
      end /\ spaced d rest
  end.

End Measure.

End EndpointProbe.

(* ===================================================================== *)
(** * The instance runtime *)
(* ===================================================================== *)

Module Runtime.

Import Utils.

Definition Millisecond : Z := 1000000.
Definition Second : Z := 1000 * Millisecond.

(** ** The virtual device ([TAPDarwin]) *)

(** [tFile] tells whether the descriptor [file] is non-nil. *)
Record TAPDarwin : Type := mkTAP {
  tIP : IP;
  tSubnet : IP;
  tMac : HardwareAddr;
  tName : string;
  tTool : string;
  tFile : bool;
  tConfigured : bool;
  tAuto : bool
}.

Definition SetHardwareAddress (mac : HardwareAddr) (t : TAPDarwin) : TAPDarwin :=
  mkTAP (tIP t) (tSubnet t) mac (tName t) (tTool t) (tFile t) (tConfigured t) (tAuto t).
Definition SetIP (ip : IP) (t : TAPDarwin) : TAPDarwin :=
  mkTAP ip (tSubnet t) (tMac t) (tName t) (tTool t) (tFile t) (tConfigured t) (tAuto t).
Definition SetSubnet (sn : IP) (t : TAPDarwin) : TAPDarwin :=
  mkTAP (tIP t) sn (tMac t) (tName t) (tTool t) (tFile t) (tConfigured t) (tAuto t).
Definition SetName (name : string) (t : TAPDarwin) : TAPDarwin :=
  mkTAP (tIP t) (tSubnet t) (tMac t) name (tTool t) (tFile t) (tConfigured t) (tAuto t).
Definition set_file (f : bool) (t : TAPDarwin) : TAPDarwin :=
  mkTAP (tIP t) (tSubnet t) (tMac t) (tName t) (tTool t) f (tConfigured t) (tAuto t).
Definition set_configured (c : bool) (t : TAPDarwin) : TAPDarwin :=
  mkTAP (tIP t) (tSubnet t) (tMac t) (tName t) (tTool t) (tFile t) c (tAuto t).
Definition MarkConfigured : TAPDarwin -> TAPDarwin := set_configured true.
Definition Deconfigure : TAPDarwin -> TAPDarwin := set_configured false.

(** [newTAP] *)
Definition newTAP (tool ip mac mask : string) (mtu : Z) (pmtu : bool)
    : option TAPDarwin * option error :=
  match ParseIP ip with
  | IPnil => (None, Some "Failed to parse IP during TAP creation")
  | nip =>
      match ParseMAC mac with
      | None => (None, Some ("Failed to parse MAC during TAP creation: address "
                               +:+ mac +:+ ": invalid MAC address"))
      | Some nmac => (Some (mkTAP nip IPnil (Some nmac) "" tool false false false), None)
      end
  end.

(** ** The instance *)

(** Of the socket and of the rendezvous client (neither is among the
    sources) the runtime reads these fields. *)
Record Network : Type := mkNetwork { localPort : Z; remotePort : Z }.
Record DHTClient : Type := mkDHT { dhtID : string; NetworkHash : string }.

(** [PeerToPeer]: the fields the modelled methods touch.  A pointer or
    interface field is an [option]. *)
Record PeerToPeer : Type := mkP2P {
  UDPSocket : option Network;
  Dht : option DHTClient;
  Shutdown : bool;
  ForwardMode : bool;
  ReadyToStop : bool;
  Hash : string;
  Interface : option TAPDarwin;
  Swarm : option SwarmTable.Swarm;
  outboundIP : IP
}.

Definition with_swarm (f : SwarmTable.Swarm -> SwarmTable.Swarm) (p : PeerToPeer) : PeerToPeer :=
  mkP2P (UDPSocket p) (Dht p) (Shutdown p) (ForwardMode p) (ReadyToStop p) (Hash p)
        (Interface p) (f <$> Swarm p) (outboundIP p).
Definition with_iface (f : TAPDarwin -> TAPDarwin) (p : PeerToPeer) : PeerToPeer :=
  mkP2P (UDPSocket p) (Dht p) (Shutdown p) (ForwardMode p) (ReadyToStop p) (Hash p)
        (f <$> Interface p) (Swarm p) (outboundIP p).
Definition set_Shutdown (b : bool) (p : PeerToPeer) : PeerToPeer :=
  mkP2P (UDPSocket p) (Dht p) b (ForwardMode p) (ReadyToStop p) (Hash p)
        (Interface p) (Swarm p) (outboundIP p).
Definition set_ReadyToStop (b : bool) (p : PeerToPeer) : PeerToPeer :=
  mkP2P (UDPSocket p) (Dht p) (Shutdown p) (ForwardMode p) b (Hash p)
        (Interface p) (Swarm p) (outboundIP p).

(** [for id, peer := range m]: Go visits the entries of a map in an order
    of its choosing; [order] is that choice. *)
Definition range {V} (order : list string) (m : gmap string V) : list (string * V) :=
  omap (fun id => pair id <$> m !! id) order.

(** [order] lists every key of [m] once. *)
Definition iteration_order {V} (order : list string) (m : gmap string V) : Prop :=
  NoDup order /\ forall id, id ∈ order <-> is_Some (m !! id).

(** The loop of [removeStoppedPeers], which ends at its [break]. *)
Fixpoint removeStopped_loop (items : list (string * NetworkPeer))
    (l : SwarmTable.Swarm) : SwarmTable.Swarm :=
  match items with
  | [] => l
  | (id, peer) :: rest =>
      if PeerState_eqb (State peer) PeerStateStop
      then snd (SwarmTable.Delete id l)
      else removeStopped_loop rest l
  end.

(** [PeerToPeer.removeStoppedPeers] *)
Definition removeStoppedPeers (order : list string) (p : PeerToPeer)
    : option error * PeerToPeer :=
  match Swarm p with
  | None => (Some "removeStoppedPeers: nil peer list", p)
  | Some l =>
      let peers := SwarmTable.Get l in
      (None, with_swarm (removeStopped_loop (range order peers)) p)
  end.

(** [PeerToPeer.validateMac]; [rnd] is the outcome of [rand.Read]. *)
Definition validateMac (rnd : option (list byte)) (mac : string) : HardwareAddr :=
  if negb (String.eqb mac "") then
    match ParseMAC mac with
    | None => None
    | Some hw => Some hw
    end
  else snd (GenerateMAC rnd).

(** What [New] meets in its environment: the random source, the path of
    the configuration tool, the echoed port (0 when no echo arrived in
    time) and the result of [DHTClient.Init]. *)
Record NewEnv : Type := mkNewEnv {
  rnd : option (list byte);
  configTool : string;
  echoPort : Z;
  dhtInit : string -> DHTClient + error
}.

Definition DefaultMTU : Z := 1500.

(** [New].  Key handling, the dispatch tables and the start of the
    socket's goroutines leave no trace in the fields modelled; none of
    them makes [New] return [nil]. *)
Definition New (env : NewEnv) (mac hash keyfile key ttl target : string)
    (fwd : bool) (port : Z) (outbound : IP) : option PeerToPeer :=
  let p := mkP2P None None false false false "" None
                 (Some (SwarmTable.Init SwarmTable.zero)) outbound in
  match newTAP (configTool env) "127.0.0.1" "00:00:00:00:00:00" "" DefaultMTU false with
  | (_, Some _) | (None, _) => None
  | (Some tap, None) =>
      let tap := SetHardwareAddress (validateMac (rnd env) mac) tap in
      let sock := mkNetwork port (if echoPort env =? 0 then port else echoPort env) in
      match dhtInit env hash with
      | inr _ => None
      | inl dht =>
          Some (mkP2P (Some sock) (Some dht) false fwd false hash (Some tap)
                      (Swarm p) outbound)
      end
  end.

(** ** Sending by hardware address *)

Section Messages.

(** Not among the sources: the message type with its constructor, the
    result of the socket's [SendMessage], and the protocol constants. *)
Variable P2PMessage : Type.
Variable CreateMessage : Z -> list byte -> Z -> bool -> option P2PMessage * option error.
Variable SendMessage : P2PMessage -> UDPAddr -> Z * option error.
Variable MsgTypeComm MsgTypeIntro : Z.
Variable CommIPSubnet CommIPInfo : Z.

(** [PeerToPeer.SendTo] *)
Definition SendTo (dst : HardwareAddr) (msg : option P2PMessage) (p : PeerToPeer)
    : Z * option error :=
  match Swarm p with
  | None => (-1, Some "SendTo: nil peer list")
  | Some l =>
      match UDPSocket p with
      | None => (-1, Some "SendTo: nil udp socket")
      | Some _ =>
          match msg with
          | None => (-1, Some "SendTo: nil msg")
          | Some m =>
              match dst with
              | None => (-1, Some "SendTo: nil dst")
              | Some _ =>
                  match SwarmTable.GetEndpoint (HW_String dst) l with
                  | (Some endpoint, None) => SendMessage m endpoint
                  | _ => (0, None)
                  end
              end
          end
      end
  end.

(** The line that [PrepareIntroductionMessage] builds. *)
Definition introString (t : TAPDarwin) (id endpoint : string) : string :=
  let ip := if negb (tAuto t) then IP_String (tIP t) else "auto" in
  id +:+ "," +:+ HW_String (tMac t) +:+ "," +:+ ip +:+ "," +:+ endpoint.

(** [PeerToPeer.PrepareIntroductionMessage] *)
Definition PrepareIntroductionMessage (id endpoint : string) (p : PeerToPeer)
    : option P2PMessage * option error :=
  match Interface p with
  | None => (None, Some "PrepareIntroductionMessage: nil interface")
  | Some t =>
      match CreateMessage MsgTypeIntro
              (list_byte_of_string (introString t id endpoint)) 0 true with
      | (_, Some err) => (None, Some err)
      | (msg, None) => (msg, None)
      end
  end.

(** ** The world around one instance *)

Inductive event : Type :=
| EvSend (msg : option P2PMessage) (to : UDPAddr)
| EvSleep (d : Z)
| EvDeactivated (ip : IP)
| EvPeerState (id : string) (st : PeerState)
| EvShutdown
| EvDhtClose
| EvSocketClose
| EvInterfaceClose
| EvReadyToStop.

(** The instance, the process-wide registry [ActiveInterfaces], the
    clock, the count of sleeps so far, and what has been done. *)
Record World : Type := mkWorld {
  inst : PeerToPeer;
  ActiveInterfaces : list IP;
  now : Z;
  ticks : nat;
  log : list event
}.

(** The rest of the process.  While this goroutine sleeps for the
    [k]-th time, the peer drivers act on the swarm table and the
    message handlers on the device; the sleep overruns by [jitter k];
    [order k] is the order of a [range] over the swarm made after [k]
    sleeps.  The remaining fields are results of system calls. *)
Record Env : Type := mkEnv {
  jitter : nat -> N;
  drivers : nat -> SwarmTable.Swarm -> SwarmTable.Swarm;
  handlers : nat -> TAPDarwin -> TAPDarwin;
  order : nat -> list string;
  dhtCloseErr : option error;
  socketCloseErr : option error;
  fileCloseErr : option error;
  openErr : option error;
  linkupErr : option error
}.

Variable E : Env.

Definition set_inst (p : PeerToPeer) (w : World) : World :=
  mkWorld p (ActiveInterfaces w) (now w) (ticks w) (log w).
Definition set_active (a : list IP) (w : World) : World :=
  mkWorld (inst w) a (now w) (ticks w) (log w).
Definition add_log (evs : list event) (w : World) : World :=
  mkWorld (inst w) (ActiveInterfaces w) (now w) (ticks w) (log w ++ evs).

(** [time.Sleep(d)] *)
Definition Sleep (d : Z) (w : World) : World :=
  mkWorld (with_iface (handlers E (ticks w)) (with_swarm (drivers E (ticks w)) (inst w)))
          (ActiveInterfaces w)
          (now w + d + Z.of_N (jitter E (ticks w)))
          (S (ticks w))
          (log w ++ [EvSleep d]).

Definition swarm_snapshot (w : World) : list (string * NetworkPeer) :=
  match Swarm (inst w) with
  | Some l => range (order E (ticks w)) (SwarmTable.Get l)
  | None => []
  end.

Definition iface_ip (w : World) : IP :=
  match Interface (inst w) with
  | Some t => tIP t
  | None => IPnil
  end.
Definition iface_subnet (w : World) : IP :=
  match Interface (inst w) with
  | Some t => tSubnet t
  | None => IPnil
  end.

Definition IP_eqb (x y : IP) : bool :=
  match x, y with
  | IPnil, IPnil => true
  | IPv4 a b c d, IPv4 a' b' c' d' =>
      Byte.eqb a a' && Byte.eqb b b' && Byte.eqb c c' && Byte.eqb d d'
  | _, _ => false
  end.

(** ** Interface assignment *)

(** [TAPDarwin.Configure]; the outcome of the first command is only
    logged, that of the second is [linkupErr]. *)
Definition Configure (lazy : bool) (t : TAPDarwin) : option error :=
  if String.eqb (tTool t) "" then
    Some "TAP.Configure: Configuration tool wasn't specified"
  else if IP_is_nil (tIP t) then None
  else linkupErr E.

(** [PeerToPeer.AssignInterface] *)
Definition AssignInterface (interfaceName : string) (w : World) : option error * World :=
  match Interface (inst w) with
  | None => (Some "Failed to initialize TAP", w)
  | Some t =>
      if tConfigured t then (None, w)
      else if String.eqb interfaceName "" then
        (Some "Failed to initialize TAP: Failed to configure interface: empty name", w)
      else
        let t1 := SetName interfaceName t in
        let w1 := set_inst (with_iface (fun _ => t1) (inst w)) w in
        if IP_is_nil (tIP t1) && negb (tAuto t1) then (Some "No IP provided", w1)
        else
          match tMac t1 with
          | None => (Some "No Hardware address provided", w1)
          | Some _ =>
              match openErr E with
              | Some err => (Some err, w1)
              | None =>
                  let t2 := set_file true t1 in
                  let w2 := set_inst (with_iface (fun _ => t2) (inst w1)) w1 in
                  let lazy := tAuto t2 in
                  match Configure lazy t2 with
                  | Some err => (Some err, w2)
                  | None =>
                      let w3 := set_active (ActiveInterfaces w2 ++ [tIP t2]) w2 in
                      if negb (tAuto t2)
                      then (None, set_inst (with_iface MarkConfigured (inst w3)) w3)
                      else (None, w3)
                  end
              end
          end
  end.

(** ** Shutdown *)

(** [append(a[:i], a[i+1:]...)] at the first [i] with [a[i]] equal to [ip]. *)
Fixpoint remove_first (ip : IP) (a : list IP) : option (list IP) :=
  match a with
  | [] => None
  | x :: a' =>
      if IP_eqb x ip then Some a'
      else match remove_first ip a' with
           | Some r => Some (x :: r)
           | None => None
           end
  end.

(** [PeerToPeer.deactivateInterface] *)
Definition deactivateInterface (w : World) : option error * World :=
  match Interface (inst w) with
  | None => (Some "nil interface", w)
  | Some t =>
      match remove_first (tIP t) (ActiveInterfaces w) with
      | Some a => (None, add_log [EvDeactivated (tIP t)] (set_active a w))
      | None => (Some ("Interface " +:+ tName t +:+ " wasn't listed as active"), w)
      end
  end.

(** Modelled from the spec: [NetworkPeer.SetState] is not among the
    sources; the spec has the driver of a peer move it to the state it
    is instructed to take. *)
Definition SetState (st : PeerState) (peer : NetworkPeer) : NetworkPeer :=
  mkPeer (PeerLocalIP peer) (PeerHW peer) (Endpoint peer) st.

(** The first loop of [stopPeers]. *)
Definition disconnect_peer (w : World) (item : string * NetworkPeer) : World :=
  let '(i, peer) := item in
  let peer' := SetState PeerStateDisconnect peer in
  add_log [EvPeerState i PeerStateDisconnect]
    (set_inst (with_swarm (fun l => snd (SwarmTable.Update i peer' l)) (inst w)) w).

Definition swarm_length (w : World) : Z :=
  match Swarm (inst w) with
  | Some l => SwarmTable.Length l
  | None => 0
  end.

(** How a loop that depends on the clock ends in the model. *)
Inductive result : Type :=
| Finished (err : option error)
| OutOfFuel.

(** The second loop of [stopPeers]. *)
Fixpoint drain_wait (fuel : nat) (stopStarted : Z) (w : World) : result * World :=
  match fuel with
  | O => (OutOfFuel, w)
  | S fuel' =>
      if 0 <? swarm_length w then
        if 5 * Second <? now w - stopStarted then (Finished None, w)
        else drain_wait fuel' stopStarted (Sleep (100 * Millisecond) w)
      else (Finished None, w)
  end.

(** [PeerToPeer.stopPeers] *)
Definition stopPeers (fuel : nat) (w : World) : result * World :=
  match Swarm (inst w) with
  | None => (Finished (Some "nil peer list"), w)
  | Some _ =>
      let w1 := fold_left disconnect_peer (swarm_snapshot w) w in
      drain_wait fuel (now w1) w1
  end.

(** [PeerToPeer.stopDHT] *)
Definition stopDHT (w : World) : option error * World :=
  match Dht (inst w) with
  | None => (Some "nil dht", w)
  | Some _ => (dhtCloseErr E, add_log [EvDhtClose] w)
  end.

(** [PeerToPeer.stopSocket] *)
Definition stopSocket (w : World) : option error * World :=
  match UDPSocket (inst w) with
  | None => (Some "nil socket", w)
  | Some _ => (socketCloseErr E, add_log [EvSocketClose] w)
  end.

(** [TAPDarwin.Close] *)
Definition TAP_Close (t : TAPDarwin) : option error :=
  if negb (tFile t) then Some "nil interface file descriptor"
  else match fileCloseErr E with
       | Some err => Some ("Failed to close network interface: " +:+ err)
       | None => None
       end.

(** [PeerToPeer.stopInterface] *)
Definition stopInterface (w : World) : option error * World :=
  match Interface (inst w) with
  | None => (Some "nil interface", w)
  | Some t => (TAP_Close t, add_log [EvInterfaceClose] w)
  end.

(** [PeerToPeer.Close] *)
Definition Close (fuel : nat) (w : World) : result * World :=
  let w1 := snd (deactivateInterface w) in
  match stopPeers fuel w1 with
  | (OutOfFuel, w2) => (OutOfFuel, w2)
  | (Finished _, w2) =>
      let w3 := add_log [EvShutdown] (set_inst (set_Shutdown true (inst w2)) w2) in
      let w4 := snd (stopDHT w3) in
      let w5 := snd (stopSocket w4) in
      let w6 := snd (stopInterface w5) in
      (Finished None, add_log [EvReadyToStop] (set_inst (set_ReadyToStop true (inst w6)) w6))
  end.

(** ** IP reconciliation *)

(** [copy(payload[2:38], id)] into a zeroed buffer. *)
Definition id36 (id : string) : list byte :=
  let b := firstn 36 (list_byte_of_string id) in
  b ++ repeat x00 (36 - length b).

Definition subnetPayload (id : string) : list byte :=
  put_uint16 CommIPSubnet ++ id36 id.

(** The 42 bytes of an [IP_INFO] query for host [i] of subnet [sn]. *)
Definition infoPayload (id : string) (sn : IP) (i : Z) : list byte :=
  let '(s0, s1, s2) :=
    match sn with
    | IPv4 a b c _ => (a, b, c)
    | IPnil => (x00, x00, x00)
    end in
  put_uint16 CommIPInfo ++ id36 id ++ [s0; s1; s2; byte_of_N (Z.to_N i)].

(** The peers a broadcast reaches: connected, with an endpoint. *)
Definition recipients (items : list (string * NetworkPeer)) : list UDPAddr :=
  omap (fun item : string * NetworkPeer =>
          if PeerState_eqb (State (snd item)) PeerStateConnected
          then Endpoint (snd item) else None) items.

Definition broadcast (msg : option P2PMessage) (w : World) : World :=
  add_log (map (EvSend msg) (recipients (swarm_snapshot w))) w.

(** The loop of [discoverIP] that waits for the subnet. *)
Fixpoint waitSubnet (fuel : nat) (lastRequest : Z) (w : World) : result * World :=
  match fuel with
  | O => (OutOfFuel, w)
  | S fuel' =>
      if IP_is_nil (iface_subnet w) then
        if 2000 * Millisecond <? now w - lastRequest then
          (Finished (Some "Didn't received subnet information"),
           set_inst (with_iface Deconfigure (inst w)) w)
        else waitSubnet fuel' lastRequest (Sleep (100 * Millisecond) w)
      else (Finished None, w)
  end.

(** The loop of [discoverIP] that looks for a free address. *)
Fixpoint probeLoop (fuel : nat) (id : string) (sn : IP) (i : Z) (lastRequest : Z)
    (w : World) : result * World :=
  match fuel with
  | O => (OutOfFuel, w)
  | S fuel' =>
      if IP_is_nil (iface_ip w) && (0 <? i) then
        if 1500 * Millisecond <? now w - lastRequest then
          let i' := i - 1 in
          let msg := fst (CreateMessage MsgTypeComm (infoPayload id sn i') 0 true) in
          probeLoop fuel' id sn i' (now w) (Sleep (100 * Millisecond) (broadcast msg w))
        else probeLoop fuel' id sn i lastRequest (Sleep (100 * Millisecond) w)
      else (Finished None, w)
  end.

(** [PeerToPeer.discoverIP] *)
Definition discoverIP (fuel : nat) (w : World) : result * World :=
  match Swarm (inst w), Interface (inst w), Dht (inst w) with
  | None, _, _ => (Finished (Some "nil swarm"), w)
  | Some _, None, _ => (Finished (Some "nil interface"), w)
  | Some _, Some _, None => (Finished (Some "nil dht"), w)
  | Some _, Some _, Some dht =>
      let w1 := set_inst (with_iface (fun t => SetIP IPnil (SetSubnet IPnil t)) (inst w)) w in
      let msg := fst (CreateMessage MsgTypeComm (subnetPayload (dhtID dht)) 0 true) in
      let w2 := broadcast msg w1 in
      match waitSubnet fuel (now w2) w2 with
      | (OutOfFuel, w3) => (OutOfFuel, w3)
      | (Finished (Some err), w3) => (Finished (Some err), w3)
      | (Finished None, w3) =>
          let sn := iface_subnet w3 in
          match probeLoop fuel (dhtID dht) sn 255 0 w3 with
          | (OutOfFuel, w4) => (OutOfFuel, w4)
          | (Finished _, w4) =>
              if IP_is_nil (iface_ip w4)
              then (Finished (Some "Failed to get free IP for this swarm"), w4)
              else (Finished None, w4)
          end
      end
  end.

End Messages.

End Runtime.

(* ===================================================================== *)
(** * Handling of an introduction *)
(* ===================================================================== *)

Module Handlers.

Import Utils Runtime.

(** Modelled from the spec: the handler of an introduction message
    ([HandleIntroMessage]) is not among the sources.  The spec has the
    receiver parse the record; when parsing fails it rejects the message
    with the parse error and does not alter its swarm table; otherwise it
    records the hardware address, the overlay IP (none for an automatic
    one) and the observed endpoint of the peer, whose connection state it
    keeps ([PeerStateInit] for a peer it did not know). *)
Definition HandleIntroMessage (resolveOther : string -> option UDPAddr)
    (intro : string) (p : PeerToPeer) : option error * PeerToPeer :=
  match ParseIntroString resolveOther intro with
  | (None, err) => (err, p)
  | (Some hs, _) =>
      let st l := match SwarmTable.GetPeer (hsID hs) l with
                  | Some q => State q
                  | None => PeerStateInit
                  end in
      (None,
       with_swarm
         (fun l => snd (SwarmTable.Update (hsID hs)
                          (mkPeer (hsIP hs) (hsHardwareAddr hs) (hsEndpoint hs) (st l)) l))
         p)
  end.

End Handlers.

(* ===================================================================== *)
(** * Properties of the swarm table *)
(* ===================================================================== *)

Section SwarmFacts.

Import SwarmTable.

(** The indexes agree with the primary map: every stored peer is indexed
    under its overlay IP and under its hardware address, and no index
    entry points to an id that is not stored. *)
Definition index_consistent (l : Swarm) : Prop :=
  (forall id p, GetPeer id l = Some p ->
     mget (tableIPID l) (ipKey p) = Some id /\ mget (tableMacID l) (macKey p) = Some id)
  /\ (forall id, GetPeer id l = None ->
        forall k, mget (tableIPID l) k <> Some id /\ mget (tableMacID l) k <> Some id).

Definition initialised (l : Swarm) : Prop :=
  exists ps ti tm, l = mkSwarm (Some ps) (Some ti) (Some tm).

Lemma append_cons_nonempty (s t : string) (c : ascii) : s +:+ String c t <> "".
Proof. destruct s; simpl; discriminate. Qed.

Lemma IP_String_nonempty (ip : IP) : IP_String ip <> "".
Proof. destruct ip; simpl; [discriminate | apply append_cons_nonempty]. Qed.

Lemma eqb_empty_false (s : string) : s <> "" -> String.eqb s "" = false.
Proof. intros H. now apply String.eqb_neq. Qed.

Lemma updateTables_initialised id ip mac ps ti tm :
  ip <> "" -> mac <> "" ->
  updateTables id ip mac (mkSwarm (Some ps) (Some ti) (Some tm))
  = mkSwarm (Some ps) (Some (<[ip := id]> ti)) (Some (<[mac := id]> tm)).
Proof.
  intros Hip Hmac. unfold updateTables.
  rewrite (eqb_empty_false ip Hip), (eqb_empty_false mac Hmac). reflexivity.
Qed.


Lemma Update_keyed id p ps ti tm :
  IP_is_nil (PeerLocalIP p) = false -> macKey p <> "" ->
  snd (Update id p (mkSwarm (Some ps) (Some ti) (Some tm)))
  = mkSwarm (Some (<[id := p]> ps)) (Some (<[ipKey p := id]> ti))
            (Some (<[macKey p := id]> tm)).
Proof.
  intros Hip Hmac. unfold Update, operate. simpl. rewrite Hip.
  assert (Hm : match PeerHW p with Some _ => HW_String (PeerHW p) | None => "" end = macKey p).
  { unfold macKey. destruct (PeerHW p); reflexivity. }
  rewrite Hm. apply updateTables_initialised; [apply IP_String_nonempty | exact Hmac].
Qed.

Lemma Delete_absent id l : GetPeer id l = None -> snd (Delete id l) = l.
Proof.
  destruct l as [[ps|] [ti|] [tm|]]; unfold Delete, operate, GetPeer; simpl;
    try reflexivity.
  intros ->. reflexivity.
Qed.


(** The invariant behind [index_consistent], on the three maps. *)
Definition exact (ps : gmap string NetworkPeer) (ti tm : gmap string string) : Prop :=
  (forall id p, ps !! id = Some p ->
     IP_is_nil (PeerLocalIP p) = false /\ macKey p <> "" /\
     ti !! ipKey p = Some id /\ tm !! macKey p = Some id)
  /\ (forall k id, ti !! k = Some id -> exists p, ps !! id = Some p /\ ipKey p = k)
  /\ (forall k id, tm !! k = Some id -> exists p, ps !! id = Some p /\ macKey p = k).







End SwarmFacts.

Section SwarmClaims.

Import SwarmTable.

(** Two peers that differ in overlay IP and in hardware address. *)
Definition peer_5 : NetworkPeer :=
  mkPeer (IPv4 x0a x01 x00 x05) (Some [x06; x00; x00; x00; x00; x05]) None PeerStateConnected.
Definition peer_6 : NetworkPeer :=
  mkPeer (IPv4 x0a x01 x00 x06) (Some [x06; x00; x00; x00; x00; x06]) None PeerStateConnected.




(** Peer "a" is stored, replaced by a peer with another IP and another
    hardware address, and deleted. *)
Definition replace_then_delete : list op :=
  [OpUpdate "a" peer_5; OpUpdate "a" peer_6; OpDelete "a"].

(** Replacing an entry: [Update] does not look at the entry it
    overwrites, so the keys of that entry stay in the indexes, also after
    [Delete] has removed the id. *)
Lemma index_stale_after_replace :
  ~ index_consistent (run replace_then_delete (Init zero)).
Proof.
  intros [_ H].
  assert (Hn : GetPeer "a" (run replace_then_delete (Init zero)) = None)
    by (vm_compute; reflexivity).
  destruct (H "a" Hn "10.1.0.5") as [Hi _].
  apply Hi. vm_compute. reflexivity.
Qed.




(** ** Deletion *)

Definition swarm_with_a : Swarm := snd (Update "a" peer_5 (Init zero)).

(** C8, as stated, fails: "a" is absent from the first table and present
    in the second, [operate] tells the two cases apart, and the public
    [Delete] hands the same value to its caller in both. *)
Lemma Delete_result_is_the_same :
  GetPeer "a" (Init zero) = None
  /\ GetPeer "a" swarm_with_a = Some peer_5
  /\ fst (operate OperateDelete "a" None (Init zero))
     <> fst (operate OperateDelete "a" None swarm_with_a)
  /\ fst (Delete "a" (Init zero)) = fst (Delete "a" swarm_with_a).
Proof.
  split; [vm_compute; reflexivity |].
  split; [vm_compute; reflexivity |].
  split; [vm_compute; discriminate | reflexivity].
Qed.

(** C8 (amended): on an initialised table, deleting an id that is not
    stored changes neither the primary map nor an index, and [operate]
    returns the error "can't delete peer: entry doesn't exists"; deleting
    an id that is stored removes it from the primary map, removes the
    index entries under the peer's overlay IP and (non-empty) hardware
    address, and [operate] returns no error.  The public [Delete] returns
    nothing in either case. *)
Theorem Delete_absent_or_present (id : string) (l : Swarm) :
  initialised l ->
  (GetPeer id l = None ->
     snd (Delete id l) = l
     /\ fst (operate OperateDelete id None l)
        = Returned (Some "can't delete peer: entry doesn't exists"))
  /\ (forall p, GetPeer id l = Some p ->
        GetPeer id (snd (Delete id l)) = None
        /\ mget (tableIPID (snd (Delete id l))) (ipKey p) = None
        /\ (macKey p <> "" -> mget (tableMacID (snd (Delete id l))) (macKey p) = None)
        /\ fst (operate OperateDelete id None l) = Returned None)
  /\ fst (Delete id l) = tt.
Proof.
  intros (ps & ti & tm & ->). split; [| split; [| reflexivity]].
  - intros Hn. split; [now apply Delete_absent |].
    unfold GetPeer in Hn. simpl in Hn. unfold operate. simpl. now rewrite Hn.
  - intros p Hp. unfold GetPeer in Hp. simpl in Hp.
    unfold Delete, operate. simpl. rewrite Hp. simpl.
    fold (ipKey p) (macKey p).
    assert (Hip : String.eqb (ipKey p) "" = false)
      by (apply eqb_empty_false, IP_String_nonempty).
    unfold deleteTables. rewrite Hip. simpl.
    destruct (String.eqb (macKey p) "") eqn:Hmac.
    + apply String.eqb_eq in Hmac.
      destruct (ti !! ipKey p) eqn:Hi; simpl; unfold GetPeer; simpl;
        rewrite ?lookup_delete_eq; repeat split; auto; congruence.
    + destruct (ti !! ipKey p) eqn:Hi; simpl;
        destruct (tm !! macKey p) eqn:Hm; simpl; unfold GetPeer; simpl;
        rewrite ?lookup_delete_eq; repeat split; auto.
Qed.

Lemma Delete_absent_or_present_witness :
  initialised swarm_with_a
  /\ GetPeer "a" (snd (Delete "a" swarm_with_a)) = None
  /\ snd (Delete "b" swarm_with_a) = swarm_with_a.
Proof.
  assert (Hi : initialised swarm_with_a) by (do 3 eexists; vm_compute; reflexivity).
  split; [exact Hi |]. split.
  - destruct (Delete_absent_or_present "a" swarm_with_a Hi) as (_ & Hp & _).
    apply (Hp peer_5). vm_compute. reflexivity.
  - destruct (Delete_absent_or_present "b" swarm_with_a Hi) as (Ha & _ & _).
    apply Ha. vm_compute. reflexivity.
Defined.

End SwarmClaims.

(* ===================================================================== *)
(** * Properties of the instance runtime *)
(* ===================================================================== *)

Section SendToClaims.

Import Runtime.

(** The hardware address [mac] leads to no endpoint: it is not indexed,
    or the id it is indexed to is not stored, or the peer stored there has
    no endpoint. *)
Definition unresolvable (mac : string) (l : SwarmTable.Swarm) : Prop :=
  SwarmTable.mget (SwarmTable.tableMacID l) mac = None
  \/ (exists id, SwarmTable.mget (SwarmTable.tableMacID l) mac = Some id
                 /\ SwarmTable.GetPeer id l = None)
  \/ (exists id peer, SwarmTable.mget (SwarmTable.tableMacID l) mac = Some id
                      /\ SwarmTable.GetPeer id l = Some peer
                      /\ Endpoint peer = None).

(** The errors [SendTo] raises itself, before it touches the socket. *)
Definition guard_error (e : error) : Prop :=
  e = "SendTo: nil peer list" \/ e = "SendTo: nil udp socket"
  \/ e = "SendTo: nil msg" \/ e = "SendTo: nil dst".

Lemma GetEndpoint_unresolvable mac l :
  unresolvable mac l ->
  SwarmTable.GetEndpoint mac l
  = (None, Some "Specified hardware address was not found in table").
Proof.
  unfold unresolvable, SwarmTable.GetEndpoint, SwarmTable.GetPeer.
  intros [H | [(id & H & Hp) | (id & peer & H & Hp & He)]]; rewrite H;
    [reflexivity | now rewrite Hp | now rewrite Hp, He].
Qed.

Lemma GetEndpoint_shape mac l :
  (exists ep, SwarmTable.GetEndpoint mac l = (Some ep, None))
  \/ SwarmTable.GetEndpoint mac l
     = (None, Some "Specified hardware address was not found in table").
Proof.
  unfold SwarmTable.GetEndpoint.
  destruct (SwarmTable.mget (SwarmTable.tableMacID l) mac) as [id |]; [| now right].
  destruct (SwarmTable.mget (SwarmTable.peers l) id) as [peer |]; [| now right].
  destruct (Endpoint peer) as [ep |]; [left; now exists ep | now right].
Qed.

(** C10: on an instance with a swarm table and a socket, [SendTo] with a
    message and a destination hardware address that leads to no endpoint
    returns 0 and no error; and whenever [SendTo] returns an error, it is
    one of its own guard errors (with -1), or an endpoint was found and
    the error is the one the socket's send returned. *)
Theorem SendTo_unresolved_is_silent {M : Type}
    (SendMessage : M -> UDPAddr -> Z * option error)
    (p : PeerToPeer) (l : SwarmTable.Swarm) (sock : Network)
    (hw : list byte) (m : M) :
  Swarm p = Some l ->
  UDPSocket p = Some sock ->
  unresolvable (HW_String (Some hw)) l ->
  SendTo M SendMessage (Some hw) (Some m) p = (0, None)
  /\ forall dst msg n err,
       SendTo M SendMessage dst msg p = (n, Some err) ->
       (n = -1 /\ guard_error err)
       \/ exists ep m', msg = Some m'
                        /\ SwarmTable.GetEndpoint (HW_String dst) l = (Some ep, None)
                        /\ SendMessage m' ep = (n, Some err).
Proof.
  intros Hs Hu Hun. unfold SendTo. rewrite Hs, Hu. split.
  - now rewrite (GetEndpoint_unresolvable _ _ Hun).
  - intros dst msg n err.
    destruct msg as [m' |].
    2:{ intros [= <- <-]. left. unfold guard_error. auto. }
    destruct dst as [d |].
    2:{ intros [= <- <-]. left. unfold guard_error. auto 6. }
    destruct (GetEndpoint_shape (HW_String (Some d)) l) as [[ep Hep] | Hnf];
      [rewrite Hep | rewrite Hnf].
    + intros Hsend. right. exists ep, m'. auto.
    + discriminate.
Qed.

Definition instance_of (l : SwarmTable.Swarm) : PeerToPeer :=
  mkP2P (Some (mkNetwork 6881 6881)) (Some (mkDHT "" "")) false false false ""
        None (Some l) IPnil.

Lemma SendTo_unresolved_is_silent_witness :
  unresolvable "06:00:00:00:00:05" swarm_with_a
  /\ SendTo unit (fun _ _ => (10, None)) (Some [x06; x00; x00; x00; x00; x05])
       (Some tt) (instance_of swarm_with_a) = (0, None).
Proof.
  assert (Hun : unresolvable (HW_String (Some [x06; x00; x00; x00; x00; x05])) swarm_with_a).
  { right. right. exists "a", peer_5. repeat split; vm_compute; reflexivity. }
  split; [exact Hun |].
  apply (SendTo_unresolved_is_silent (fun _ _ => (10, None)) (instance_of swarm_with_a)
           swarm_with_a (mkNetwork 6881 6881) [x06; x00; x00; x00; x00; x05] tt
           eq_refl eq_refl Hun).
Defined.

End SendToClaims.

Section RemoveStoppedClaims.

Import Runtime.

Definition stopped_5 : NetworkPeer :=
  mkPeer (IPv4 x0a x01 x00 x05) (Some [x06; x00; x00; x00; x00; x05]) None PeerStateStop.
Definition stopped_6 : NetworkPeer :=
  mkPeer (IPv4 x0a x01 x00 x06) (Some [x06; x00; x00; x00; x00; x06]) None PeerStateStop.

(** A swarm table with two peers, both in state [STOPPED]. *)
Definition two_stopped : SwarmTable.Swarm :=
  snd (SwarmTable.Update "b" stopped_6
         (snd (SwarmTable.Update "a" stopped_5 (SwarmTable.Init SwarmTable.zero)))).

Lemma two_stopped_peers :
  SwarmTable.Get two_stopped = <["b" := stopped_6]> (<["a" := stopped_5]> ∅).
Proof.
  unfold two_stopped, SwarmTable.Init.
  rewrite !Update_keyed; try reflexivity; vm_compute; discriminate.
Qed.

(** C2 fails on the code: with two peers in state [STOPPED], whatever
    order the [range] takes, one call of [removeStoppedPeers] leaves a
    peer in state [STOPPED] in the table. *)
Theorem removeStoppedPeers_leaves_stopped_peer (order : list string) :
  iteration_order order (SwarmTable.Get two_stopped) ->
  exists l' id q,
    Swarm (snd (removeStoppedPeers order (instance_of two_stopped))) = Some l'
    /\ SwarmTable.GetPeer id l' = Some q
    /\ State q = PeerStateStop.
Proof.
  intros [_ Hmem]. unfold removeStoppedPeers. cbn [instance_of Swarm snd with_swarm].
  destruct order as [| h t].
  { exfalso. assert (Ha : "a" ∈ @nil string).
    { apply Hmem. rewrite two_stopped_peers.
      rewrite lookup_insert_ne by discriminate. rewrite lookup_insert_eq. eauto. }
    inversion Ha. }
  assert (Hh : h = "a" \/ h = "b").
  { assert (Hin : is_Some (SwarmTable.Get two_stopped !! h))
      by (apply Hmem; left).
    rewrite two_stopped_peers in Hin.
    destruct (decide (h = "b")) as [-> | Hb]; [now right |].
    rewrite lookup_insert_ne in Hin by congruence.
    destruct (decide (h = "a")) as [-> | Ha]; [now left |].
    rewrite lookup_insert_ne in Hin by congruence.
    rewrite lookup_empty in Hin. destruct Hin as [? Hin]. discriminate. }
  unfold range. cbn [omap list_omap].
  destruct Hh as [-> | ->].
  - replace (SwarmTable.Get two_stopped !! "a") with (Some stopped_5)
      by (vm_compute; reflexivity).
    cbn. eexists _, "b", stopped_6.
    split; [reflexivity |]. split; [vm_compute |]; reflexivity.
  - replace (SwarmTable.Get two_stopped !! "b") with (Some stopped_6)
      by (vm_compute; reflexivity).
    cbn. eexists _, "a", stopped_5.
    split; [reflexivity |]. split; [vm_compute |]; reflexivity.
Qed.

Lemma removeStoppedPeers_leaves_stopped_peer_witness :
  iteration_order ["a"; "b"] (SwarmTable.Get two_stopped)
  /\ exists l' id q,
       Swarm (snd (removeStoppedPeers ["a"; "b"] (instance_of two_stopped))) = Some l'
       /\ SwarmTable.GetPeer id l' = Some q
       /\ State q = PeerStateStop.
Proof.
  assert (Ho : iteration_order ["a"; "b"] (SwarmTable.Get two_stopped)).
  { split.
    - repeat constructor; intros Hx; apply list_elem_of_In in Hx; simpl in Hx;
        intuition discriminate.
    - intros id. rewrite two_stopped_peers. split.
      + intros Hin. apply list_elem_of_In in Hin.
        destruct Hin as [<- | [<- | []]].
        * rewrite lookup_insert_ne by discriminate. rewrite lookup_insert_eq. eauto.
        * rewrite lookup_insert_eq. eauto.
      + intros Hs.
        destruct (decide (id = "b")) as [-> | Hb]; [set_solver |].
        rewrite lookup_insert_ne in Hs by congruence.
        destruct (decide (id = "a")) as [-> | Ha]; [set_solver |].
        rewrite lookup_insert_ne in Hs by congruence.
        rewrite lookup_empty in Hs. destruct Hs as [? Hs]. discriminate. }
  split; [exact Ho |].
  exact (removeStoppedPeers_leaves_stopped_peer ["a"; "b"] Ho).
Defined.

End RemoveStoppedClaims.

(* ===================================================================== *)
(** * Properties of the text forms *)
(* ===================================================================== *)

Section TextFacts.

Import Utils.

(** ** Splitting *)

Lemma contains_app c (a b : string) :
  contains c (a +:+ b) = contains c a || contains c b.
Proof.
  induction a as [| x a IH]; simpl; [reflexivity |].
  rewrite IH. now rewrite orb_assoc.
Qed.

Lemma Split_whole sep s : contains sep s = false -> Split sep s = [s].
Proof.
  induction s as [| c s IH]; simpl; [reflexivity |].
  intros H. apply orb_false_elim in H as [Hc Hs].
  rewrite Hc, (IH Hs). reflexivity.
Qed.

Lemma Split_field sep a b :
  contains sep a = false ->
  Split sep (a +:+ String sep b) = a :: Split sep b.
Proof.
  induction a as [| c a IH]; simpl.
  - intros _. now rewrite Ascii.eqb_refl.
  - intros H. apply orb_false_elim in H as [Hc Ha].
    rewrite Hc, (IH Ha). reflexivity.
Qed.

(** ** Hardware addresses *)

Lemma xtoi_hex2 b : xtoi (hex2 b) = (Byte.to_N b, 2%nat, true).
Proof. destruct b; reflexivity. Qed.

Lemma byte_of_to_N b : byte_of_N (Byte.to_N b) = b.
Proof. destruct b; reflexivity. Qed.

Lemma contains_hex2 b c :
  (c = "," \/ c = ".")%char -> contains c (hex2 b) = false.
Proof. intros [-> | ->]; destruct b; reflexivity. Qed.

Lemma hw_bytes_string_cons first b l :
  hw_bytes_string first (b :: l)
  = (if first then "" else ":") +:+ hex2 b +:+ hw_bytes_string false l.
Proof. destruct first; reflexivity. Qed.

Lemma xtoi2_hex2 b rest e :
  match rest with EmptyString => true | String c _ => Ascii.eqb c e end = true ->
  xtoi2 (hex2 b +:+ rest) e = Some b.
Proof.
  intros H. unfold xtoi2.
  change (drop_str 2 (hex2 b +:+ rest)) with rest. rewrite H.
  replace (String.substring 0 2 (hex2 b +:+ rest)) with (hex2 b)
    by (destruct rest; reflexivity).
  rewrite xtoi_hex2. simpl. now rewrite byte_of_to_N.
Qed.

Lemma parse_mac_groups_render l : forall b,
  parse_mac_groups (S (length l)) (hex2 b +:+ hw_bytes_string false l) ":" = Some (b :: l).
Proof.
  induction l as [| b' l IH]; intros b.
  - cbn [parse_mac_groups length hw_bytes_string].
    rewrite xtoi2_hex2 by reflexivity. reflexivity.
  - cbn [parse_mac_groups length]. rewrite hw_bytes_string_cons.
    rewrite xtoi2_hex2 by reflexivity.
    change (drop_str 3 (hex2 b +:+ ":" +:+ hex2 b' +:+ hw_bytes_string false l))
      with (hex2 b' +:+ hw_bytes_string false l).
    cbn [parse_mac_groups] in IH. rewrite IH. reflexivity.
Qed.

Lemma hw_bytes_string_length l :
  String.length (hw_bytes_string false l) = (3 * length l)%nat.
Proof.
  induction l as [| b l IH]; [reflexivity |].
  cbn [hw_bytes_string length String.length]. rewrite IH. lia.
Qed.

(** A hardware address of 6, 8 or 20 bytes is read back from its text. *)
Lemma ParseMAC_HW_String l :
  mac_len_ok (Z.of_nat (length l)) = true ->
  ParseMAC (HW_String (Some l)) = Some l.
Proof.
  intros Hlen.
  assert (Hge : (6 <= length l)%nat).
  { unfold mac_len_ok in Hlen.
    repeat (apply orb_prop in Hlen; destruct Hlen as [Hlen | Hlen]);
      apply Z.eqb_eq in Hlen; lia. }
  destruct l as [| b [| b2 l]]; try (simpl in Hge; lia).
  unfold HW_String, ParseMAC.
  assert (Hsl : strlen (hw_bytes_string true (b :: b2 :: l))
                = 3 * Z.of_nat (length (b :: b2 :: l)) - 1).
  { unfold strlen. cbn [hw_bytes_string String.length length].
    rewrite hw_bytes_string_length. lia. }
  rewrite Hsl.
  replace (3 * Z.of_nat (length (b :: b2 :: l)) - 1 + 1)
    with (Z.of_nat (length (b :: b2 :: l)) * 3) by lia.
  rewrite Z.mod_mul, Z.div_mul by lia.
  replace (3 * Z.of_nat (length (b :: b2 :: l)) - 1 <? 14) with false
    by (symmetry; apply Z.ltb_ge; lia).
  change (String.get 2 (hw_bytes_string true (b :: b2 :: l))) with (Some ":"%char).
  change (String.get 4 (hw_bytes_string true (b :: b2 :: l)))
    with (Some (hexDigit (N.land (Byte.to_N b2) 15))).
  cbn [Ascii.eqb Bool.eqb orb andb negb Z.eqb]. rewrite Hlen. cbn [negb].
  rewrite Nat2Z.id.
  exact (parse_mac_groups_render (b2 :: l) b).
Qed.

Lemma contains_hw_bytes_string first l : contains "," (hw_bytes_string first l) = false.
Proof.
  revert first. induction l as [| b l IH]; intros first; [reflexivity |].
  rewrite hw_bytes_string_cons, !contains_app, IH, contains_hex2 by auto.
  destruct first; reflexivity.
Qed.

(** ** IPv4 addresses *)

Lemma parse_octet_first b r :
  parse_octet true (uitoa (Byte.to_N b) +:+ String "." r) = Some (b, String "." r).
Proof. destruct b; reflexivity. Qed.

Lemma parse_octet_next b r :
  parse_octet false (String "." (uitoa (Byte.to_N b) +:+ String "." r))
  = Some (b, String "." r).
Proof. destruct b; reflexivity. Qed.

Lemma parse_octet_last b :
  parse_octet false (String "." (uitoa (Byte.to_N b))) = Some (b, "").
Proof. destruct b; reflexivity. Qed.

Lemma first_dot_or_colon_octet b r :
  first_dot_or_colon (uitoa (Byte.to_N b) +:+ String "." r) = Some "."%char.
Proof. destruct b; reflexivity. Qed.

Lemma octet_not_auto b r :
  String.eqb (uitoa (Byte.to_N b) +:+ String "." r) "auto" = false.
Proof. destruct b; reflexivity. Qed.

Lemma contains_octet b c :
  (c = "," \/ c = ":")%char -> contains c (uitoa (Byte.to_N b)) = false.
Proof. intros [-> | ->]; destruct b; reflexivity. Qed.

Lemma parseIPv4_IP_String a b c d :
  parseIPv4 (IP_String (IPv4 a b c d)) = IPv4 a b c d.
Proof.
  unfold parseIPv4, IP_String.
  repeat (change ("." +:+ ?s) with (String "." s)).
  rewrite parse_octet_first, parse_octet_next, parse_octet_next, parse_octet_last.
  reflexivity.
Qed.

(** An IPv4 address is read back from its dotted text. *)
Lemma ParseIP_IP_String a b c d :
  ParseIP (IP_String (IPv4 a b c d)) = IPv4 a b c d.
Proof.
  unfold ParseIP.
  replace (first_dot_or_colon (IP_String (IPv4 a b c d))) with (Some "."%char)
    by (symmetry; apply first_dot_or_colon_octet).
  cbn [Ascii.eqb Bool.eqb andb]. apply parseIPv4_IP_String.
Qed.

Lemma contains_IP_String ip c :
  (c = "," \/ c = ":")%char -> contains c (IP_String ip) = false.
Proof.
  intros Hc. destruct ip as [| a b c' d].
  - destruct Hc as [-> | ->]; reflexivity.
  - unfold IP_String. rewrite !contains_app, !contains_octet by assumption.
    destruct Hc as [-> | ->]; reflexivity.
Qed.

(** ** UDP addresses *)

(** Ports are checked one by one. *)
Definition port_text_ok (n : N) : bool :=
  let '(m, len, ok) := dtoi (uitoa n) in
  N.eqb m n && Nat.eqb len (String.length (uitoa n)) && ok
  && negb (contains ":" (uitoa n)) && negb (contains "," (uitoa n)).

Fixpoint ports_ok_from (n : N) (count : nat) : bool :=
  match count with
  | O => true
  | S count' => port_text_ok n && ports_ok_from (N.succ n) count'
  end.

Lemma ports_ok_from_spec count : forall n m,
  ports_ok_from n count = true ->
  (n <= m)%N -> (m < n + N.of_nat count)%N -> port_text_ok m = true.
Proof.
  induction count as [| count IH]; intros n m H Hle Hlt; [lia |].
  cbn [ports_ok_from] in H. apply andb_prop in H as [Hn Hrest].
  destruct (N.eq_dec n m) as [<- | Hne]; [assumption |].
  apply (IH (N.succ n)); [assumption | lia | lia].
Qed.

Lemma all_ports_ok : ports_ok_from 0 (N.to_nat 65536) = true.
Proof. vm_compute. reflexivity. Qed.

Lemma port_text (n : N) :
  (n <= 65535)%N ->
  dtoi (uitoa n) = (n, String.length (uitoa n), true)
  /\ contains ":" (uitoa n) = false /\ contains "," (uitoa n) = false.
Proof.
  intros Hn.
  assert (H : port_text_ok n = true)
    by (apply (ports_ok_from_spec _ _ _ all_ports_ok); lia).
  unfold port_text_ok in H.
  destruct (dtoi (uitoa n)) as [[m len] ok].
  repeat (apply andb_prop in H; destruct H as [H ?]).
  apply N.eqb_eq in H. apply Nat.eqb_eq in H3. subst.
  repeat split; now apply negb_true_iff.
Qed.

Lemma split_last_colon_none p : contains ":" p = false -> split_last_colon p = None.
Proof.
  induction p as [| c p IH]; simpl; [reflexivity |].
  intros H. apply orb_false_elim in H as [Hc Hp].
  now rewrite (IH Hp), Hc.
Qed.

Lemma split_last_colon_app h p :
  contains ":" p = false ->
  split_last_colon (h +:+ String ":" p) = Some (h, p).
Proof.
  intros Hp. induction h as [| c h IH]; simpl.
  - now rewrite (split_last_colon_none p Hp).
  - now rewrite IH.
Qed.

(** A UDP address with an IPv4 host and a port up to 65535 is read back
    from its text, whatever the resolver does with other texts. *)
Lemma ResolveUDPAddr_String r a b c d port :
  (port <= 65535)%N ->
  ResolveUDPAddr r (UDPAddr_String (mkUDPAddr (IPv4 a b c d) port))
  = Some (mkUDPAddr (IPv4 a b c d) port).
Proof.
  intros Hport. destruct (port_text port Hport) as (Hd & Hc & _).
  unfold ResolveUDPAddr, UDPAddr_String. cbn [uIP uPort].
  change (":" +:+ ?s) with (String ":" s).
  rewrite split_last_colon_app by assumption.
  rewrite parseIPv4_IP_String, Hd, Nat.eqb_refl.
  replace (port <=? 65535)%N with true by (symmetry; now apply N.leb_le).
  reflexivity.
Qed.

Lemma contains_UDPAddr_String ep :
  (uPort ep <= 65535)%N -> contains "," (UDPAddr_String ep) = false.
Proof.
  intros Hport. destruct (port_text _ Hport) as (_ & _ & Hc).
  unfold UDPAddr_String. rewrite !contains_app, Hc.
  destruct (uIP ep); [reflexivity |].
  rewrite contains_IP_String by auto. reflexivity.
Qed.

End TextFacts.

(* ===================================================================== *)
(** * Introductions *)
(* ===================================================================== *)

Section IntroductionClaims.

Import Utils Runtime Handlers.

Lemma bogus_split_parse (r : string -> option UDPAddr) (intro : string) :
  length (Split "," intro) <> 4%nat ->
  ParseIntroString r intro
  = (None, Some ("Failed to parse introduction string: " +:+ intro))
  /\ forall p, HandleIntroMessage r intro p
               = (Some ("Failed to parse introduction string: " +:+ intro), p).
Proof.
  intros Hlen.
  assert (Hp : ParseIntroString r intro
               = (None, Some ("Failed to parse introduction string: " +:+ intro))).
  { unfold ParseIntroString.
    replace (Nat.eqb (length (Split "," intro)) 4) with false
      by (symmetry; now apply Nat.eqb_neq).
    reflexivity. }
  split; [exact Hp |]. intros p. unfold HandleIntroMessage. now rewrite Hp.
Qed.

(** C7: an introduction that does not split into exactly 4
    comma-separated fields makes [ParseIntroString] return the error
    "Failed to parse introduction string: ..." and no handshake; handling
    it returns that error and leaves the instance, hence its swarm table,
    as it was. *)
Theorem bogus_introduction_rejected (r : string -> option UDPAddr)
    (intro : string) (p : PeerToPeer) :
  length (Split "," intro) <> 4%nat ->
  ParseIntroString r intro
  = (None, Some ("Failed to parse introduction string: " +:+ intro))
  /\ HandleIntroMessage r intro p
     = (Some ("Failed to parse introduction string: " +:+ intro), p).
Proof.
  intros Hlen. destruct (bogus_split_parse r intro Hlen) as [Hp Hh].
  split; [exact Hp | apply Hh].
Qed.

Lemma bogus_introduction_rejected_witness :
  length (Split "," "a,06:00:00:00:00:05,10.1.0.5") <> 4%nat
  /\ HandleIntroMessage (fun _ => None) "a,06:00:00:00:00:05,10.1.0.5"
       (instance_of swarm_with_a)
     = (Some "Failed to parse introduction string: a,06:00:00:00:00:05,10.1.0.5",
        instance_of swarm_with_a).
Proof.
  assert (H : length (Split "," "a,06:00:00:00:00:05,10.1.0.5") <> 4%nat)
    by (vm_compute; discriminate).
  split; [exact H |].
  exact (proj2 (bogus_introduction_rejected (fun _ => None) _
                  (instance_of swarm_with_a) H)).
Defined.

(** The device of the peer that a handshake describes, and the line that
    peer sends: its id, its hardware address, its overlay IP or "auto",
    and the text of the endpoint. *)
Definition device_of (hs : PeerHandshake) : TAPDarwin :=
  mkTAP (hsIP hs) IPnil (hsHardwareAddr hs) "" "" false false (hsAutoIP hs).

Definition serialize (hs : PeerHandshake) : string :=
  introString (device_of hs) (hsID hs)
    (match hsEndpoint hs with
     | Some ep => UDPAddr_String ep
     | None => "<nil>"
     end).

(** The handshakes of the round trip: a hardware address of 6, 8 or 20
    bytes; an IPv4 overlay address, or none together with the automatic
    flag; an endpoint with an IPv4 host and a port up to 65535. *)
Definition wellformed_handshake (hs : PeerHandshake) : bool :=
  match hsHardwareAddr hs with
  | Some l => mac_len_ok (Z.of_nat (length l))
  | None => false
  end
  && (if hsAutoIP hs then IP_is_nil (hsIP hs) else negb (IP_is_nil (hsIP hs)))
  && match hsEndpoint hs with
     | Some ep => negb (IP_is_nil (uIP ep)) && (uPort ep <=? 65535)%N
     | None => false
     end.

Definition handshake_with_comma : PeerHandshake :=
  mkHandshake "a,b" (IPv4 x0a x01 x00 x05) (Some [x06; x00; x00; x00; x00; x05])
    (Some (mkUDPAddr (IPv4 xc0 x00 x02 x01) 6881)) false.

(** C6, as stated, fails: a handshake with a valid IPv4 address, a valid
    hardware address and a resolvable endpoint whose id contains a comma
    serializes to a line of 5 fields, which no resolver makes
    [ParseIntroString] accept. *)
Lemma intro_roundtrip_fails_on_comma :
  wellformed_handshake handshake_with_comma = true
  /\ forall r, ParseIntroString r (serialize handshake_with_comma)
               <> (Some handshake_with_comma, None).
Proof.
  split; [vm_compute; reflexivity |].
  intros r.
  destruct (bogus_split_parse r (serialize handshake_with_comma)) as [H _].
  - vm_compute. discriminate.
  - rewrite H. discriminate.
Qed.

Lemma Split_intro id mac ip ep :
  contains "," id = false -> contains "," mac = false ->
  contains "," ip = false -> contains "," ep = false ->
  Split "," (id +:+ "," +:+ mac +:+ "," +:+ ip +:+ "," +:+ ep) = [id; mac; ip; ep].
Proof.
  intros Hid Hmac Hip Hep.
  repeat (change ("," +:+ ?s) with (String "," s)).
  rewrite !Split_field by assumption. now rewrite Split_whole.
Qed.

(** C6 (amended): for every handshake whose id contains no comma, whose
    IP is a valid IPv4 address or "auto", whose hardware address is a
    valid MAC and whose endpoint has an IPv4 host and a port, parsing the
    serialization "id,mac,ip,endpoint" yields the handshake, under every
    resolver. *)
Theorem intro_roundtrip (r : string -> option UDPAddr) (hs : PeerHandshake) :
  contains "," (hsID hs) = false ->
  wellformed_handshake hs = true ->
  ParseIntroString r (serialize hs) = (Some hs, None).
Proof.
  destruct hs as [id ip hw ep auto]. unfold wellformed_handshake. cbn.
  intros Hid Hwf.
  apply andb_prop in Hwf as [Hwf Hep]. apply andb_prop in Hwf as [Hhw Hip].
  destruct hw as [l |]; [| discriminate].
  destruct ep as [[eip port] |]; [| discriminate].
  cbn in Hep. apply andb_prop in Hep as [Heip Hport].
  destruct eip as [| e0 e1 e2 e3]; [discriminate |].
  apply N.leb_le in Hport.
  set (ipText := if negb auto then IP_String ip else "auto").
  assert (Hiptext : contains "," ipText = false).
  { subst ipText. destruct auto; [reflexivity |]. apply contains_IP_String. auto. }
  unfold ParseIntroString, serialize, introString. cbn.
  fold ipText.
  rewrite Split_intro;
    [| assumption | apply contains_hw_bytes_string | assumption
     | now apply contains_UDPAddr_String].
  cbn [length Nat.eqb negb nth].
  change (hw_bytes_string true l) with (HW_String (Some l)).
  rewrite ParseMAC_HW_String by assumption.
  rewrite ResolveUDPAddr_String by assumption.
  subst ipText. destruct auto; cbn [negb].
  - destruct ip; [reflexivity | discriminate].
  - destruct ip as [| a b c d]; [discriminate |].
    replace (String.eqb (IP_String (IPv4 a b c d)) "auto") with false
      by (symmetry; apply octet_not_auto).
    rewrite ParseIP_IP_String. reflexivity.
Qed.

Definition handshake_5 : PeerHandshake :=
  mkHandshake "7c8f2a52-5bd4-11ea-8e2d-0242ac130003" (IPv4 x0a x01 x00 x05)
    (Some [x06; x00; x00; x00; x00; x05])
    (Some (mkUDPAddr (IPv4 xc0 x00 x02 x01) 6881)) false.

Lemma intro_roundtrip_witness :
  contains "," (hsID handshake_5) = false
  /\ wellformed_handshake handshake_5 = true
  /\ ParseIntroString (fun _ => None) (serialize handshake_5) = (Some handshake_5, None).
Proof.
  split; [vm_compute; reflexivity |]. split; [vm_compute; reflexivity |].
  apply (intro_roundtrip (fun _ => None) handshake_5); vm_compute; reflexivity.
Defined.

End IntroductionClaims.

(* ===================================================================== *)
(** * Construction of an instance *)
(* ===================================================================== *)

Section ConstructionClaims.

Import Utils Runtime.

Lemma newTAP_default tool :
  newTAP tool "127.0.0.1" "00:00:00:00:00:00" "" DefaultMTU false
  = (Some (mkTAP (IPv4 x7f x00 x00 x01) IPnil (Some [x00; x00; x00; x00; x00; x00])
             "" tool false false false), None).
Proof. reflexivity. Qed.

(** The generated address: the octet 06, then the random octets 1 to 5. *)
Lemma GenerateMAC_random b0 b1 b2 b3 b4 b5 :
  GenerateMAC (Some [b0; b1; b2; b3; b4; b5])
  = (HW_String (Some [x06; b1; b2; b3; b4; b5]), Some [x06; b1; b2; b3; b4; b5]).
Proof.
  unfold GenerateMAC. cbn [nth insert list_insert].
  change ("06:" +:+ hex2 b1 +:+ ":" +:+ hex2 b2 +:+ ":" +:+ hex2 b3 +:+ ":" +:+
          hex2 b4 +:+ ":" +:+ hex2 b5)
    with (HW_String (Some [x06; b1; b2; b3; b4; b5])).
  rewrite ParseMAC_HW_String by reflexivity. reflexivity.
Qed.

(** An environment in which everything works. *)
Definition friendly : NewEnv :=
  mkNewEnv (Some [x11; x22; x33; x44; x55; x66]) "/sbin/ifconfig" 0
           (fun hash => inl (mkDHT "7c8f2a52-5bd4-11ea-8e2d-0242ac130003" hash)).

(** C5, as stated, fails in its second half: with a mac option that is
    not empty and does not parse, [New] returns an instance. *)
Lemma New_accepts_invalid_mac :
  ParseMAC "not-a-mac" = None
  /\ New friendly "not-a-mac" "swarm" "" "" "" "" false 0 IPnil <> None.
Proof. split; [reflexivity | vm_compute; discriminate]. Qed.

(** C5 (amended): whenever the rendezvous client initialises, [New]
    returns an instance with a device.  If the mac option is empty and the
    random source delivers six octets, the hardware address of the device
    is 06 followed by the octets 1 to 5 (the first octet is the constant
    06, which has the locally-administered bit 0x02).  If the mac option
    is not empty and does not parse, the hardware address of the device is
    nil, and assigning the interface of that instance returns an error. *)
Theorem New_hardware_address (env : NewEnv) (mac hash keyfile key ttl target : string)
    (fwd : bool) (port : Z) (outbound : IP) (dht : DHTClient) :
  dhtInit env hash = inl dht ->
  exists p t,
    New env mac hash keyfile key ttl target fwd port outbound = Some p
    /\ Interface p = Some t
    /\ (mac = "" ->
        forall b0 b1 b2 b3 b4 b5, rnd env = Some [b0; b1; b2; b3; b4; b5] ->
        tMac t = Some [x06; b1; b2; b3; b4; b5])
    /\ (mac <> "" -> ParseMAC mac = None ->
        tMac t = None
        /\ forall (M : Type) (E : Env) (name : string) (w : World M),
             inst M w = p -> fst (AssignInterface M E name w) <> None).
Proof.
  intros Hdht. unfold New. rewrite newTAP_default, Hdht.
  eexists _, _. split; [reflexivity |]. split; [reflexivity |].
  cbn [tMac SetHardwareAddress]. split.
  - intros -> b0 b1 b2 b3 b4 b5 Hrnd. unfold validateMac. cbn [String.eqb negb].
    rewrite Hrnd, GenerateMAC_random. reflexivity.
  - intros Hne Hbad. unfold validateMac.
    rewrite (eqb_empty_false mac Hne), Hbad. cbn [negb].
    split; [reflexivity |].
    intros M E name w Hw. unfold AssignInterface. rewrite Hw.
    cbn [Interface tConfigured SetHardwareAddress].
    destruct (String.eqb name ""); [discriminate |].
    cbn. discriminate.
Qed.

Lemma New_hardware_address_witness :
  dhtInit friendly "swarm" = inl (mkDHT "7c8f2a52-5bd4-11ea-8e2d-0242ac130003" "swarm")
  /\ exists p t,
       New friendly "" "swarm" "" "" "" "" false 0 IPnil = Some p
       /\ Interface p = Some t
       /\ tMac t = Some [x06; x22; x33; x44; x55; x66].
Proof.
  split; [reflexivity |].
  destruct (New_hardware_address friendly "" "swarm" "" "" "" "" false 0 IPnil
              (mkDHT "7c8f2a52-5bd4-11ea-8e2d-0242ac130003" "swarm") eq_refl)
    as (p & t & Hnew & Hi & Hgen & _).
  exists p, t. split; [exact Hnew |]. split; [exact Hi |].
  exact (Hgen eq_refl x11 x22 x33 x44 x55 x66 eq_refl).
Defined.

End ConstructionClaims.

(* ===================================================================== *)
(** * Latency probing *)
(* ===================================================================== *)

Section ProbeClaims.

Import EndpointProbe.

Variable P2PMessage : Type.
Variable Network : Type.
Variable CreateMessageStatic : Z -> list byte -> P2PMessage + error.
Variable MsgTypeLatency : Z.
Variable LatencyRequestHeader : list byte.
Variable EndpointLatencyRequestInterval : Z.
Variable MarshalBinary : Z -> list byte.

Local Abbreviation Measure :=
  (Measure P2PMessage Network CreateMessageStatic MsgTypeLatency
     LatencyRequestHeader EndpointLatencyRequestInterval MarshalBinary).
Local Abbreviation probes :=
  (probes P2PMessage Network CreateMessageStatic MsgTypeLatency
     LatencyRequestHeader EndpointLatencyRequestInterval MarshalBinary).

Lemma Measure_noop e n id clk :
  broken e = true \/ t_since clk - LastLatencyQuery e < EndpointLatencyRequestInterval ->
  Measure e n id clk = (e, []).
Proof.
  intros H. unfold EndpointProbe.Measure.
  destruct (broken e); [reflexivity |].
  destruct H as [H | H]; [discriminate |].
  destruct (Addr e); [| reflexivity]. destruct n; [| reflexivity].
  now apply Z.ltb_lt in H as ->.
Qed.

(** What a call of [Measure] can do: nothing; or move the stamp forward
    without sending; or send one message to the endpoint's address, which
    it does only to an endpoint that is not broken and was last queried
    at least an interval ago, leaving the stamp at the reading [t_stamp]. *)
Lemma Measure_cases e n id clk :
  let '(e', sent) := Measure e n id clk in
  broken e' = broken e
  /\ ((e' = e /\ sent = [])
      \/ (sent = [] /\ broken e = false
          /\ (LastLatencyQuery e' = t_stamp clk \/ LastLatencyQuery e' = t_err clk))
      \/ (exists msg addr, sent = [(msg, addr)] /\ Addr e = Some addr
          /\ broken e = false
          /\ EndpointLatencyRequestInterval <= t_since clk - LastLatencyQuery e
          /\ LastLatencyQuery e' = t_stamp clk)).
Proof.
  unfold EndpointProbe.Measure.
  destruct (broken e) eqn:Hb; [rewrite Hb; auto |].
  destruct (Addr e) as [addr |] eqn:Ha; [| rewrite Hb; auto].
  destruct n; [| rewrite Hb; auto].
  destruct (t_since clk - LastLatencyQuery e <? EndpointLatencyRequestInterval) eqn:Hlt;
    [rewrite Hb; auto |].
  apply Z.ltb_ge in Hlt.
  destruct (addrToBytes _) as [ba |]; cbn;
    [| rewrite Hb; split; [reflexivity | right; left; auto]].
  destruct (CreateMessageStatic _ _) as [msg | err]; cbn; rewrite Hb.
  - split; [reflexivity |]. right. right. exists msg, addr. auto.
  - split; [reflexivity |]. right. left. auto.
Qed.

Lemma probes_broken calls : forall e,
  broken e = true -> snd (probes calls e) = [].
Proof.
  induction calls as [| [[n id] clk] calls IH]; intros e Hb; [reflexivity |].
  cbn [EndpointProbe.probes]. rewrite Measure_noop by auto.
  specialize (IH e Hb). destruct (probes calls e) as [e2 later].
  cbn in IH |- *. exact IH.
Qed.

Lemma probes_spaced calls : forall e prev,
  LastLatencyQuery e <= prev ->
  clocks_monotone Network prev calls ->
  spaced EndpointLatencyRequestInterval (map fst (snd (probes calls e)))
  /\ forall s rest, map fst (snd (probes calls e)) = s :: rest ->
       EndpointLatencyRequestInterval <= s - LastLatencyQuery e.
Proof.
  induction calls as [| [[n id] clk] calls IH]; intros e prev Hprev Hmono.
  - split; [exact I | discriminate].
  - cbn [clocks_monotone] in Hmono. destruct Hmono as (Hp & (Hc1 & Hc2 & Hc3) & Hrest).
    cbn [EndpointProbe.probes].
    pose proof (Measure_cases e n id clk) as Hm.
    destruct (Measure e n id clk) as [e1 sent]. destruct Hm as [_ Hm].
    assert (Hle : LastLatencyQuery e1 <= t_err clk).
    { destruct Hm as [[-> _] | [(_ & _ & [-> | ->]) | (? & ? & _ & _ & _ & _ & ->)]]; lia. }
    destruct (IH e1 (t_err clk) Hle Hrest) as [IHs IHf].
    destruct (probes calls e1) as [e2 later]. cbn [snd] in *.
    destruct Hm as [[-> ->] | [(-> & _ & Hq) | (msg & addr & -> & _ & _ & Hint & Hq)]].
    + cbn [map app]. split; [exact IHs | exact IHf].
    + cbn [map app]. split; [exact IHs |].
      intros s rest Hs. specialize (IHf s rest Hs). lia.
    + cbn [map app fst]. split.
      * cbn [spaced]. split; [| exact IHs].
        destruct (map fst later) as [| s2 rest] eqn:Hl; [exact I |].
        specialize (IHf s2 rest eq_refl). lia.
      * intros s rest [= <- _]. lia.
Qed.

(** C9: a call of [Measure] on an endpoint that is broken, or whose last
    latency query is less than [EndpointLatencyRequestInterval] before
    the clock reading, changes nothing and sends nothing; in every series
    of [Measure] calls made as the clock advances, a broken endpoint is
    sent no latency message, and two consecutive latency messages to an
    endpoint are stamped at least the interval apart. *)
Theorem Measure_rate_limited (e : Endpoint) (prev : Z) (calls : list (call Network)) :
  LastLatencyQuery e <= prev ->
  clocks_monotone Network prev calls ->
  (forall n id clk,
     broken e = true
     \/ t_since clk - LastLatencyQuery e < EndpointLatencyRequestInterval ->
     Measure e n id clk = (e, []))
  /\ (broken e = true -> snd (probes calls e) = [])
  /\ spaced EndpointLatencyRequestInterval (map fst (snd (probes calls e))).
Proof.
  intros Hprev Hmono. split; [| split].
  - intros n id clk. apply Measure_noop.
  - apply probes_broken.
  - exact (proj1 (probes_spaced calls e prev Hprev Hmono)).
Qed.

End ProbeClaims.

Section ProbeWitness.

Import EndpointProbe.

Definition endpoint_1 : Endpoint :=
  mkEndpoint (Some (mkUDPAddr (IPv4 xc0 x00 x02 x01) 6881)) 0 0 false 0 0.

(** Four calls, with an interval of 2000 between latency queries: the
    second call comes too early and sends nothing. *)
Definition four_calls : list (call unit) :=
  [(Some tt, "id", mkClock 2000 2001 2002 2003);
   (Some tt, "id", mkClock 2500 2501 2502 2503);
   (Some tt, "id", mkClock 4100 4101 4102 4103);
   (Some tt, "id", mkClock 6200 6201 6202 6203)].

Lemma Measure_rate_limited_witness :
  LastLatencyQuery endpoint_1 <= 0
  /\ clocks_monotone unit 0 four_calls
  /\ spaced 2000
       (map fst (snd (probes (list byte) unit (fun _ payload => inl payload) 7 [] 2000
                        (fun _ => []) four_calls endpoint_1))).
Proof.
  assert (H1 : LastLatencyQuery endpoint_1 <= 0) by (cbn; lia).
  assert (H2 : clocks_monotone unit 0 four_calls)
    by (cbn; unfold clock_ordered; cbn; lia).
  split; [exact H1 |]. split; [exact H2 |].
  exact (proj2 (proj2 (Measure_rate_limited (list byte) unit
                         (fun _ payload => inl payload) 7 [] 2000 (fun _ => [])
                         endpoint_1 0 four_calls H1 H2))).
Defined.

End ProbeWitness.

(* ===================================================================== *)
(** * Shutdown *)
(* ===================================================================== *)

Arguments Runtime.inst {P2PMessage} w.
Arguments Runtime.ActiveInterfaces {P2PMessage} w.
Arguments Runtime.now {P2PMessage} w.
Arguments Runtime.ticks {P2PMessage} w.
Arguments Runtime.log {P2PMessage} w.
Arguments Runtime.mkWorld {P2PMessage} inst ActiveInterfaces now ticks log.
Arguments Runtime.EvSend {P2PMessage} msg to.
Arguments Runtime.EvSleep {P2PMessage} d.
Arguments Runtime.EvDeactivated {P2PMessage} ip.
Arguments Runtime.EvPeerState {P2PMessage} id st.
Arguments Runtime.EvShutdown {P2PMessage}.
Arguments Runtime.EvDhtClose {P2PMessage}.
Arguments Runtime.EvSocketClose {P2PMessage}.
Arguments Runtime.EvInterfaceClose {P2PMessage}.
Arguments Runtime.EvReadyToStop {P2PMessage}.
Arguments Runtime.Sleep {P2PMessage} E d w.
Arguments Runtime.swarm_snapshot {P2PMessage} E w.
Arguments Runtime.swarm_length {P2PMessage} w.
Arguments Runtime.add_log {P2PMessage} evs w.
Arguments Runtime.set_inst {P2PMessage} p w.
Arguments Runtime.set_active {P2PMessage} a w.
Arguments Runtime.deactivateInterface {P2PMessage} w.
Arguments Runtime.disconnect_peer {P2PMessage} w item.
Arguments Runtime.drain_wait {P2PMessage} E fuel stopStarted w.
Arguments Runtime.stopPeers {P2PMessage} E fuel w.
Arguments Runtime.stopDHT {P2PMessage} E w.
Arguments Runtime.stopSocket {P2PMessage} E w.
Arguments Runtime.stopInterface {P2PMessage} E w.
Arguments Runtime.Close {P2PMessage} E fuel w.
Arguments Runtime.iface_ip {P2PMessage} w.
Arguments Runtime.iface_subnet {P2PMessage} w.

Section ShutdownFacts.

Import Runtime.

Variable M : Type.
Variable E : Env.

(** The components of the instance that shutdown relies on are there. *)
Definition equipped (p : PeerToPeer) : Prop :=
  is_Some (Interface p) /\ is_Some (Swarm p) /\ is_Some (Dht p) /\ is_Some (UDPSocket p).

(** The instruction given to the peers of a snapshot. *)
Definition disconnects (items : list (string * NetworkPeer)) : list (event M) :=
  map (fun item => EvPeerState (fst item) PeerStateDisconnect) items.

(** What stays as it is while the swarm table is worked on. *)
Definition same_but_swarm (p p' : PeerToPeer) : Prop :=
  Interface p' = Interface p /\ Dht p' = Dht p /\ UDPSocket p' = UDPSocket p
  /\ (is_Some (Swarm p) -> is_Some (Swarm p')).

Lemma same_but_swarm_refl p : same_but_swarm p p.
Proof. unfold same_but_swarm. auto. Qed.

Lemma equipped_same_but_swarm p p' :
  equipped p -> Interface p' = Interface p \/ is_Some (Interface p') ->
  Dht p' = Dht p -> UDPSocket p' = UDPSocket p ->
  (is_Some (Swarm p) -> is_Some (Swarm p')) -> equipped p'.
Proof.
  intros (Hi & Hs & Hd & Hu) Hi' Hd' Hu' Hs'. unfold equipped.
  rewrite Hd', Hu'. repeat split; auto.
  destruct Hi' as [-> | ?]; assumption.
Qed.

Lemma same_but_swarm_trans p q r :
  same_but_swarm p q -> same_but_swarm q r -> same_but_swarm p r.
Proof.
  intros (Hi & Hd & Hu & Hs) (Hi' & Hd' & Hu' & Hs'). unfold same_but_swarm.
  rewrite Hi', Hd', Hu'. repeat split; auto.
Qed.

Lemma disconnect_peer_components (w : World M) item :
  log (disconnect_peer w item)
  = log w ++ [EvPeerState (fst item) PeerStateDisconnect]
  /\ now (disconnect_peer w item) = now w
  /\ ticks (disconnect_peer w item) = ticks w
  /\ same_but_swarm (inst w) (inst (disconnect_peer w item)).
Proof.
  destruct item as [id peer]. cbn. repeat split.
  intros [l Hl]. unfold with_swarm. cbn [Swarm]. rewrite Hl. cbn. eauto.
Qed.

Lemma fold_disconnect items : forall w : World M,
  log (fold_left disconnect_peer items w) = log w ++ disconnects items
  /\ now (fold_left disconnect_peer items w) = now w
  /\ ticks (fold_left disconnect_peer items w) = ticks w
  /\ same_but_swarm (inst w) (inst (fold_left disconnect_peer items w)).
Proof.
  induction items as [| item items IH]; intros w; cbn [fold_left].
  - cbn [disconnects map]. rewrite app_nil_r. auto using same_but_swarm_refl.
  - destruct (IH (disconnect_peer w item)) as (Hl & Hn & Ht & Hsame).
    destruct (disconnect_peer_components w item) as (Hl1 & Hn1 & Ht1 & Hsame1).
    rewrite Hl, Hn, Ht, Hl1, Hn1, Ht1. cbn [disconnects map].
    rewrite <- app_assoc.
    split; [reflexivity | split; [reflexivity | split; [reflexivity |]]].
    exact (same_but_swarm_trans _ _ _ Hsame1 Hsame).
Qed.

Lemma Sleep_components d (w : World M) :
  log (Sleep E d w) = log w ++ [EvSleep d]
  /\ now w + d <= now (Sleep E d w)
  /\ Dht (inst (Sleep E d w)) = Dht (inst w)
  /\ UDPSocket (inst (Sleep E d w)) = UDPSocket (inst w)
  /\ (is_Some (Interface (inst w)) -> is_Some (Interface (inst (Sleep E d w))))
  /\ (is_Some (Swarm (inst w)) -> is_Some (Swarm (inst (Sleep E d w)))).
Proof.
  unfold Sleep, with_iface, with_swarm. cbn. repeat split; try reflexivity; try lia.
  - intros [t ->]. cbn. eauto.
  - intros [l ->]. cbn. eauto.
Qed.

(** The wait for the swarm to drain ends within the fuel, after sleeps
    of 100 ms only, of which all but the last begin within 5 s. *)
Lemma drain_wait_spec fuel : forall (start : Z) (w : World M),
  (0 < fuel)%nat ->
  5 * Second - (now w - start) < (Z.of_nat fuel - 1) * (100 * Millisecond) ->
  exists k w',
    drain_wait E fuel start w = (Finished None, w')
    /\ log w' = log w ++ repeat (EvSleep (100 * Millisecond)) k
    /\ (k = 0%nat \/ (Z.of_nat k - 1) * (100 * Millisecond) <= 5 * Second - (now w - start))
    /\ Dht (inst w') = Dht (inst w)
    /\ UDPSocket (inst w') = UDPSocket (inst w)
    /\ (is_Some (Interface (inst w)) -> is_Some (Interface (inst w')))
    /\ (is_Some (Swarm (inst w)) -> is_Some (Swarm (inst w'))).
Proof.
  induction fuel as [| fuel IH]; intros start w Hpos Hfuel; [lia |].
  - cbn [drain_wait].
    destruct (0 <? swarm_length w).
    2:{ exists 0%nat, w. cbn [repeat]. rewrite app_nil_r. auto 10. }
    destruct (5 * Second <? now w - start) eqn:Hover.
    { exists 0%nat, w. cbn [repeat]. rewrite app_nil_r. auto 10. }
    apply Z.ltb_ge in Hover.
    destruct (Sleep_components (100 * Millisecond) w) as (Hl & Hn & Hd & Hu & Hi & Hs).
    destruct (IH start (Sleep E (100 * Millisecond) w)) as
      (k & w' & Hrun & Hl' & Hk & Hd' & Hu' & Hi' & Hs').
    { unfold Second, Millisecond in *. lia. }
    { unfold Second, Millisecond in *. lia. }
    exists (S k), w'. split; [exact Hrun |].
    split.
    { rewrite Hl', Hl, <- app_assoc. reflexivity. }
    split.
    { right. unfold Second, Millisecond in *. destruct Hk as [-> | Hk]; lia. }
    rewrite Hd', Hu', Hd, Hu. repeat split; auto.
Qed.

End ShutdownFacts.

Section ShutdownClaims.

Import Runtime.








(** ** A shutdown observed *)

(** The drivers of the peers remove them from the table during the
    second sleep; nothing else happens. *)
Definition calm : Env :=
  mkEnv (fun _ => 0%N)
        (fun k l => if Nat.eqb k 1 then SwarmTable.Init l else l)
        (fun _ t => t)
        (fun _ => ["a"])
        None None None None None.

Definition device_5 : TAPDarwin :=
  mkTAP (IPv4 x0a x01 x00 x05) IPnil (Some [x06; x00; x00; x00; x00; x05])
        "tap1" "/sbin/ifconfig" true true false.

Definition running_instance : PeerToPeer :=
  mkP2P (Some (mkNetwork 6881 6881)) (Some (mkDHT "" "swarm")) false false false "swarm"
        (Some device_5) (Some swarm_with_a) IPnil.

Definition running : World unit :=
  mkWorld running_instance [IPv4 x0a x01 x00 x05] 0 0%nat [].





End ShutdownClaims.

(* ===================================================================== *)
(** * IP reconciliation *)
(* ===================================================================== *)

Arguments Runtime.broadcast {P2PMessage} E msg w.

Section ReconciliationFacts.

Import Runtime.

Variable M : Type.
Variable CreateMessage : Z -> list byte -> Z -> bool -> option M * option error.
Variable MsgTypeComm CommIPSubnet CommIPInfo : Z.
Variable E : Env.

Local Abbreviation probeLoop := (probeLoop M CreateMessage MsgTypeComm CommIPInfo E).
Local Abbreviation waitSubnet := (waitSubnet M E).
Local Abbreviation discoverIP :=
  (discoverIP M CreateMessage MsgTypeComm CommIPSubnet CommIPInfo E).

(** The calls of [SendMessage] in a log, in order. *)
Definition sends (lg : list (event M)) : list (option M * UDPAddr) :=
  omap (fun ev => match ev with
                  | EvSend msg to => Some (msg, to)
                  | _ => None
                  end) lg.

(** The [IP_SUBNET] request and the [IP_INFO] query for host [i]. *)
Definition subnetRequest (id : string) : option M :=
  fst (CreateMessage MsgTypeComm (subnetPayload CommIPSubnet id) 0 true).
Definition infoQuery (id : string) (sn : IP) (i : Z) : option M :=
  fst (CreateMessage MsgTypeComm (infoPayload CommIPInfo id sn i) 0 true).

(** Rounds of queries for the hosts [c], [c - 1], [c - 2], ...: the
    query of a round goes to each address of the round. *)
Fixpoint queries (id : string) (sn : IP) (c : Z) (rounds : list (list UDPAddr))
    : list (option M * UDPAddr) :=
  match rounds with
  | [] => []
  | addrs :: rest => map (pair (infoQuery id sn c)) addrs ++ queries id sn (c - 1) rest
  end.


Lemma sends_app lg lg' : sends (lg ++ lg') = sends lg ++ sends lg'.
Proof. unfold sends. apply omap_app. Qed.

Lemma sends_EvSend msg addrs : sends (map (EvSend msg) addrs) = map (pair msg) addrs.
Proof. induction addrs as [| a addrs IH]; [reflexivity |]. cbn. now rewrite <- IH. Qed.

Lemma sends_Sleep d (w : World M) : sends (log (Sleep E d w)) = sends (log w).
Proof. cbn [Sleep log]. rewrite sends_app. cbn. now rewrite app_nil_r. Qed.

Lemma sends_broadcast msg (w : World M) :
  sends (log (broadcast E msg w))
  = sends (log w) ++ map (pair msg) (recipients (swarm_snapshot E w)).
Proof. cbn [broadcast add_log log]. now rewrite sends_app, sends_EvSend. Qed.

Lemma waitSubnet_sends fuel : forall last (w : World M),
  sends (log (snd (waitSubnet fuel last w))) = sends (log w).
Proof.
  induction fuel as [| fuel IH]; intros last w; cbn [Runtime.waitSubnet]; [reflexivity |].
  destruct (IP_is_nil (iface_subnet w)); [| reflexivity].
  destruct (2000 * Millisecond <? now w - last); [reflexivity |].
  now rewrite IH, sends_Sleep.
Qed.

(** The probing loop, entered with counter [i], in any environment: the
    messages it sends are queries for the hosts [i - 1], [i - 2], ... in
    this order, for at most [i] hosts. *)
Lemma probeLoop_hosts fuel id sn : forall i last (w : World M),
  exists rounds : list (list UDPAddr),
    Z.of_nat (length rounds) <= Z.max 0 i
    /\ sends (log (snd (probeLoop fuel id sn i last w)))
       = sends (log w) ++ queries id sn (i - 1) rounds.
Proof.
  induction fuel as [| fuel IH]; intros i last w; cbn [Runtime.probeLoop].
  - exists []. cbn. rewrite app_nil_r. split; [lia | auto].
  - destruct (IP_is_nil (iface_ip w) && (0 <? i)) eqn:Hgo.
    2:{ exists []. cbn. rewrite app_nil_r. split; [lia | auto]. }
    apply andb_prop in Hgo as [_ Hi]. apply Z.ltb_lt in Hi.
    destruct (1500 * Millisecond <? now w - last) eqn:Hfire.
    + destruct (IH (i - 1) (now w)
                  (Sleep E (100 * Millisecond)
                     (broadcast E (fst (CreateMessage MsgTypeComm
                                          (infoPayload CommIPInfo id sn (i - 1)) 0 true)) w)))
        as (rounds & Hlen & Hsends).
      exists (recipients (swarm_snapshot E w) :: rounds).
      split; [cbn [length]; lia |].
      rewrite Hsends, sends_Sleep, sends_broadcast. cbn [queries].
      unfold infoQuery. now rewrite <- app_assoc.
    + destruct (IH i last (Sleep E (100 * Millisecond) w)) as (rounds & Hlen & Hsends).
      exists rounds. split; [exact Hlen |].
      now rewrite Hsends, sends_Sleep.
Qed.

(** ** The loops end *)

Lemma Sleep_now d (w : World M) : now w + d <= now (Sleep E d w).
Proof. cbn [Sleep now]. lia. Qed.

Lemma waitSubnet_finishes fuel : forall last (w : World M),
  (0 < fuel)%nat ->
  2000 * Millisecond - (now w - last) < (Z.of_nat fuel - 1) * (100 * Millisecond) ->
  fst (waitSubnet fuel last w) <> OutOfFuel
  /\ now w <= now (snd (waitSubnet fuel last w)).
Proof.
  induction fuel as [| fuel IH]; intros last w Hpos Hfuel; [lia |].
  cbn [Runtime.waitSubnet].
  destruct (IP_is_nil (iface_subnet w)); [| split; [discriminate | cbn; lia]].
  destruct (2000 * Millisecond <? now w - last) eqn:Hover;
    [split; [discriminate | cbn; lia] |].
  apply Z.ltb_ge in Hover.
  pose proof (Sleep_now (100 * Millisecond) w) as Hs.
  destruct (IH last (Sleep E (100 * Millisecond) w)) as [Hfin Hnow];
    unfold Millisecond in *; try lia.
  split; [exact Hfin | lia].
Qed.

(** The loop for a free address takes a new host at least every 16th
    turn, so its turns are bounded by the counter. *)
Lemma probeLoop_finishes fuel id sn : forall i last (w : World M),
  1600 * Millisecond * Z.max 0 i + Z.max 0 (1600 * Millisecond - (now w - last))
  < Z.of_nat fuel * (100 * Millisecond) ->
  fst (probeLoop fuel id sn i last w) <> OutOfFuel.
Proof.
  induction fuel as [| fuel IH]; intros i last w Hfuel.
  - exfalso. unfold Millisecond in Hfuel. lia.
  - cbn [Runtime.probeLoop].
    destruct (IP_is_nil (iface_ip w) && (0 <? i)) eqn:Hgo; [| discriminate].
    apply andb_prop in Hgo as [_ Hi]. apply Z.ltb_lt in Hi.
    destruct (1500 * Millisecond <? now w - last) eqn:Hfire.
    + apply Z.ltb_lt in Hfire. apply IH.
      match goal with |- context [Sleep E ?d ?w'] =>
        pose proof (Sleep_now d w') as Hs end.
      cbn [broadcast add_log now] in Hs.
      unfold Millisecond in *. lia.
    + apply Z.ltb_ge in Hfire. apply IH.
      pose proof (Sleep_now (100 * Millisecond) w) as Hs.
      unfold Millisecond in *. lia.
Qed.

(** ** Probing when no address is installed *)

(** The swarm table is left alone, and every [range] over it takes the
    order [ord]. *)
Definition steady (ord : list string) : Prop :=
  (forall k l, drivers E k l = l) /\ (forall k, order E k = ord).

(** The answer to the subnet request stores the subnet [sn] in the
    device during the sleep number [k0]. *)
Definition subnet_answered (k0 : nat) (sn : IP) : Prop :=
  forall t, tSubnet (handlers E k0 t) = sn.

(** No handler installs an overlay IP on the device. *)
Definition never_assigned : Prop :=
  forall k t, tIP t = IPnil -> tIP (handlers E k t) = IPnil.

(** [n - 1], [n - 2], ..., [0]. *)
Fixpoint countdown (n : nat) : list Z :=
  match n with
  | O => []
  | S m => Z.of_nat m :: countdown m
  end.

(** The query for each of the hosts [hosts] in turn, each to all of
    [addrs]. *)
Definition asked (id : string) (sn : IP) (addrs : list UDPAddr) (hosts : list Z)
    : list (option M * UDPAddr) :=
  flat_map (fun h => map (pair (infoQuery id sn h)) addrs) hosts.

Lemma Sleep_swarm_steady ord d (w : World M) l :
  steady ord -> Swarm (inst w) = Some l -> Swarm (inst (Sleep E d w)) = Some l.
Proof.
  intros [Hdr _] Hl. cbn [Sleep inst]. unfold with_iface, with_swarm. cbn [Swarm].
  rewrite Hl. cbn. now rewrite Hdr.
Qed.

Lemma Sleep_ip_never_assigned d (w : World M) :
  never_assigned -> iface_ip w = IPnil -> iface_ip (Sleep E d w) = IPnil.
Proof.
  intros Hna. unfold iface_ip. cbn [Sleep inst]. unfold with_iface, with_swarm.
  cbn [Interface]. destruct (Interface (inst w)) as [t |]; cbn; [| reflexivity].
  apply Hna.
Qed.

Lemma snapshot_steady ord (w : World M) l :
  steady ord -> Swarm (inst w) = Some l ->
  swarm_snapshot E w = range ord (SwarmTable.Get l).
Proof. intros [_ Hord] Hl. unfold swarm_snapshot. now rewrite Hl, Hord. Qed.

(** With the swarm steady and no address installed, the probing loop
    entered with counter [n] runs the counter down to 0: it queries the
    hosts [n - 1], [n - 2], ..., [0], each at every connected peer, and
    ends with the device still without an address. *)
Lemma probeLoop_unclaimed ord l id sn fuel :
  steady ord -> never_assigned ->
  forall (n : nat) last (w : World M),
    Swarm (inst w) = Some l ->
    iface_ip w = IPnil ->
    1600 * Millisecond * Z.of_nat n + Z.max 0 (1600 * Millisecond - (now w - last))
    < Z.of_nat fuel * (100 * Millisecond) ->
    fst (probeLoop fuel id sn (Z.of_nat n) last w) = Finished None
    /\ iface_ip (snd (probeLoop fuel id sn (Z.of_nat n) last w)) = IPnil
    /\ sends (log (snd (probeLoop fuel id sn (Z.of_nat n) last w)))
       = sends (log w)
         ++ asked id sn (recipients (range ord (SwarmTable.Get l))) (countdown n).
Proof.
  intros Hst Hna. induction fuel as [| fuel IH]; intros n last w Hl Hip Hfuel.
  - exfalso. unfold Millisecond in Hfuel. lia.
  - cbn [Runtime.probeLoop]. rewrite Hip. cbn [IP_is_nil andb].
    destruct n as [| m].
    + cbn [Z.of_nat Z.ltb Z.compare fst snd countdown asked flat_map].
      rewrite app_nil_r. auto.
    + assert (Hpos : (0 <? Z.of_nat (S m)) = true) by (apply Z.ltb_lt; lia).
      rewrite Hpos.
      replace (Z.of_nat (S m) - 1) with (Z.of_nat m) by lia.
      destruct (1500 * Millisecond <? now w - last) eqn:Hfire.
      * set (msg := fst (CreateMessage MsgTypeComm
                           (infoPayload CommIPInfo id sn (Z.of_nat m)) 0 true)).
        pose proof (Sleep_now (100 * Millisecond) (broadcast E msg w)) as Hs.
        cbn [broadcast add_log now] in Hs.
        destruct (IH m (now w) (Sleep E (100 * Millisecond) (broadcast E msg w)))
          as (Hres & Hip' & Hsends).
        { apply (Sleep_swarm_steady ord); [exact Hst | exact Hl]. }
        { apply Sleep_ip_never_assigned; [exact Hna | exact Hip]. }
        { cbn [broadcast add_log now] in *. unfold Millisecond in *. lia. }
        split; [exact Hres |]. split; [exact Hip' |].
        rewrite Hsends, sends_Sleep, sends_broadcast.
        rewrite (snapshot_steady ord w l Hst Hl).
        cbn [countdown asked flat_map]. unfold infoQuery. fold msg.
        now rewrite <- app_assoc.
      * apply Z.ltb_ge in Hfire.
        pose proof (Sleep_now (100 * Millisecond) w) as Hs.
        destruct (IH (S m) last (Sleep E (100 * Millisecond) w))
          as (Hres & Hip' & Hsends).
        { apply (Sleep_swarm_steady ord); [exact Hst | exact Hl]. }
        { apply Sleep_ip_never_assigned; [exact Hna | exact Hip]. }
        { unfold Millisecond in *. lia. }
        split; [exact Hres |]. split; [exact Hip' |].
        now rewrite Hsends, sends_Sleep.
Qed.

End ReconciliationFacts.

Section ReconciliationClaims.

Import Runtime.

(** C3 fails on the code.  Take an instance with swarm table, device and
    rendezvous client, whose swarm stays as it is; let the subnet a.b.c.d
    arrive during the first sleep of [discoverIP], and let no address be
    installed on the device.  Then the messages [discoverIP] sends are
    the [IP_SUBNET] request and then the [IP_INFO] queries for the hosts
    254, 253, ..., 1, 0 of that subnet, in this order, each to every
    connected peer, and it returns "Failed to get free IP for this swarm".
    So the host 255, which C3 has probed first, is not probed at all, and
    the host 0, which is not among the candidates of C3, is probed last:
    the counter starts at 255 and is decremented before the query is
    built, while the loop runs as long as it is above 0. *)
Theorem discoverIP_probes_254_to_0 {M : Type}
    (CreateMessage : Z -> list byte -> Z -> bool -> option M * option error)
    (MsgTypeComm CommIPSubnet CommIPInfo : Z) (E : Env) (fuel : nat) (w : World M)
    (l : SwarmTable.Swarm) (t : TAPDarwin) (dht : DHTClient)
    (ord : list string) (a b c d : byte) :
  Swarm (inst w) = Some l ->
  Interface (inst w) = Some t ->
  Dht (inst w) = Some dht ->
  steady E ord ->
  subnet_answered E (ticks w) (IPv4 a b c d) ->
  never_assigned E ->
  0 <= now w ->
  (4098 <= fuel)%nat ->
  let run := discoverIP M CreateMessage MsgTypeComm CommIPSubnet CommIPInfo E fuel w in
  let peers := recipients (range ord (SwarmTable.Get l)) in
  fst run = Finished (Some "Failed to get free IP for this swarm")
  /\ sends M (log (snd run))
     = sends M (log w)
       ++ map (pair (subnetRequest M CreateMessage MsgTypeComm CommIPSubnet (dhtID dht)))
              peers
       ++ asked M CreateMessage MsgTypeComm CommIPInfo (dhtID dht) (IPv4 a b c d) peers
            (countdown 255).
Proof.
  intros Hl Ht Hd Hst Hsn Hna Hnow Hfuel. cbv zeta.
  unfold discoverIP. rewrite Hl, Ht, Hd.
  set (w1 := set_inst _ w).
  set (msg := fst (CreateMessage MsgTypeComm (subnetPayload CommIPSubnet (dhtID dht)) 0 true)).
  assert (Hl1 : Swarm (inst w1) = Some l) by (unfold w1; cbn; exact Hl).
  assert (Hs2 : sends M (log (broadcast E msg w1))
                = sends M (log w)
                  ++ map (pair msg) (recipients (range ord (SwarmTable.Get l)))).
  { rewrite sends_broadcast, (snapshot_steady M E ord w1 l Hst Hl1). reflexivity. }
  assert (Hi2 : Interface (inst (broadcast E msg w1))
                = Some (SetIP IPnil (SetSubnet IPnil t))).
  { unfold w1. cbn. unfold with_iface. cbn. now rewrite Ht. }
  assert (Hl2 : Swarm (inst (broadcast E msg w1)) = Some l) by exact Hl1.
  assert (Hn2 : now (broadcast E msg w1) = now w) by reflexivity.
  assert (Ht2 : ticks (broadcast E msg w1) = ticks w) by reflexivity.
  set (w2 := broadcast E msg w1) in *.
  (* the wait: one sleep, during which the subnet arrives *)
  destruct fuel as [| [| fuel']]; [lia | lia |].
  set (fuel := S (S fuel')) in *.
  assert (Hwait : waitSubnet M E fuel (now w2) w2
                  = (Finished None, Sleep E (100 * Millisecond) w2)).
  { unfold fuel. cbn [waitSubnet]. unfold iface_subnet at 1. rewrite Hi2.
    cbn [tSubnet SetIP SetSubnet IP_is_nil]. rewrite Z.sub_diag.
    replace (2000 * Millisecond <? 0) with false by reflexivity.
    unfold iface_subnet. cbn [Sleep inst]. unfold with_iface at 1. cbn [Interface].
    unfold with_swarm. cbn [Interface]. rewrite Hi2, Ht2. cbn [fmap option_fmap option_map].
    rewrite Hsn. reflexivity. }
  rewrite Hwait.
  set (w3 := Sleep E (100 * Millisecond) w2) in *.
  assert (Hsub3 : iface_subnet w3 = IPv4 a b c d).
  { unfold iface_subnet, w3. cbn [Sleep inst]. unfold with_iface at 1. cbn [Interface].
    unfold with_swarm. cbn [Interface]. rewrite Hi2, Ht2. cbn [fmap option_fmap option_map].
    apply Hsn. }
  assert (Hip3 : iface_ip w3 = IPnil).
  { apply (Sleep_ip_never_assigned M E); [exact Hna |]. unfold iface_ip. now rewrite Hi2. }
  assert (Hl3 : Swarm (inst w3) = Some l)
    by (apply (Sleep_swarm_steady M E ord); [exact Hst | exact Hl2]).
  assert (Hn3 : now w <= now w3).
  { pose proof (Sleep_now M E (100 * Millisecond) w2). unfold w3, Millisecond in *. lia. }
  rewrite Hsub3.
  destruct (probeLoop_unclaimed M CreateMessage MsgTypeComm CommIPInfo E ord l (dhtID dht)
              (IPv4 a b c d) fuel Hst Hna 255%nat 0 w3 Hl3 Hip3)
    as (Hres & Hip4 & Hsends).
  { unfold Millisecond. lia. }
  change (Z.of_nat 255) with 255 in Hres, Hip4, Hsends.
  destruct (probeLoop M CreateMessage MsgTypeComm CommIPInfo E fuel (dhtID dht)
              (IPv4 a b c d) 255 0 w3) as [r w4].
  cbn [fst snd] in *. subst r. rewrite Hip4. cbn [IP_is_nil fst snd].
  split; [reflexivity |].
  rewrite Hsends. unfold w3. rewrite sends_Sleep, Hs2, <- app_assoc. reflexivity.
Qed.

(** ** A reconciliation observed *)

(** Messages seen as their type and payload. *)
Definition plainMessage (ty : Z) (payload : list byte) (proto : Z) (encrypt : bool)
    : option (Z * list byte) * option error :=
  (Some (ty, payload), None).

(** The subnet 10.1.0.0 arrives during the first sleep; the device gets
    its address during the twenty-first; nothing else happens. *)
Definition answering : Env :=
  mkEnv (fun _ => 0%N)
        (fun _ l => l)
        (fun k t => if Nat.eqb k 0 then SetSubnet (IPv4 x0a x01 x00 x00) t
                    else if Nat.eqb k 20 then SetIP (IPv4 x0a x01 x00 xfd) t
                    else t)
        (fun _ => ["a"])
        None None None None None.

Definition connected_5 : NetworkPeer :=
  mkPeer (IPv4 x0a x01 x00 x05) (Some [x06; x00; x00; x00; x00; x05])
         (Some (mkUDPAddr (IPv4 xc0 x00 x02 x01) 6881)) PeerStateConnected.

Definition discovering_device : TAPDarwin :=
  mkTAP IPnil IPnil (Some [x06; x00; x00; x00; x00; x07]) "tap1" "/sbin/ifconfig"
        true false true.

Definition discovering_instance : PeerToPeer :=
  mkP2P (Some (mkNetwork 6881 6881))
        (Some (mkDHT "7c8f2a52-5bd4-11ea-8e2d-0242ac130003" "swarm"))
        false false false "swarm" (Some discovering_device)
        (Some (snd (SwarmTable.Update "a" connected_5 (SwarmTable.Init SwarmTable.zero))))
        IPnil.

(** The clock stands at 1.6e9 s after the epoch. *)
Definition discovering : World (Z * list byte) :=
  mkWorld discovering_instance [] (1600000000 * Second) 0%nat [].

(** The host numbers named by the [IP_INFO] queries of a log: the last of
    the 42 bytes of such a query. *)
Definition probed (lg : list (event (Z * list byte))) : list Z :=
  omap (fun sent : option (Z * list byte) * UDPAddr =>
          match fst sent with
          | Some (_, payload) =>
              if Nat.eqb (length payload) 42
              then Some (Z.of_N (Byte.to_N (nth 41 payload x00)))
              else None
          | None => None
          end)
       (sends (Z * list byte) lg).

(** The order of C3: 255, 254, ..., 1. *)
Definition claimed_candidates : list Z :=
  map (fun k => 255 - Z.of_nat k) (seq 0 255).

Definition probed_as_claimed (hosts : list Z) : Prop :=
  exists n, hosts = firstn n claimed_candidates.

Lemma discovering_probed :
  probed (log (snd (discoverIP (Z * list byte) plainMessage 8 1 2 answering 100
                      discovering)))
  = [254; 253].
Proof. vm_compute. reflexivity. Qed.

(** C3, as stated, fails: the first host queried is a.b.c.254, not
    a.b.c.255. *)
Lemma discoverIP_starts_at_254 :
  ~ probed_as_claimed
      (probed (log (snd (discoverIP (Z * list byte) plainMessage 8 1 2 answering 100
                           discovering)))).
Proof.
  rewrite discovering_probed. intros [n Hn].
  destruct n as [| n]; [discriminate |].
  cbn in Hn. discriminate.
Qed.

(** Every candidate is claimed: the subnet 10.1.0.0 arrives during the
    first sleep, and no address is installed on the device. *)
Definition claimed : Env :=
  mkEnv (fun _ => 0%N)
        (fun _ l => l)
        (fun k t => if Nat.eqb k 0 then SetSubnet (IPv4 x0a x01 x00 x00) t else t)
        (fun _ => ["a"])
        None None None None None.

Lemma discoverIP_probes_254_to_0_witness :
  steady claimed ["a"]
  /\ subnet_answered claimed (ticks discovering) (IPv4 x0a x01 x00 x00)
  /\ never_assigned claimed
  /\ 0 <= now discovering
  /\ (4098 <= 4098)%nat
  /\ fst (discoverIP (Z * list byte) plainMessage 8 1 2 claimed 4098 discovering)
     = Finished (Some "Failed to get free IP for this swarm")
  /\ probed (log (snd (discoverIP (Z * list byte) plainMessage 8 1 2 claimed 4098
                         discovering)))
     = countdown 255
  /\ ~ probed_as_claimed
        (probed (log (snd (discoverIP (Z * list byte) plainMessage 8 1 2 claimed 4098
                             discovering)))).
Proof.
  assert (Hst : steady claimed ["a"]) by (split; reflexivity).
  assert (Hsn : subnet_answered claimed (ticks discovering) (IPv4 x0a x01 x00 x00)).
  { intros t. reflexivity. }
  assert (Hna : never_assigned claimed).
  { intros k t Ht. cbn [claimed handlers]. destruct (Nat.eqb k 0); exact Ht. }
  assert (Hnow : 0 <= now discovering) by (cbn; unfold Second, Millisecond; lia).
  assert (Hf : (4098 <= 4098)%nat) by lia.
  pose proof (discoverIP_probes_254_to_0 plainMessage 8 1 2 claimed 4098 discovering
                _ _ _ ["a"] x0a x01 x00 x00 eq_refl eq_refl eq_refl Hst Hsn Hna Hnow Hf)
    as H.
  cbv zeta in H. destruct H as [Hres Hsends].
  assert (Hp : probed (log (snd (discoverIP (Z * list byte) plainMessage 8 1 2 claimed
                                   4098 discovering)))
               = countdown 255).
  { unfold probed. rewrite Hsends. vm_compute. reflexivity. }
  repeat (split; [assumption |]).
  rewrite Hp. intros [n Hn]. destruct n as [| n]; [discriminate Hn |].
  cbn in Hn. discriminate Hn.
Defined.

End ReconciliationClaims.

(* ===================================================================== *)
(** * More on the swarm table *)
(* ===================================================================== *)

Section SwarmTableMore.

Import SwarmTable.

(** What [Update] does to an initialised table, whatever the peer. *)
Lemma Update_initialised id p ps ti tm :
  snd (Update id p (mkSwarm (Some ps) (Some ti) (Some tm)))
  = mkSwarm (Some (<[id := p]> ps))
            (Some (if IP_is_nil (PeerLocalIP p) then ti else <[ipKey p := id]> ti))
            (Some (if String.eqb (macKey p) "" then tm else <[macKey p := id]> tm)).
Proof.
  unfold Update, operate. cbn [peers tableIPID tableMacID Z.eqb OperateUpdate snd].
  assert (Hm : match PeerHW p with Some _ => HW_String (PeerHW p) | None => "" end = macKey p).
  { unfold macKey. destruct (PeerHW p); reflexivity. }
  rewrite Hm. unfold updateTables.
  destruct (IP_is_nil (PeerLocalIP p)) eqn:Hip; cbn [String.eqb].
  - destruct (String.eqb (macKey p) ""); reflexivity.
  - rewrite (eqb_empty_false _ (IP_String_nonempty (PeerLocalIP p))).
    destruct (String.eqb (macKey p) ""); reflexivity.
Qed.

(** What [Delete] does to an initialised table that stores the id. *)
Lemma Delete_initialised id p ps ti tm :
  ps !! id = Some p ->
  snd (Delete id (mkSwarm (Some ps) (Some ti) (Some tm)))
  = mkSwarm (Some (delete id ps)) (Some (delete (ipKey p) ti))
            (Some (if String.eqb (macKey p) "" then tm else delete (macKey p) tm)).
Proof.
  intros Hp. unfold Delete, operate. simpl. rewrite Hp. simpl.
  fold (ipKey p) (macKey p). unfold deleteTables.
  rewrite (eqb_empty_false (ipKey p) (IP_String_nonempty (PeerLocalIP p))). simpl.
  destruct (ti !! ipKey p) eqn:Hi; simpl;
    destruct (String.eqb (macKey p) "") eqn:Hmac; simpl;
    try destruct (tm !! macKey p) eqn:Hm; simpl;
    rewrite ?(delete_id ti _ Hi), ?(delete_id tm _ Hm); reflexivity.
Qed.

Lemma GetEndpoint_Update id p ep ps ti tm :
  macKey p <> "" -> Endpoint p = Some ep ->
  GetEndpoint (macKey p) (snd (Update id p (mkSwarm (Some ps) (Some ti) (Some tm))))
  = (Some ep, None).
Proof.
  intros Hmac Hep. rewrite Update_initialised. unfold GetEndpoint. cbn.
  rewrite (eqb_empty_false _ Hmac), !lookup_insert_eq, Hep. reflexivity.
Qed.

(** X1: on an initialised table, what [Update] stores is what the
    lookups return: [GetPeer] gives the peer; [GetID] gives the id for the
    peer's overlay IP when it has one; [GetEndpoint] gives the peer's
    endpoint for its hardware address when it has both. *)
Theorem Update_then_lookup (id : string) (p : NetworkPeer) (l : Swarm) :
  initialised l ->
  GetPeer id (snd (Update id p l)) = Some p
  /\ (IP_is_nil (PeerLocalIP p) = false ->
      GetID (ipKey p) (snd (Update id p l)) = (id, None))
  /\ (macKey p <> "" -> forall ep, Endpoint p = Some ep ->
      GetEndpoint (macKey p) (snd (Update id p l)) = (Some ep, None)).
Proof.
  intros (ps & ti & tm & ->). rewrite Update_initialised.
  split; [| split].
  - unfold GetPeer. cbn. apply lookup_insert_eq.
  - intros ->. unfold GetID. cbn. now rewrite lookup_insert_eq.
  - intros Hmac ep Hep. rewrite <- (Update_initialised id p ps ti tm).
    now apply GetEndpoint_Update.
Qed.

Definition reachable_5 : NetworkPeer :=
  mkPeer (IPv4 x0a x01 x00 x05) (Some [x06; x00; x00; x00; x00; x05])
         (Some (mkUDPAddr (IPv4 xc0 x00 x02 x01) 6881)) PeerStateConnected.

Lemma Update_then_lookup_witness :
  initialised (Init zero)
  /\ GetPeer "a" (snd (Update "a" reachable_5 (Init zero))) = Some reachable_5
  /\ GetID "10.1.0.5" (snd (Update "a" reachable_5 (Init zero))) = ("a", None).
Proof.
  assert (Hi : initialised (Init zero)) by (do 3 eexists; reflexivity).
  split; [exact Hi |].
  destruct (Update_then_lookup "a" reachable_5 (Init zero) Hi) as (Hp & Hid & _).
  split; [exact Hp | exact (Hid eq_refl)].
Defined.

(** X2: [Update] and [Delete] of one id leave the primary entry of every
    other id as it was, on every table. *)
Theorem other_ids_untouched (id id' : string) (p : NetworkPeer) (l : Swarm) :
  id <> id' ->
  GetPeer id' (snd (Update id p l)) = GetPeer id' l
  /\ GetPeer id' (snd (Delete id l)) = GetPeer id' l.
Proof.
  intros Hne. destruct l as [[ps |] [ti |] [tm |]]; try (split; reflexivity).
  split.
  - rewrite Update_initialised. unfold GetPeer. cbn. now apply lookup_insert_ne.
  - destruct (ps !! id) as [q |] eqn:Hq.
    + rewrite (Delete_initialised id q) by assumption.
      unfold GetPeer. cbn. now apply lookup_delete_ne.
    + rewrite Delete_absent; [reflexivity | exact Hq].
Qed.

Lemma other_ids_untouched_witness :
  "b" <> "a"
  /\ GetPeer "a" (snd (Delete "b" swarm_with_a)) = GetPeer "a" swarm_with_a.
Proof.
  assert (H : "b" <> "a") by discriminate.
  split; [exact H |].
  exact (proj2 (other_ids_untouched "b" "a" peer_5 swarm_with_a H)).
Defined.

(** X3: while one of the three maps is nil, [operate] returns an error
    for every action and changes nothing, so the public [Update] and
    [Delete] do nothing, and say nothing. *)
Theorem uninitialised_table_is_inert (l : Swarm) :
  peers l = None \/ tableIPID l = None \/ tableMacID l = None ->
  (forall action id peer,
     snd (operate action id peer l) = l
     /\ exists msg, fst (operate action id peer l) = Returned (Some msg))
  /\ (forall id p, snd (Update id p l) = l)
  /\ (forall id, snd (Delete id l) = l).
Proof.
  intros H.
  assert (Hop : forall action id peer,
            snd (operate action id peer l) = l
            /\ exists msg, fst (operate action id peer l) = Returned (Some msg)).
  { intros action id peer. unfold operate.
    destruct l as [[ps |] [ti |] [tm |]]; cbn in *;
      try (split; [reflexivity | eexists; reflexivity]).
    destruct H as [H | [H | H]]; discriminate. }
  split; [exact Hop |]. split.
  - intros id p. unfold Update. cbn [snd]. apply Hop.
  - intros id. unfold Delete. cbn [snd]. apply Hop.
Qed.

Lemma uninitialised_table_is_inert_witness :
  (peers zero = None \/ tableIPID zero = None \/ tableMacID zero = None)
  /\ snd (Update "a" peer_5 zero) = zero.
Proof.
  assert (H : peers zero = None \/ tableIPID zero = None \/ tableMacID zero = None)
    by (left; reflexivity).
  split; [exact H |].
  exact (proj1 (proj2 (uninitialised_table_is_inert zero H)) "a" peer_5).
Defined.

(** X4: on an initialised table, [Update] makes the table one longer
    when the id is new and leaves its length when the id is stored;
    [Delete] makes it one shorter when the id is stored and leaves its
    length otherwise. *)
Theorem Length_after (id : string) (p : NetworkPeer) (l : Swarm) :
  initialised l ->
  Length (snd (Update id p l))
  = (match GetPeer id l with Some _ => Length l | None => Length l + 1 end)
  /\ Length (snd (Delete id l))
     = (match GetPeer id l with Some _ => Length l - 1 | None => Length l end).
Proof.
  intros (ps & ti & tm & ->). unfold GetPeer. cbn [mget peers]. split.
  - rewrite Update_initialised. unfold Length, Get. cbn [peers].
    destruct (ps !! id) as [q |] eqn:Hq.
    + rewrite map_size_insert_Some by eauto. reflexivity.
    + rewrite map_size_insert_None by assumption. lia.
  - destruct (ps !! id) as [q |] eqn:Hq.
    + rewrite (Delete_initialised id q) by assumption. unfold Length, Get. cbn [peers].
      rewrite map_size_delete_Some by eauto.
      assert (size ps <> 0%nat).
      { intros H0. apply map_size_empty_inv in H0. subst.
        rewrite lookup_empty in Hq. discriminate. }
      lia.
    + rewrite Delete_absent; [reflexivity | exact Hq].
Qed.

Lemma Length_after_witness :
  initialised swarm_with_a
  /\ Length (snd (Update "b" peer_6 swarm_with_a)) = Length swarm_with_a + 1
  /\ Length (snd (Delete "a" swarm_with_a)) = Length swarm_with_a - 1.
Proof.
  assert (Hi : initialised swarm_with_a) by (do 3 eexists; vm_compute; reflexivity).
  split; [exact Hi |].
  destruct (Length_after "b" peer_6 swarm_with_a Hi) as [Hu _].
  destruct (Length_after "a" peer_5 swarm_with_a Hi) as [_ Hd].
  split; [exact Hu | exact Hd].
Defined.

End SwarmTableMore.

Section SwarmTableCompose.

Import SwarmTable.

(** X5: on an initialised table, storing a peer under a new id, with an
    overlay IP and a hardware address that are not indexed yet, and
    deleting that id again gives back the table as it was: primary map
    and both indexes. *)
Theorem Update_then_Delete_restores (id : string) (p : NetworkPeer) (l : Swarm) :
  initialised l ->
  GetPeer id l = None ->
  IP_is_nil (PeerLocalIP p) = false ->
  macKey p <> "" ->
  mget (tableIPID l) (ipKey p) = None ->
  mget (tableMacID l) (macKey p) = None ->
  snd (Delete id (snd (Update id p l))) = l.
Proof.
  intros (ps & ti & tm & ->) Hid Hip Hmac Hki Hkm.
  unfold GetPeer in Hid. cbn in Hid, Hki, Hkm.
  rewrite Update_initialised, Hip, (eqb_empty_false _ Hmac).
  rewrite (Delete_initialised id p) by apply lookup_insert_eq.
  rewrite (eqb_empty_false _ Hmac).
  now rewrite !delete_insert_id by assumption.
Qed.

Lemma Update_then_Delete_restores_witness :
  initialised swarm_with_a
  /\ GetPeer "b" swarm_with_a = None
  /\ snd (Delete "b" (snd (Update "b" peer_6 swarm_with_a))) = swarm_with_a.
Proof.
  assert (Hi : initialised swarm_with_a) by (do 3 eexists; vm_compute; reflexivity).
  assert (Hn : GetPeer "b" swarm_with_a = None) by (vm_compute; reflexivity).
  split; [exact Hi |]. split; [exact Hn |].
  apply (Update_then_Delete_restores "b" peer_6 swarm_with_a Hi Hn).
  - reflexivity.
  - vm_compute. discriminate.
  - vm_compute. reflexivity.
  - vm_compute. reflexivity.
Defined.

(** X6: [Update] never removes an index key.  When the entry of an id is
    replaced by a peer with another overlay IP, the first IP stays mapped
    to the id, after the replacing [Update] and also after a [Delete] of
    the id, when the id is no longer stored. *)
Theorem replaced_keys_stay_indexed (id : string) (p q : NetworkPeer) (l : Swarm) :
  initialised l ->
  IP_is_nil (PeerLocalIP p) = false ->
  ipKey q <> ipKey p ->
  let l2 := snd (Update id q (snd (Update id p l))) in
  GetPeer id l2 = Some q
  /\ GetID (ipKey p) l2 = (id, None)
  /\ GetPeer id (snd (Delete id l2)) = None
  /\ GetID (ipKey p) (snd (Delete id l2)) = (id, None).
Proof.
  intros (ps & ti & tm & ->) Hip Hne l2. subst l2.
  rewrite !Update_initialised, Hip.
  set (ti2 := if IP_is_nil (PeerLocalIP q) then _ else _).
  assert (Hti2 : ti2 !! ipKey p = Some id).
  { subst ti2. destruct (IP_is_nil (PeerLocalIP q)).
    - apply lookup_insert_eq.
    - rewrite lookup_insert_ne by assumption. apply lookup_insert_eq. }
  split; [unfold GetPeer; cbn; apply lookup_insert_eq |].
  split; [unfold GetID; cbn; now rewrite Hti2 |].
  rewrite (Delete_initialised id q) by apply lookup_insert_eq.
  split; [unfold GetPeer; cbn; apply lookup_delete_eq |].
  unfold GetID. cbn. rewrite lookup_delete_ne by assumption. now rewrite Hti2.
Qed.

Lemma replaced_keys_stay_indexed_witness :
  initialised (Init zero)
  /\ ipKey peer_6 <> ipKey peer_5
  /\ GetID "10.1.0.5"
       (snd (Delete "a" (snd (Update "a" peer_6 (snd (Update "a" peer_5 (Init zero)))))))
     = ("a", None).
Proof.
  assert (Hi : initialised (Init zero)) by (do 3 eexists; reflexivity).
  assert (Hne : ipKey peer_6 <> ipKey peer_5) by (vm_compute; discriminate).
  split; [exact Hi |]. split; [exact Hne |].
  exact (proj2 (proj2 (proj2
           (replaced_keys_stay_indexed "a" peer_5 peer_6 (Init zero) Hi eq_refl Hne)))).
Defined.

End SwarmTableCompose.

Section SendToMore.

Import Runtime.

(** X7: once a peer with a hardware address and an endpoint is stored in
    the swarm table of an instance that has a socket, [SendTo] to that
    hardware address hands the message to the socket for that endpoint
    and returns what the socket returns. *)
Theorem SendTo_after_Update {M : Type}
    (SendMessage : M -> UDPAddr -> Z * option error)
    (p : PeerToPeer) (l : SwarmTable.Swarm) (sock : Network)
    (id : string) (peer : NetworkPeer) (hw : list byte) (ep : UDPAddr) (m : M) :
  Swarm p = Some l ->
  initialised l ->
  UDPSocket p = Some sock ->
  PeerHW peer = Some hw ->
  hw <> [] ->
  Endpoint peer = Some ep ->
  SendTo M SendMessage (Some hw) (Some m)
    (with_swarm (fun l => snd (SwarmTable.Update id peer l)) p)
  = SendMessage m ep.
Proof.
  intros Hs (ps & ti & tm & ->) Hu Hhw Hne Hep.
  assert (Hmac : SwarmTable.macKey peer <> "").
  { unfold SwarmTable.macKey. rewrite Hhw. destruct hw as [| b hw]; [congruence |].
    cbn. discriminate. }
  pose proof (GetEndpoint_Update id peer ep ps ti tm Hmac Hep) as Hget.
  unfold SendTo, with_swarm. cbn [Swarm UDPSocket]. rewrite Hs, Hu. cbn [fmap option_fmap option_map].
  unfold SwarmTable.macKey in Hget. rewrite Hhw in Hget. now rewrite Hget.
Qed.

Lemma SendTo_after_Update_witness :
  initialised (SwarmTable.Init SwarmTable.zero)
  /\ SendTo unit (fun _ ep => (Z.of_N (uPort ep), None))
       (Some [x06; x00; x00; x00; x00; x05]) (Some tt)
       (with_swarm (fun l => snd (SwarmTable.Update "a" reachable_5 l))
          (instance_of (SwarmTable.Init SwarmTable.zero)))
     = (6881, None).
Proof.
  assert (Hi : initialised (SwarmTable.Init SwarmTable.zero))
    by (do 3 eexists; reflexivity).
  split; [exact Hi |].
  refine (SendTo_after_Update (fun _ ep => (Z.of_N (uPort ep), None))
            (instance_of (SwarmTable.Init SwarmTable.zero))
            (SwarmTable.Init SwarmTable.zero) (mkNetwork 6881 6881) "a" reachable_5
            [x06; x00; x00; x00; x00; x05] (mkUDPAddr (IPv4 xc0 x00 x02 x01) 6881) tt
            eq_refl Hi eq_refl eq_refl _ eq_refl).
  discriminate.
Defined.

End SendToMore.

Section RemoveStoppedMore.

Import Runtime.

Lemma Get_lookup (l : SwarmTable.Swarm) id :
  SwarmTable.Get l !! id = SwarmTable.GetPeer id l.
Proof.
  unfold SwarmTable.Get, SwarmTable.GetPeer, SwarmTable.mget.
  destruct (SwarmTable.peers l); [reflexivity | apply lookup_empty].
Qed.

Lemma range_elem_of {V} (order : list string) (m : gmap string V) id (v : V) :
  (id, v) ∈ range order m <-> id ∈ order /\ m !! id = Some v.
Proof.
  unfold range. rewrite list_elem_of_omap. split.
  - intros (k & Hk & Hf). destruct (m !! k) as [v' |] eqn:Hm; [| discriminate].
    cbn in Hf. injection Hf as <- <-. auto.
  - intros [Hin Hm]. exists id. split; [exact Hin |]. now rewrite Hm.
Qed.

Lemma removeStopped_loop_cases items l :
  ((forall id q, (id, q) ∈ items -> State q <> PeerStateStop)
   /\ removeStopped_loop items l = l)
  \/ exists id q, (id, q) ∈ items /\ State q = PeerStateStop
                  /\ removeStopped_loop items l = snd (SwarmTable.Delete id l).
Proof.
  induction items as [| [id q] items IH]; cbn [removeStopped_loop].
  - left. split; [| reflexivity]. intros id q H. inversion H.
  - destruct (PeerState_eqb (State q) PeerStateStop) eqn:Hst.
    + right. exists id, q. split; [left |].
      split; [| reflexivity]. now destruct (State q).
    + destruct IH as [[Hall Heq] | (id' & q' & Hin & Hs & Heq)].
      * left. split; [| exact Heq]. intros id' q' Hin.
        apply elem_of_cons in Hin as [[= -> ->] | Hin]; [| eauto].
        intros Hs. rewrite Hs in Hst. discriminate.
      * right. exists id', q'. split; [now right | auto].
Qed.

(** X8: one call of [removeStoppedPeers] on an instance with a swarm
    table returns no error and removes exactly one peer in state
    [STOPPED] when the table holds one, and nothing when it holds none;
    it never removes a peer in another state. *)
Theorem removeStoppedPeers_removes_one (order : list string) (p : PeerToPeer)
    (l : SwarmTable.Swarm) :
  Swarm p = Some l ->
  iteration_order order (SwarmTable.Get l) ->
  fst (removeStoppedPeers order p) = None
  /\ (((forall id q, SwarmTable.GetPeer id l = Some q -> State q <> PeerStateStop)
       /\ Swarm (snd (removeStoppedPeers order p)) = Some l)
      \/ exists id q,
           SwarmTable.GetPeer id l = Some q /\ State q = PeerStateStop
           /\ Swarm (snd (removeStoppedPeers order p))
              = Some (snd (SwarmTable.Delete id l))).
Proof.
  intros Hs [_ Hmem]. unfold removeStoppedPeers. rewrite Hs.
  split; [reflexivity |]. cbn [snd]. unfold with_swarm. cbn [Swarm]. rewrite Hs.
  cbn [fmap option_fmap option_map].
  destruct (removeStopped_loop_cases (range order (SwarmTable.Get l)) l)
    as [[Hall Heq] | (id & q & Hin & Hst & Heq)]; rewrite Heq.
  - left. split; [| reflexivity]. intros id q Hq. apply (Hall id q).
    apply range_elem_of. rewrite Get_lookup. split; [| exact Hq].
    apply Hmem. rewrite Get_lookup, Hq. eauto.
  - right. exists id, q. apply range_elem_of in Hin as [_ Hq].
    rewrite Get_lookup in Hq. auto.
Qed.

Lemma removeStoppedPeers_removes_one_witness :
  iteration_order ["b"; "a"] (SwarmTable.Get two_stopped)
  /\ fst (removeStoppedPeers ["b"; "a"] (instance_of two_stopped)) = None.
Proof.
  assert (Ho : iteration_order ["b"; "a"] (SwarmTable.Get two_stopped)).
  { split.
    - repeat constructor; intros Hx; apply list_elem_of_In in Hx; simpl in Hx;
        intuition discriminate.
    - intros id. rewrite two_stopped_peers. split.
      + intros Hin. apply list_elem_of_In in Hin.
        destruct Hin as [<- | [<- | []]].
        * rewrite lookup_insert_eq. eauto.
        * rewrite lookup_insert_ne by discriminate. rewrite lookup_insert_eq. eauto.
      + intros Hsome.
        destruct (decide (id = "b")) as [-> | Hb]; [set_solver |].
        rewrite lookup_insert_ne in Hsome by congruence.
        destruct (decide (id = "a")) as [-> | Ha]; [set_solver |].
        rewrite lookup_insert_ne in Hsome by congruence.
        rewrite lookup_empty in Hsome. destruct Hsome as [? Hsome]. discriminate. }
  split; [exact Ho |].
  exact (proj1 (removeStoppedPeers_removes_one ["b"; "a"] (instance_of two_stopped)
                  two_stopped eq_refl Ho)).
Defined.

End RemoveStoppedMore.

(* ===================================================================== *)
(** * Addresses and the registry of active interfaces *)
(* ===================================================================== *)

Module Addresses.

(** [IsInterfaceLocal], over the registry [ActiveInterfaces]. *)
Definition IsInterfaceLocal (active : list IP) (ip : IP) : bool :=
  existsb (fun localIP => Runtime.IP_eqb localIP ip) active.

(** [PeerToPeer.IsIPv4]: which of ['.'] and [':'] the text shows first. *)
Fixpoint IsIPv4 (ip : string) : bool :=
  match ip with
  | EmptyString => false
  | String c rest =>
      if Ascii.eqb c ":" then false
      else if Ascii.eqb c "." then true
      else IsIPv4 rest
  end.

(** ** Networks *)

(** [net.IPNet] of an IPv4 network: the network number and the mask. *)
Record IPNet : Type := mkIPNet { netIP : IP; netMask : list byte }.

(** [net.CIDRMask(ones, 32)] *)
Fixpoint CIDRMask_bytes (l : nat) (n : N) : list byte :=
  match l with
  | O => []
  | S l' =>
      if (8 <=? n)%N then xff :: CIDRMask_bytes l' (n - 8)
      else byte_of_N (N.lxor 255 (N.shiftr 255 n)) :: CIDRMask_bytes l' 0
  end.

Definition CIDRMask (ones : N) : list byte := CIDRMask_bytes 4 ones.

Definition byte_and (a m : byte) : byte :=
  byte_of_N (N.land (Byte.to_N a) (Byte.to_N m)).

(** [IP.Mask] with a 4-byte mask. *)
Definition IP_Mask (ip : IP) (m : list byte) : IP :=
  match ip, m with
  | IPv4 a b c d, [m0; m1; m2; m3] =>
      IPv4 (byte_and a m0) (byte_and b m1) (byte_and c m2) (byte_and d m3)
  | _, _ => IPnil
  end.

(** The text before and after the first ['/'] of [s]. *)
Fixpoint split_slash (s : string) : option (string * string) :=
  match s with
  | EmptyString => None
  | String c s' =>
      if Ascii.eqb c "/" then Some (EmptyString, s')
      else match split_slash s' with
           | Some (a, m) => Some (String c a, m)
           | None => None
           end
  end.

(** [net.ParseCIDR] for an IPv4 network; [None] is the error result. *)
Definition ParseCIDR (s : string) : option (IP * IPNet) :=
  match split_slash s with
  | None => None
  | Some (addr, mask) =>
      let ip := parseIPv4 addr in
      let '(n, i, ok) := dtoi mask in
      if IP_is_nil ip || negb ok || negb (Nat.eqb i (String.length mask)) || (32 <? n)%N
      then None
      else
        let m := CIDRMask n in
        Some (ip, mkIPNet (IP_Mask ip m) m)
  end.

(** [IPNet.Contains] *)
Definition Contains (n : IPNet) (ip : IP) : bool :=
  match ip, netIP n, netMask n with
  | IPv4 a b c d, IPv4 n0 n1 n2 n3, [m0; m1; m2; m3] =>
      Byte.eqb (byte_and n0 m0) (byte_and a m0)
      && Byte.eqb (byte_and n1 m1) (byte_and b m1)
      && Byte.eqb (byte_and n2 m2) (byte_and c m2)
      && Byte.eqb (byte_and n3 m3) (byte_and d m3)
  | _, _, _ => false
  end.

(** [isPrivateIP] *)
Definition isPrivateIP (ip : IP) : bool * option error :=
  if IP_is_nil ip then (false, Some "Missing IP")
  else
    let within cidr :=
      match ParseCIDR cidr with
      | Some (_, net) => Contains net ip
      | None => false
      end in
    (within "10.0.0.0/8" || within "172.16.0.0/12" || within "192.168.0.0/16", None).

(** [FilterInterface].  [pingFails infIP] tells whether the ping from
    that address fails. *)
Definition FilterInterface (active : list IP) (pingFails : string -> bool)
    (infName infIP : string) : bool :=
  if (4 <? String.length infIP)%nat && String.eqb (String.substring 0 3 infIP) "172"
  then true
  else if existsb (fun ip => String.eqb (IP_String ip) infIP) active then true
  else if pingFails infIP then true
  else false.

End Addresses.

Section RegistryFacts.

Import Runtime Addresses.

Lemma IP_eqb_eq (x y : IP) : IP_eqb x y = true <-> x = y.
Proof.
  destruct x as [| a b c d], y as [| a' b' c' d']; cbn; split; try congruence; try discriminate.
  - intros H. repeat (apply andb_prop in H; destruct H as [H ?]).
    apply byte_dec_bl in H, H0, H1, H2. congruence.
  - intros [= -> -> -> ->]. rewrite !(byte_dec_lb eq_refl). reflexivity.
Qed.

Lemma remove_first_spec ip a :
  (In ip a ->
   exists pre post, a = pre ++ ip :: post /\ ~ In ip pre
                    /\ remove_first ip a = Some (pre ++ post))
  /\ (~ In ip a -> remove_first ip a = None).
Proof.
  induction a as [| x a [IHin IHout]]; cbn [remove_first].
  - split; [intros [] | reflexivity].
  - destruct (IP_eqb x ip) eqn:Hx.
    + apply IP_eqb_eq in Hx. subst x. split.
      * intros _. exists [], a. cbn. auto.
      * intros Hn. exfalso. apply Hn. now left.
    + assert (Hne : x <> ip).
      { intros ->. rewrite (proj2 (IP_eqb_eq ip ip) eq_refl) in Hx. discriminate. }
      split.
      * intros [-> | Hin]; [congruence |].
        destruct (IHin Hin) as (pre & post & Ha & Hpre & Hr).
        exists (x :: pre), post. rewrite Hr. subst a.
        split; [reflexivity |]. split; [| reflexivity].
        intros [? | ?]; [congruence | auto].
      * intros Hn. rewrite IHout; [reflexivity |]. intros Hin. apply Hn. now right.
Qed.

Lemma remove_first_last ip a : ~ In ip a -> remove_first ip (a ++ [ip]) = Some a.
Proof.
  induction a as [| x a IH]; cbn [remove_first app]; intros Hn.
  - now rewrite (proj2 (IP_eqb_eq ip ip) eq_refl).
  - destruct (IP_eqb x ip) eqn:Hx.
    + apply IP_eqb_eq in Hx. exfalso. apply Hn. now left.
    + rewrite IH; [reflexivity |]. intros Hin. apply Hn. now right.
Qed.

Lemma IsInterfaceLocal_In active ip : IsInterfaceLocal active ip = true <-> In ip active.
Proof.
  unfold IsInterfaceLocal. rewrite existsb_exists. split.
  - intros (x & Hin & Hx). apply IP_eqb_eq in Hx. now subst.
  - intros Hin. exists ip. split; [exact Hin | now apply IP_eqb_eq].
Qed.

(** What a call of [AssignInterface] on a device that is not yet
    configured comes to. *)
Lemma AssignInterface_cases {M : Type} (E : Env) (name : string) (w : World M) t :
  Interface (inst w) = Some t ->
  tConfigured t = false ->
  (exists msg, fst (AssignInterface M E name w) = Some msg
               /\ ActiveInterfaces (snd (AssignInterface M E name w)) = ActiveInterfaces w)
  \/ (fst (AssignInterface M E name w) = None
      /\ name <> "" /\ tMac t <> None
      /\ ActiveInterfaces (snd (AssignInterface M E name w)) = ActiveInterfaces w ++ [tIP t]
      /\ Interface (inst (snd (AssignInterface M E name w)))
         = Some (mkTAP (tIP t) (tSubnet t) (tMac t) name (tTool t) true
                   (negb (tAuto t)) (tAuto t))).
Proof.
  intros Hi Hc. destruct w as [p act nw tk lg].
  destruct p as [us dh sh fm rs hs ifc sw ob]. cbn in Hi. subst ifc.
  destruct t as [ip sn mc nm tl fl cf au]. cbn in Hc. subst cf.
  unfold AssignInterface, Configure. cbn.
  destruct (String.eqb name "") eqn:Hname; [left; eexists; split; reflexivity |].
  apply String.eqb_neq in Hname.
  destruct (IP_is_nil ip && negb au) eqn:Hip; [left; eexists; split; reflexivity |].
  destruct mc as [mac |]; [| left; eexists; split; reflexivity].
  destruct (openErr E) as [err |]; [left; eexists; split; reflexivity |].
  destruct (String.eqb tl ""); [left; eexists; split; reflexivity |].
  destruct (IP_is_nil ip) eqn:Hnil.
  - right. destruct au; cbn; repeat split; auto; discriminate.
  - destruct (linkupErr E) as [err |]; [left; eexists; split; reflexivity |].
    right. destruct au; cbn; repeat split; auto; discriminate.
Qed.

End RegistryFacts.

Section RegistryClaims.

Import Runtime Addresses.

(** X9: [deactivateInterface] removes the first entry of the registry
    that equals the overlay IP of the device, and only that one: the
    entries before and after it stay, in order, and the instance is not
    touched.  When no entry equals that IP it returns the error
    "Interface ... wasn't listed as active" and changes nothing. *)
Theorem deactivateInterface_removes_one {M : Type} (w : World M) (t : TAPDarwin) :
  Interface (inst w) = Some t ->
  (In (tIP t) (ActiveInterfaces w) ->
   fst (deactivateInterface w) = None
   /\ inst (snd (deactivateInterface w)) = inst w
   /\ exists pre post,
        ActiveInterfaces w = pre ++ tIP t :: post
        /\ ~ In (tIP t) pre
        /\ ActiveInterfaces (snd (deactivateInterface w)) = pre ++ post)
  /\ (~ In (tIP t) (ActiveInterfaces w) ->
      deactivateInterface w
      = (Some ("Interface " +:+ tName t +:+ " wasn't listed as active"), w)).
Proof.
  intros Hi. unfold deactivateInterface. rewrite Hi.
  destruct (remove_first_spec (tIP t) (ActiveInterfaces w)) as [Hin Hout]. split.
  - intros H. destruct (Hin H) as (pre & post & Ha & Hpre & Hr). rewrite Hr. cbn.
    split; [reflexivity |]. split; [reflexivity |]. exists pre, post. auto.
  - intros H. now rewrite (Hout H).
Qed.

Definition fresh_device : TAPDarwin :=
  mkTAP (IPv4 x0a x01 x00 x05) IPnil (Some [x06; x00; x00; x00; x00; x05])
        "" "/sbin/ifconfig" false false false.

Definition starting : World unit :=
  mkWorld (mkP2P (Some (mkNetwork 6881 6881)) (Some (mkDHT "" "swarm")) false false false
                 "swarm" (Some fresh_device) (Some (SwarmTable.Init SwarmTable.zero)) IPnil)
          [IPv4 x0a x01 x00 x09] 0 0%nat [].

Lemma deactivateInterface_removes_one_witness :
  Interface (inst running) = Some device_5
  /\ In (tIP device_5) (ActiveInterfaces running)
  /\ fst (deactivateInterface running) = None.
Proof.
  assert (Hin : In (tIP device_5) (ActiveInterfaces running)) by (left; reflexivity).
  split; [reflexivity |]. split; [exact Hin |].
  exact (proj1 (proj1 (deactivateInterface_removes_one running device_5 eq_refl) Hin)).
Defined.

(** X10: [AssignInterface] on a configured device returns nil and
    changes nothing.  On a device that is not configured, when it returns
    nil it has appended the IP of the device to the registry (also a nil
    IP, as a device in auto mode has), so that [IsInterfaceLocal] holds
    for it, and the device is marked configured exactly when it is not in
    auto mode; when it returns an error the registry is as before. *)
Theorem AssignInterface_registers {M : Type} (E : Env) (name : string)
    (w : World M) (t : TAPDarwin) :
  Interface (inst w) = Some t ->
  (tConfigured t = true -> AssignInterface M E name w = (None, w))
  /\ (tConfigured t = false ->
      (fst (AssignInterface M E name w) = None ->
       ActiveInterfaces (snd (AssignInterface M E name w)) = ActiveInterfaces w ++ [tIP t]
       /\ IsInterfaceLocal (ActiveInterfaces (snd (AssignInterface M E name w))) (tIP t) = true
       /\ exists t', Interface (inst (snd (AssignInterface M E name w))) = Some t'
                     /\ tConfigured t' = negb (tAuto t) /\ tName t' = name)
      /\ (fst (AssignInterface M E name w) <> None ->
          ActiveInterfaces (snd (AssignInterface M E name w)) = ActiveInterfaces w)).
Proof.
  intros Hi. split.
  - intros Hc. unfold AssignInterface. now rewrite Hi, Hc.
  - intros Hc.
    destruct (AssignInterface_cases E name w t Hi Hc)
      as [(msg & Hf & Ha) | (Hf & _ & _ & Ha & Hd)]; rewrite Hf; split.
    + discriminate.
    + intros _. exact Ha.
    + intros _. rewrite Ha. split; [reflexivity |]. split.
      * apply IsInterfaceLocal_In. apply in_or_app. right. now left.
      * eexists. split; [exact Hd |]. split; reflexivity.
    + congruence.
Qed.

Lemma AssignInterface_registers_witness :
  Interface (inst starting) = Some fresh_device
  /\ ActiveInterfaces (snd (AssignInterface unit calm "tap1" starting))
     = [IPv4 x0a x01 x00 x09; IPv4 x0a x01 x00 x05].
Proof.
  split; [reflexivity |].
  destruct (AssignInterface_registers calm "tap1" starting fresh_device eq_refl)
    as [_ Hreg].
  destruct (Hreg eq_refl) as [Hok _].
  exact (proj1 (Hok eq_refl)).
Defined.

(** X11: assigning the interface of a device whose IP is not in the
    registry and deactivating it again gives back the registry as it was,
    and the IP is then no longer local. *)
Theorem Assign_then_deactivate_restores {M : Type} (E : Env) (name : string)
    (w : World M) (t : TAPDarwin) :
  Interface (inst w) = Some t ->
  tConfigured t = false ->
  ~ In (tIP t) (ActiveInterfaces w) ->
  fst (AssignInterface M E name w) = None ->
  ActiveInterfaces (snd (deactivateInterface (snd (AssignInterface M E name w))))
  = ActiveInterfaces w
  /\ IsInterfaceLocal
       (ActiveInterfaces (snd (deactivateInterface (snd (AssignInterface M E name w)))))
       (tIP t) = false.
Proof.
  intros Hi Hc Hnin Hok.
  destruct (AssignInterface_cases E name w t Hi Hc)
    as [(msg & Hf & _) | (_ & _ & _ & Ha & Hd)]; [congruence |].
  assert (Hrestore :
    ActiveInterfaces (snd (deactivateInterface (snd (AssignInterface M E name w))))
    = ActiveInterfaces w).
  { unfold deactivateInterface. rewrite Hd, Ha. cbn [tIP].
    rewrite remove_first_last by assumption. reflexivity. }
  split; [exact Hrestore |]. rewrite Hrestore.
  destruct (IsInterfaceLocal (ActiveInterfaces w) (tIP t)) eqn:Hl; [| reflexivity].
  apply IsInterfaceLocal_In in Hl. contradiction.
Qed.

Lemma Assign_then_deactivate_restores_witness :
  Interface (inst starting) = Some fresh_device
  /\ ~ In (tIP fresh_device) (ActiveInterfaces starting)
  /\ ActiveInterfaces (snd (deactivateInterface (snd (AssignInterface unit calm "tap1" starting))))
     = ActiveInterfaces starting.
Proof.
  assert (Hn : ~ In (tIP fresh_device) (ActiveInterfaces starting)).
  { cbn. intros [H | []]. discriminate. }
  split; [reflexivity |]. split; [exact Hn |].
  exact (proj1 (Assign_then_deactivate_restores calm "tap1" starting fresh_device
                  eq_refl eq_refl Hn eq_refl)).
Defined.

End RegistryClaims.

Section AddressClaims.

Import Addresses.

Lemma octet_is b (n : byte) :
  Byte.eqb (byte_and n xff) (byte_and b xff) = N.eqb (Byte.to_N b) (Byte.to_N n).
Proof.
  assert (Hff : forall x, byte_and x xff = x) by (intros x; destruct x; reflexivity).
  rewrite !Hff.
  destruct (N.eqb (Byte.to_N b) (Byte.to_N n)) eqn:H.
  - apply N.eqb_eq in H. apply (f_equal Byte.of_N) in H.
    rewrite !Byte.of_to_N in H. injection H as ->. now apply byte_dec_lb.
  - destruct (Byte.eqb n b) eqn:Hb; [| reflexivity].
    apply byte_dec_bl in Hb. subst. now rewrite N.eqb_refl in H.
Qed.

Lemma octet_any b (n : byte) : Byte.eqb (byte_and n x00) (byte_and b x00) = true.
Proof.
  assert (H0 : forall x, byte_and x x00 = x00) by (intros x; destruct x; reflexivity).
  now rewrite !H0.
Qed.

Lemma octet_16_31 b :
  Byte.eqb (byte_and x10 xf0) (byte_and b xf0)
  = (16 <=? Byte.to_N b)%N && (Byte.to_N b <=? 31)%N.
Proof. destruct b; reflexivity. Qed.

Lemma isPrivateIP_IPv4 a b c d :
  isPrivateIP (IPv4 a b c d)
  = ((Byte.to_N a =? 10)%N
     || ((Byte.to_N a =? 172)%N && ((16 <=? Byte.to_N b)%N && (Byte.to_N b <=? 31)%N))
     || ((Byte.to_N a =? 192)%N && (Byte.to_N b =? 168)%N), None).
Proof.
  unfold isPrivateIP. cbn [IP_is_nil].
  replace (ParseCIDR "10.0.0.0/8")
    with (Some (IPv4 x0a x00 x00 x00, mkIPNet (IPv4 x0a x00 x00 x00) [xff; x00; x00; x00]))
    by (vm_compute; reflexivity).
  replace (ParseCIDR "172.16.0.0/12")
    with (Some (IPv4 xac x10 x00 x00, mkIPNet (IPv4 xac x10 x00 x00) [xff; xf0; x00; x00]))
    by (vm_compute; reflexivity).
  replace (ParseCIDR "192.168.0.0/16")
    with (Some (IPv4 xc0 xa8 x00 x00, mkIPNet (IPv4 xc0 xa8 x00 x00) [xff; xff; x00; x00]))
    by (vm_compute; reflexivity).
  unfold Contains. cbn [netIP netMask].
  rewrite !octet_is, !octet_any, octet_16_31, !andb_true_r.
  reflexivity.
Qed.

(** X12: [isPrivateIP] reports "Missing IP" for a nil address, and for
    an IPv4 address a.b.c.d it answers true exactly for a = 10, for
    a = 172 with b from 16 to 31, and for a = 192 with b = 168. *)
Theorem isPrivateIP_ranges :
  isPrivateIP IPnil = (false, Some "Missing IP")
  /\ forall a b c d,
       snd (isPrivateIP (IPv4 a b c d)) = None
       /\ (fst (isPrivateIP (IPv4 a b c d)) = true
           <-> (Byte.to_N a = 10
                \/ (Byte.to_N a = 172 /\ 16 <= Byte.to_N b <= 31)
                \/ (Byte.to_N a = 192 /\ Byte.to_N b = 168))%N).
Proof.
  split; [reflexivity |]. intros a b c d. rewrite isPrivateIP_IPv4. cbn [fst snd].
  split; [reflexivity |].
  rewrite !orb_true_iff, !andb_true_iff, !N.eqb_eq, !N.leb_le. tauto.
Qed.

Lemma isPrivateIP_ranges_witness :
  fst (isPrivateIP (IPv4 xac x14 x01 x01)) = true
  /\ fst (isPrivateIP (IPv4 xac x20 x01 x01)) <> true.
Proof.
  destruct isPrivateIP_ranges as [_ H]. split.
  - apply (proj2 (H xac x14 x01 x01)). right. left. cbn. lia.
  - intros Hp. apply (proj2 (H xac x20 x01 x01)) in Hp. cbn in Hp. lia.
Defined.

Lemma IP_String_172 b c d :
  exists rest, IP_String (IPv4 xac b c d) = "172." +:+ String rest.1 rest.2.
Proof.
  destruct b; eexists (_, _); reflexivity.
Qed.

(** X13: [FilterInterface] filters every interface whose address text
    is that of an IPv4 address 172.b.c.d, whatever the registry holds and
    whether or not the ping succeeds; this includes the addresses with b
    below 16 or above 31, which [isPrivateIP] reports as not private. *)
Theorem FilterInterface_172 (active : list IP) (pingFails : string -> bool)
    (infName : string) (b c d : byte) :
  FilterInterface active pingFails infName (IP_String (IPv4 xac b c d)) = true
  /\ ((Byte.to_N b < 16 \/ 31 < Byte.to_N b)%N ->
      fst (isPrivateIP (IPv4 xac b c d)) = false).
Proof.
  split.
  - destruct (IP_String_172 b c d) as [[r1 r2] ->]. reflexivity.
  - intros Hb. rewrite isPrivateIP_IPv4. cbn [fst Byte.to_N].
    replace ((16 <=? Byte.to_N b)%N && (Byte.to_N b <=? 31)%N) with false.
    + reflexivity.
    + symmetry. apply andb_false_iff.
      destruct Hb as [Hb | Hb]; [left; apply N.leb_gt | right; apply N.leb_gt]; exact Hb.
Qed.

Lemma FilterInterface_172_witness :
  (31 < Byte.to_N x20)%N
  /\ FilterInterface [] (fun _ => false) "en0" "172.32.0.1" = true
  /\ fst (isPrivateIP (IPv4 xac x20 x00 x01)) = false.
Proof.
  assert (H : (31 < Byte.to_N x20)%N) by (vm_compute; reflexivity).
  split; [exact H |].
  destruct (FilterInterface_172 [] (fun _ => false) "en0" x20 x00 x01) as [Hf Hp].
  split; [exact Hf | exact (Hp (or_intror H))].
Defined.

Lemma IsIPv4_octet b r : IsIPv4 (uitoa (Byte.to_N b) +:+ String "." r) = true.
Proof. destruct b; reflexivity. Qed.

(** X14: [IsIPv4] accepts the text of every IPv4 address, and rejects
    every text without a dot. *)
Theorem IsIPv4_dotted :
  (forall a b c d, IsIPv4 (IP_String (IPv4 a b c d)) = true)
  /\ (forall s, contains "." s = false -> IsIPv4 s = false).
Proof.
  split.
  - intros a b c d. unfold IP_String.
    change ("." +:+ ?s) with (String "." s). apply IsIPv4_octet.
  - induction s as [| ch s IH]; [reflexivity |]. cbn [contains IsIPv4].
    intros H. apply orb_false_elim in H as [Hc Hs].
    rewrite Hc. destruct (Ascii.eqb ch ":"); [reflexivity | now apply IH].
Qed.

Lemma IsIPv4_dotted_witness :
  IsIPv4 "10.1.0.5" = true /\ IsIPv4 "fe80::1" = false.
Proof.
  destruct IsIPv4_dotted as [Hyes Hno]. split.
  - exact (Hyes x0a x01 x00 x05).
  - exact (Hno "fe80::1" eq_refl).
Defined.

(** X15: [StringifyState] gives different states different words. *)
Theorem StringifyState_injective (a b : PeerState) :
  StringifyState a = StringifyState b -> a = b.
Proof. destruct a, b; intros H; try reflexivity; discriminate H. Qed.

Lemma StringifyState_injective_witness :
  StringifyState PeerStateStop = "STOPPED"
  /\ forall s, StringifyState s = "STOPPED" -> s = PeerStateStop.
Proof.
  split; [reflexivity |]. intros s Hs.
  exact (StringifyState_injective s PeerStateStop Hs).
Defined.

End AddressClaims.

(* ===================================================================== *)
(** * The latency probe on the wire *)
(* ===================================================================== *)

Section ProbeMore.

Import EndpointProbe.

Variable P2PMessage : Type.
Variable Network : Type.
Variable CreateMessageStatic : Z -> list byte -> P2PMessage + error.
Variable MsgTypeLatency : Z.
Variable LatencyRequestHeader : list byte.
Variable EndpointLatencyRequestInterval : Z.
Variable MarshalBinary : Z -> list byte.

Local Abbreviation Measure :=
  (Measure P2PMessage Network CreateMessageStatic MsgTypeLatency
     LatencyRequestHeader EndpointLatencyRequestInterval MarshalBinary).

Lemma to_N_byte_of_N n : (n < 256)%N -> Byte.to_N (byte_of_N n) = n.
Proof.
  intros H. unfold byte_of_N. rewrite N.mod_small by exact H.
  destruct (Byte.of_N n) eqn:E.
  - now apply Byte.to_of_N.
  - apply Byte.of_N_None_iff in E. lia.
Qed.

(** The two bytes are the value modulo 65536, high byte first. *)
Lemma put_uint16_value (port : N) :
  exists hi lo, put_uint16 (Z.of_N port) = [hi; lo]
    /\ (256 * Byte.to_N hi + Byte.to_N lo = port mod 65536)%N.
Proof.
  eexists _, _. split; [reflexivity |].
  pose proof (Z.mod_pos_bound (Z.of_N port) 65536 ltac:(lia)) as Hu.
  set (u := Z.of_N port mod 65536) in *.
  pose proof (Z.div_mod u 256 ltac:(lia)) as Hdm.
  pose proof (Z.mod_pos_bound u 256 ltac:(lia)) as Hlo.
  assert (Hhi : 0 <= u / 256 < 256)
    by (split; [apply Z.div_pos; lia | apply Z.div_lt_upper_bound; lia]).
  rewrite !to_N_byte_of_N by lia.
  apply N2Z.inj. rewrite N2Z.inj_add, N2Z.inj_mul, !Z2N.id, N2Z.inj_mod by lia.
  fold u. change (Z.of_N 256) with 256. change (Z.of_N 65536) with 65536. lia.
Qed.

(** X16: [addrToBytes] of an endpoint with an IPv4 address gives six
    bytes, the four octets and then the port modulo 65536 with its high
    byte first; without an address, or with a nil IP, it gives nil. *)
Theorem addrToBytes_layout (e : Endpoint) :
  match Addr e with
  | Some (mkUDPAddr (IPv4 a b c d) port) =>
      exists hi lo, addrToBytes e = Some [a; b; c; d; hi; lo]
        /\ (256 * Byte.to_N hi + Byte.to_N lo = port mod 65536)%N
  | _ => addrToBytes e = None
  end.
Proof.
  unfold addrToBytes. destruct (Addr e) as [[[| a b c d] port] |]; try reflexivity.
  cbn [uIP uPort]. destruct (put_uint16_value port) as (hi & lo & -> & H).
  exists hi, lo. split; [reflexivity | exact H].
Qed.

(** X17: a probe that is due (endpoint not broken, address and socket
    present, last query at least an interval ago) changes nothing of the
    endpoint but the stamp, which it always moves.  To an IPv4 address
    it sends one message, to that address, made from the header, the four
    octets, the port modulo 65536 high byte first, the id and the time
    stamp; if the message cannot be made, or the address has no IPv4
    form, it sends nothing. *)
Theorem Measure_due (e : Endpoint) (net : Network) (id : string) (clk : Clock)
    (addr : UDPAddr) :
  broken e = false ->
  Addr e = Some addr ->
  EndpointLatencyRequestInterval <= t_since clk - LastLatencyQuery e ->
  let '(e', sent) := Measure e (Some net) id clk in
  e' = set_LastLatencyQuery (LastLatencyQuery e') e
  /\ match uIP addr with
     | IPnil => sent = [] /\ LastLatencyQuery e' = t_stamp clk
     | IPv4 a b c d =>
         exists hi lo,
           (256 * Byte.to_N hi + Byte.to_N lo = uPort addr mod 65536)%N
           /\ match CreateMessageStatic MsgTypeLatency
                      (LatencyRequestHeader ++ [a; b; c; d; hi; lo]
                         ++ list_byte_of_string id ++ MarshalBinary (t_ts clk)) with
              | inl msg => sent = [(msg, addr)] /\ LastLatencyQuery e' = t_stamp clk
              | inr _ => sent = [] /\ LastLatencyQuery e' = t_err clk
              end
     end.
Proof.
  intros Hb Ha Hi. unfold EndpointProbe.Measure. rewrite Hb, Ha.
  apply Z.ltb_ge in Hi. rewrite Hi.
  unfold addrToBytes. cbn [Addr set_LastLatencyQuery]. rewrite Ha.
  destruct addr as [[| a b c d] port]; cbn [uIP uPort].
  - cbn. auto.
  - destruct (put_uint16_value port) as (hi & lo & -> & H).
    cbn [app].
    destruct (CreateMessageStatic _ _) as [msg | err] eqn:Hc.
    + split; [reflexivity |]. exists hi, lo. split; [exact H |].
      cbn [app] in Hc |- *. rewrite Hc. auto.
    + split; [reflexivity |]. exists hi, lo. split; [exact H |].
      cbn [app] in Hc |- *. rewrite Hc. auto.
Qed.

End ProbeMore.

Section ProbeMoreWitness.

Import EndpointProbe.

Lemma Measure_due_witness :
  2000 <= 2000 - LastLatencyQuery endpoint_1
  /\ snd (Measure (list byte) unit (fun _ payload => inl payload) 7 [x01] 2000
            (fun _ => [x09]) endpoint_1 (Some tt) "id" (mkClock 2000 2001 2002 2003))
     = [([x01; xc0; x00; x02; x01; x1a; xe1; "i"%byte; "d"%byte; x09],
         mkUDPAddr (IPv4 xc0 x00 x02 x01) 6881)].
Proof.
  assert (Hi : 2000 <= 2000 - LastLatencyQuery endpoint_1) by (cbn; lia).
  split; [exact Hi |].
  pose proof (Measure_due (list byte) unit (fun _ payload => inl payload) 7 [x01] 2000
                (fun _ => [x09]) endpoint_1 tt "id" (mkClock 2000 2001 2002 2003)
                (mkUDPAddr (IPv4 xc0 x00 x02 x01) 6881) eq_refl eq_refl Hi) as H.
  destruct (Measure _ _ _ _ _ _ _ _ _ _ _) as [e' sent].
  destruct H as (_ & hi & lo & Hport & Hsent). cbn [uPort] in Hport.
  assert (Hhi : hi = x1a /\ lo = xe1).
  { pose proof (Byte.to_N_bounded hi). pose proof (Byte.to_N_bounded lo).
    change (6881 mod 65536)%N with 6881%N in Hport.
    assert (Byte.to_N hi = 26 /\ Byte.to_N lo = 225)%N as [Hh Hl] by lia.
    split; [rewrite <- (byte_of_to_N hi), Hh | rewrite <- (byte_of_to_N lo), Hl];
      reflexivity. }
  destruct Hhi as [-> ->]. cbn in Hsent. exact (proj1 Hsent).
Defined.

End ProbeMoreWitness.

(* ===================================================================== *)
(** * Hardware addresses and handshakes *)
(* ===================================================================== *)

Section HandshakeMore.

Import Utils.

Lemma parse_mac_groups_length n : forall s sep l,
  parse_mac_groups n s sep = Some l -> length l = n.
Proof.
  induction n as [| n IH]; intros s sep l H; cbn [parse_mac_groups] in H.
  - now injection H as <-.
  - destruct (xtoi2 s sep); [| discriminate].
    destruct (parse_mac_groups n (drop_str 3 s) sep) as [bs |] eqn:E; [| discriminate].
    injection H as <-. cbn. f_equal. exact (IH _ _ _ E).
Qed.

Lemma parse_mac_quads_length n : forall s l,
  parse_mac_quads n s = Some l -> length l = (2 * n)%nat.
Proof.
  induction n as [| n IH]; intros s l H; cbn [parse_mac_quads] in H.
  - now injection H as <-.
  - destruct (xtoi2 (String.substring 0 2 s) zero); [| discriminate].
    destruct (xtoi2 (drop_str 2 s) "."); [| discriminate].
    destruct (parse_mac_quads n (drop_str 5 s)) as [bs |] eqn:E; [| discriminate].
    injection H as <-. cbn [length]. rewrite (IH _ _ E). lia.
Qed.

(** [net.ParseMAC] gives 6, 8 or 20 bytes, or an error. *)
Lemma ParseMAC_length s l :
  ParseMAC s = Some l -> mac_len_ok (Z.of_nat (length l)) = true.
Proof.
  unfold ParseMAC. intros H.
  destruct (strlen s <? 14); [discriminate |].
  destruct (String.get 2 s) as [c2 |]; [| discriminate].
  destruct (String.get 4 s) as [c4 |]; [| discriminate].
  destruct (Ascii.eqb c2 ":" || Ascii.eqb c2 "-").
  - destruct (negb _); [discriminate |].
    destruct (mac_len_ok ((strlen s + 1) / 3)) eqn:Hok; [| discriminate].
    cbn [negb] in H. apply parse_mac_groups_length in H. rewrite H.
    rewrite Z2Nat.id; [exact Hok |].
    unfold mac_len_ok in Hok. lia.
  - destruct (Ascii.eqb c4 "."); [| discriminate].
    destruct (negb _); [discriminate |].
    destruct (mac_len_ok (2 * (strlen s + 1) / 5)) eqn:Hok; [| discriminate].
    cbn [negb] in H. apply parse_mac_quads_length in H. rewrite H.
    set (n := 2 * (strlen s + 1) / 5) in *.
    unfold mac_len_ok in Hok |- *.
    assert (Hn : n = 6 \/ n = 8 \/ n = 20) by lia.
    destruct Hn as [-> | [-> | ->]]; reflexivity.
Qed.

(** X18: [GenerateMAC] gives the empty text and a nil address when the
    random source fails.  When it succeeds the result is never empty: the
    first octet is 06 and the other five are the random octets 1 to 5,
    whatever octet 0 was; the text is 17 characters and reads back as the
    address. *)
Theorem GenerateMAC_result :
  GenerateMAC None = ("", None)
  /\ forall b0 b1 b2 b3 b4 b5,
       let '(mac, hw) := GenerateMAC (Some [b0; b1; b2; b3; b4; b5]) in
       hw = Some [x06; b1; b2; b3; b4; b5]
       /\ ParseMAC mac = hw
       /\ HW_String hw = mac
       /\ String.length mac = 17%nat
       /\ GenerateMAC (Some [x00; b1; b2; b3; b4; b5]) = (mac, hw).
Proof.
  split; [reflexivity |]. intros b0 b1 b2 b3 b4 b5.
  rewrite !GenerateMAC_random.
  split; [reflexivity |]. split; [now apply ParseMAC_HW_String |].
  split; [reflexivity |]. split; reflexivity.
Qed.

Variable resolveOther : string -> option UDPAddr.

(** X19: [ParseIntroString] returns a handshake or an error, never both
    and never neither.  A handshake comes from exactly four fields: the
    id is the first, the hardware address is the second parsed and has 6,
    8 or 20 bytes, the endpoint is the fourth resolved, and the IP is nil
    with [AutoIP] set when the third field is "auto", else the third
    field parsed and not nil. *)
Theorem ParseIntroString_result (intro : string) :
  match ParseIntroString resolveOther intro with
  | (Some hs, None) =>
      exists id mac ip ep l e,
        Split "," intro = [id; mac; ip; ep]
        /\ hsID hs = id
        /\ hsHardwareAddr hs = Some l /\ ParseMAC mac = Some l
        /\ (length l = 6 \/ length l = 8 \/ length l = 20)%nat
        /\ hsEndpoint hs = Some e /\ ResolveUDPAddr resolveOther ep = Some e
        /\ (if hsAutoIP hs then ip = "auto" /\ hsIP hs = IPnil
            else ip <> "auto" /\ hsIP hs = ParseIP ip /\ hsIP hs <> IPnil)
  | (None, Some _) => True
  | _ => False
  end.
Proof.
  unfold ParseIntroString.
  destruct (Split "," intro) as [| id [| mac [| ip [| ep [| x rest]]]]] eqn:Hs;
    try exact I.
  cbn [length Nat.eqb negb nth].
  destruct (ParseMAC mac) as [l |] eqn:Hm; [| exact I].
  assert (Hl : (length l = 6 \/ length l = 8 \/ length l = 20)%nat).
  { apply ParseMAC_length in Hm. unfold mac_len_ok in Hm. lia. }
  destruct (String.eqb ip "auto") eqn:Hauto.
  - destruct (ResolveUDPAddr resolveOther ep) as [e |] eqn:He; [| exact I].
    exists id, mac, ip, ep, l, e. cbn. apply String.eqb_eq in Hauto. auto 10.
  - apply String.eqb_neq in Hauto.
    destruct (ParseIP ip) as [| a b c d] eqn:Hip; [exact I |].
    destruct (ResolveUDPAddr resolveOther ep) as [e |] eqn:He; [| exact I].
    exists id, mac, ip, ep, l, e. cbn. rewrite Hip.
    repeat split; auto; discriminate.
Qed.

End HandshakeMore.

(* ===================================================================== *)
(** * Waiting for the echoed port *)
(* ===================================================================== *)

Module PortWait.

Import Runtime.

(** The caller of [waitForRemotePort] together with what it can see of
    the rest of the process: the socket, the time since [started], and
    the number of sleeps so far. *)
Record Wait : Type := mkWait { sock : Network; elapsed : Z; naps : nat }.

(** While the caller sleeps for the [k]-th time the listener may store
    a remote port ([arrive k] maps the stored port to the new one), and
    the sleep overruns by [late k]. *)
Record Listener : Type := mkListener { arrive : nat -> Z -> Z; late : nat -> N }.

Section Wait.

Variable E : Listener.

(** [Network.GetPort] is not among the sources. *)
Variable GetPort : Network -> Z.

(** [time.Sleep(time.Millisecond * 100)] *)
Definition nap (w : Wait) : Wait :=
  mkWait (mkNetwork (localPort (sock w)) (arrive E (naps w) (remotePort (sock w))))
         (elapsed w + 100 * Millisecond + Z.of_N (late E (naps w)))
         (S (naps w)).

(** The loop of [waitForRemotePort]; [None] when the fuel runs out. *)
Fixpoint wait_loop (fuel : nat) (w : Wait) : option Wait :=
  match fuel with
  | O => None
  | S fuel' =>
      if remotePort (sock w) =? 0 then
        let w' := nap w in
        if 3 * Second <? elapsed w' then Some w' else wait_loop fuel' w'
      else Some w
  end.

(** [PeerToPeer.waitForRemotePort]: the error and the state afterwards;
    [None] when the fuel runs out. *)
Definition waitForRemotePort (fuel : nat) (socket : option Network)
    : option (option error * option Wait) :=
  match socket with
  | None => Some (Some "waitForRemotePort: nil udp socket", None)
  | Some s =>
      match wait_loop fuel (mkWait s 0 0) with
      | None => None
      | Some w =>
          if remotePort (sock w) =? 0 then
            Some (Some "Didn't receive remote port",
                  Some (mkWait (mkNetwork (localPort (sock w)) (GetPort (sock w)))
                               (elapsed w) (naps w)))
          else Some (None, Some w)
      end
  end.

End Wait.

End PortWait.

Section PortWaitClaims.

Import Runtime PortWait.

Variable E : Listener.
Variable GetPort : Network -> Z.

Lemma wait_loop_spec fuel : forall w,
  100 * Millisecond * Z.of_nat (naps w) <= elapsed w ->
  (naps w <= 30)%nat ->
  (31 <= fuel + naps w)%nat ->
  exists w', wait_loop E fuel w = Some w'
    /\ (naps w <= naps w' <= 31)%nat
    /\ localPort (sock w') = localPort (sock w)
    /\ (remotePort (sock w') = 0 -> 3 * Second < elapsed w')
    /\ (remotePort (sock w) <> 0 -> w' = w).
Proof.
  induction fuel as [| fuel IH]; intros w Hel Hn Hf; [lia |].
  cbn [wait_loop].
  destruct (remotePort (sock w) =? 0) eqn:Hr.
  - apply Z.eqb_eq in Hr.
    destruct (3 * Second <? elapsed (nap E w)) eqn:Ht.
    + apply Z.ltb_lt in Ht. exists (nap E w).
      split; [reflexivity |]. cbn [nap naps sock localPort].
      split; [lia |]. split; [reflexivity |]. split; [intros _; exact Ht |].
      intros Hne. contradiction.
    + apply Z.ltb_ge in Ht.
      assert (Hel' : 100 * Millisecond * Z.of_nat (naps (nap E w)) <= elapsed (nap E w))
        by (cbn [nap naps elapsed]; unfold Millisecond in *; lia).
      assert (Hn' : (naps (nap E w) <= 30)%nat)
        by (unfold Second, Millisecond in *; lia).
      destruct (IH (nap E w) Hel' Hn') as (w' & Hw & Hnaps & Hlp & Hz & _).
      { cbn [nap naps]. lia. }
      exists w'. split; [exact Hw |]. cbn [nap naps sock localPort] in Hnaps, Hlp.
      split; [lia |]. split; [exact Hlp |]. split; [exact Hz |].
      intros Hne. contradiction.
  - apply Z.eqb_neq in Hr. exists w. split; [reflexivity |].
    split; [lia |]. split; [reflexivity |]. split; [| reflexivity].
    intros H0. contradiction.
Qed.

(** X20: with a socket, [waitForRemotePort] returns after at most 31
    sleeps.  It returns no error exactly when the socket then holds a
    remote port other than 0, and that port is kept; otherwise more than
    3 seconds have passed, the error is "Didn't receive remote port" and
    the remote port is set to [GetPort].  A socket that already holds a
    remote port is returned at once. *)
Theorem waitForRemotePort_bounded (fuel : nat) (s : Network) :
  (31 <= fuel)%nat ->
  exists err w,
    waitForRemotePort E GetPort fuel (Some s) = Some (err, Some w)
    /\ (naps w <= 31)%nat
    /\ localPort (sock w) = localPort s
    /\ (remotePort s <> 0 -> err = None /\ w = mkWait s 0 0)
    /\ match err with
       | None => remotePort (sock w) <> 0
       | Some msg =>
           msg = "Didn't receive remote port"
           /\ 3 * Second < elapsed w
           /\ remotePort (sock w) = GetPort (mkNetwork (localPort s) 0)
       end.
Proof.
  intros Hf. unfold waitForRemotePort.
  destruct (wait_loop_spec fuel (mkWait s 0 0)) as (w & -> & Hn & Hlp & Hz & Hid);
    cbn [naps elapsed]; try lia.
  cbn [naps sock] in Hn, Hlp, Hid.
  destruct (remotePort (sock w) =? 0) eqn:Hr.
  - apply Z.eqb_eq in Hr. eexists _, _. split; [reflexivity |].
    cbn [naps sock localPort remotePort elapsed].
    split; [lia |]. split; [exact Hlp |]. split.
    + intros Hs. specialize (Hid Hs). subst w. cbn in Hr. contradiction.
    + split; [reflexivity |]. split; [exact (Hz Hr) |].
      f_equal. destruct (sock w) as [lp rp]. cbn in Hlp, Hr. now subst.
  - apply Z.eqb_neq in Hr. exists None, w. split; [reflexivity |].
    split; [lia |]. split; [exact Hlp |]. split; [| exact Hr].
    intros Hs. split; [reflexivity | exact (Hid Hs)].
Qed.

End PortWaitClaims.

Section PortWaitWitness.

Import Runtime PortWait.

(** The echo reply arrives during the third sleep. *)
Definition echo_at_3 : Listener :=
  mkListener (fun k port => if Nat.eqb k 2 then 40123 else port) (fun _ => 0%N).

Lemma waitForRemotePort_bounded_witness :
  (31 <= 40)%nat
  /\ exists w,
       waitForRemotePort echo_at_3 localPort 40 (Some (mkNetwork 6881 0))
       = Some (None, Some w)
       /\ (naps w <= 31)%nat /\ remotePort (sock w) <> 0.
Proof.
  assert (Hf : (31 <= 40)%nat) by lia.
  split; [exact Hf |].
  destruct (waitForRemotePort_bounded echo_at_3 localPort 40 (mkNetwork 6881 0) Hf)
    as (err & w & H & Hn & _ & _ & Herr).
  assert (He : err = None).
  { assert (Hc : waitForRemotePort echo_at_3 localPort 40 (Some (mkNetwork 6881 0))
                 = Some (None, Some (mkWait (mkNetwork 6881 40123) (300 * Millisecond) 3)))
      by reflexivity.
    rewrite Hc in H. now injection H as <- _. }
  subst err. exists w. split; [exact H |]. split; [exact Hn | exact Herr].
Defined.

End PortWaitWitness.

(* ===================================================================== *)
(** * Discovery without an answer *)
(* ===================================================================== *)

Section DiscoverTimeout.

Import Runtime.

Variable M : Type.
Variable CreateMessage : Z -> list byte -> Z -> bool -> option M * option error.
Variable MsgTypeComm CommIPSubnet CommIPInfo : Z.
Variable E : Env.

(** No handler stores a subnet in the device. *)
Definition unanswered : Prop :=
  forall k t, tSubnet t = IPnil -> tSubnet (handlers E k t) = IPnil.

Lemma waitSubnet_unanswered fuel : forall last (w : World M) t,
  unanswered ->
  Interface (inst w) = Some t ->
  tSubnet t = IPnil ->
  fst (waitSubnet M E fuel last w) <> OutOfFuel ->
  fst (waitSubnet M E fuel last w) = Finished (Some "Didn't received subnet information")
  /\ 2000 * Millisecond < now (snd (waitSubnet M E fuel last w)) - last
  /\ exists t', Interface (inst (snd (waitSubnet M E fuel last w))) = Some t'
       /\ tConfigured t' = false /\ tSubnet t' = IPnil.
Proof.
  induction fuel as [| fuel IH]; intros last w t Hun Ht Hsn; cbn [waitSubnet].
  - intros H. now contradiction H.
  - unfold iface_subnet. rewrite Ht, Hsn. cbn [IP_is_nil].
    destruct (2000 * Millisecond <? now w - last) eqn:Hover.
    + intros _. apply Z.ltb_lt in Hover. cbn [fst snd set_inst now inst].
      split; [reflexivity |]. split; [exact Hover |].
      exists (Deconfigure t). unfold with_iface. cbn [Interface]. rewrite Ht.
      split; [reflexivity |]. split; [reflexivity | exact Hsn].
    + apply (IH last (Sleep E (100 * Millisecond) w) (handlers E (ticks w) t) Hun).
      * cbn [Sleep inst]. unfold with_iface, with_swarm. cbn [Interface]. now rewrite Ht.
      * now apply Hun.
Qed.

(** X21: when no peer answers the subnet request (no handler stores a
    subnet in the device), [discoverIP] on an instance with swarm table,
    device and rendezvous client gives up after more than 2 seconds with
    "Didn't received subnet information": the only messages it has sent
    are the subnet request to the connected peers, no address was probed,
    and the device is left deconfigured, without a subnet. *)
Theorem discoverIP_without_subnet (fuel : nat) (w : World M)
    (l : SwarmTable.Swarm) (t : TAPDarwin) (dht : DHTClient) :
  Swarm (inst w) = Some l ->
  Interface (inst w) = Some t ->
  Dht (inst w) = Some dht ->
  unanswered ->
  (22 <= fuel)%nat ->
  let run := discoverIP M CreateMessage MsgTypeComm CommIPSubnet CommIPInfo E fuel w in
  fst run = Finished (Some "Didn't received subnet information")
  /\ sends M (log (snd run))
     = sends M (log w)
       ++ map (pair (subnetRequest M CreateMessage MsgTypeComm CommIPSubnet (dhtID dht)))
              (recipients (swarm_snapshot E w))
  /\ 2000 * Millisecond < now (snd run) - now w
  /\ exists t', Interface (inst (snd run)) = Some t'
       /\ tConfigured t' = false /\ tSubnet t' = IPnil.
Proof.
  intros Hl Ht Hd Hun Hfuel run. subst run. unfold discoverIP. rewrite Hl, Ht, Hd.
  set (w1 := set_inst _ w).
  set (msg := fst (CreateMessage MsgTypeComm (subnetPayload CommIPSubnet (dhtID dht)) 0 true)).
  assert (Hsnap : swarm_snapshot E w1 = swarm_snapshot E w).
  { unfold swarm_snapshot, w1. cbn. unfold with_iface. cbn. reflexivity. }
  assert (Hs2 : sends M (log (broadcast E msg w1))
                = sends M (log w) ++ map (pair msg) (recipients (swarm_snapshot E w))).
  { rewrite sends_broadcast, Hsnap. reflexivity. }
  assert (Hnow2 : now (broadcast E msg w1) = now w) by reflexivity.
  assert (Hi2 : Interface (inst (broadcast E msg w1))
                = Some (SetIP IPnil (SetSubnet IPnil t))).
  { unfold w1. cbn. unfold with_iface. cbn. now rewrite Ht. }
  set (w2 := broadcast E msg w1) in *.
  pose proof (waitSubnet_sends M E fuel (now w2) w2) as Hsends.
  destruct (waitSubnet_finishes M E fuel (now w2) w2) as [Hfin _];
    [lia | unfold Millisecond; lia |].
  destruct (waitSubnet_unanswered fuel (now w2) w2 _ Hun Hi2 eq_refl Hfin)
    as (Hres & Hlate & t' & Ht' & Hc & Hsn).
  destruct (waitSubnet M E fuel (now w2) w2) as [r w3].
  cbn [fst snd] in *. subst r. cbn [fst snd].
  split; [reflexivity |]. split; [now rewrite Hsends, Hs2 |].
  split; [now rewrite <- Hnow2 |]. exists t'. auto.
Qed.

End DiscoverTimeout.

Section DiscoverTimeoutWitness.

Import Runtime.

Lemma discoverIP_without_subnet_witness :
  unanswered calm
  /\ (22 <= 30)%nat
  /\ fst (discoverIP (Z * list byte) plainMessage 8 1 2 calm 30 discovering)
     = Finished (Some "Didn't received subnet information").
Proof.
  assert (Hun : unanswered calm) by (intros k t H; exact H).
  assert (Hf : (22 <= 30)%nat) by lia.
  split; [exact Hun |]. split; [exact Hf |].
  exact (proj1 (discoverIP_without_subnet (Z * list byte) plainMessage 8 1 2 calm 30
                  discovering _ _ _ eq_refl eq_refl eq_refl Hun Hf)).
Defined.

End DiscoverTimeoutWitness.

(* ===================================================================== *)
(** * Device names *)
(* ===================================================================== *)

Module DeviceNames.

(** [i + 1] on an [int] of 64 bits. *)
Definition wrap64 (z : Z) : Z := (z + 2 ^ 63) mod 2 ^ 64 - 2 ^ 63.

(** [fmt.Sprintf("%d", i)] *)
Definition itoa (i : Z) : string :=
  if i <? 0 then "-" +:+ uitoa (Z.to_N (- i)) else uitoa (Z.to_N i).

(** [isDeviceExists].  [inf] is what [net.Interfaces] reports: the names
    of the interfaces, or [None] for an error. *)
Definition isDeviceExists (inf : option (list string)) (name : string) : bool :=
  match inf with
  | None => true
  | Some names => existsb (fun i => String.eqb i name) names
  end.

Section Names.

(** The report of the [k]-th call of [net.Interfaces]. *)
Variable interfaces : nat -> option (list string).

(** Not among the sources. *)
Variable MaximumInterfaceNameLength : Z.

(** [TAPDarwin.GetBasename] *)
Definition GetBasename : string := "tap".

(** [PeerToPeer.GenerateDeviceName], entered after [k] calls of
    [net.Interfaces]; [None] when the fuel runs out. *)
Fixpoint GenerateDeviceName (fuel : nat) (k : nat) (i : Z) : option string :=
  match fuel with
  | O => None
  | S fuel' =>
      let devName := GetBasename +:+ itoa i in
      if isDeviceExists (interfaces k) devName
      then GenerateDeviceName fuel' (S k) (wrap64 (i + 1))
      else Some devName
  end.

(** [PeerToPeer.validateInterfaceName]; [None] when the fuel runs out. *)
Definition validateInterfaceName (fuel : nat) (k : nat) (name : string)
    : option (string * option error) :=
  if String.eqb name "" then
    match GenerateDeviceName fuel k 1 with
    | None => None
    | Some name' => Some (name', None)
    end
  else if MaximumInterfaceNameLength <? strlen name
  then Some ("", Some "Interface name is too big")
  else Some (name, None).

End Names.

End DeviceNames.

Section DeviceNameClaims.

Import DeviceNames.

Variable interfaces : nat -> option (list string).
Variable MaximumInterfaceNameLength : Z.

Lemma wrap64_small z : - 2 ^ 63 <= z < 2 ^ 63 -> wrap64 z = z.
Proof. intros H. unfold wrap64. rewrite Z.mod_small; lia. Qed.

(** X22: [GenerateDeviceName i] returns the first name tap[i], tap[i+1],
    ... that the system does not report as an interface when it is
    asked: if the names for [i] to [i + n - 1] are each reported in use
    and the name for [i + n] is not, the result is the name for [i + n]. *)
Theorem GenerateDeviceName_first_free (n : nat) : forall (fuel k : nat) (i : Z),
  0 <= i -> i + Z.of_nat n < 2 ^ 63 ->
  (n < fuel)%nat ->
  (forall j, (j < n)%nat ->
     isDeviceExists (interfaces (k + j)) ("tap" +:+ uitoa (Z.to_N (i + Z.of_nat j))) = true) ->
  isDeviceExists (interfaces (k + n)) ("tap" +:+ uitoa (Z.to_N (i + Z.of_nat n))) = false ->
  GenerateDeviceName interfaces fuel k i = Some ("tap" +:+ uitoa (Z.to_N (i + Z.of_nat n))).
Proof.
  induction n as [| n IH]; intros fuel k i Hi Hmax Hfuel Hused Hfree;
    (destruct fuel as [| fuel]; [lia |]); cbn [GenerateDeviceName].
  - unfold GetBasename, itoa. destruct (i <? 0) eqn:Hneg; [apply Z.ltb_lt in Hneg; lia |].
    rewrite Z.add_0_r, Nat.add_0_r in Hfree. rewrite Hfree. now rewrite Z.add_0_r.
  - unfold GetBasename, itoa. destruct (i <? 0) eqn:Hneg; [apply Z.ltb_lt in Hneg; lia |].
    pose proof (Hused 0%nat ltac:(lia)) as H0.
    rewrite Z.add_0_r, Nat.add_0_r in H0. rewrite H0.
    rewrite wrap64_small by lia.
    replace (i + Z.of_nat (S n)) with (i + 1 + Z.of_nat n) in * by lia.
    apply IH; try lia.
    + intros j Hj. specialize (Hused (S j) ltac:(lia)).
      replace (k + S j)%nat with (S k + j)%nat in Hused by lia.
      replace (i + Z.of_nat (S j)) with (i + 1 + Z.of_nat j) in Hused by lia.
      exact Hused.
    + replace (S k + n)%nat with (k + S n)%nat by lia. exact Hfree.
Qed.

Lemma GenerateDeviceName_blind fuel : forall k i,
  (forall j, interfaces j = None) -> GenerateDeviceName interfaces fuel k i = None.
Proof.
  induction fuel as [| fuel IH]; intros k i Hnone; [reflexivity |].
  cbn [GenerateDeviceName]. rewrite Hnone. cbn [isDeviceExists]. now apply IH.
Qed.

(** X23: [validateInterfaceName] returns a name that is not empty as it
    is, without asking the system, unless it is longer than the maximum,
    which gives the error "Interface name is too big".  For the empty
    name it does not return while [net.Interfaces] keeps failing:
    [isDeviceExists] then answers true for every candidate. *)
Theorem validateInterfaceName_cases (fuel k : nat) (name : string) :
  (name <> "" ->
   validateInterfaceName interfaces MaximumInterfaceNameLength fuel k name
   = if MaximumInterfaceNameLength <? strlen name
     then Some ("", Some "Interface name is too big")
     else Some (name, None))
  /\ ((forall j, interfaces j = None) ->
      validateInterfaceName interfaces MaximumInterfaceNameLength fuel k "" = None).
Proof.
  unfold validateInterfaceName. split.
  - intros Hne. apply String.eqb_neq in Hne. now rewrite Hne.
  - intros Hnone. cbn [String.eqb]. now rewrite GenerateDeviceName_blind.
Qed.

End DeviceNameClaims.

Section DeviceNameWitness.

Import DeviceNames.

(** The system has tap1 and tap2, and one more interface. *)
Definition two_taps (k : nat) : option (list string) := Some ["lo0"; "tap2"; "tap1"].

Lemma GenerateDeviceName_first_free_witness :
  GenerateDeviceName two_taps 5 0 1 = Some "tap3".
Proof.
  apply (GenerateDeviceName_first_free two_taps 2 5 0 1); try lia.
  - intros j Hj. destruct j as [| [| j]]; [reflexivity | reflexivity | lia].
  - reflexivity.
Defined.

Lemma validateInterfaceName_cases_witness :
  validateInterfaceName two_taps 12 5 0 "tap7" = Some ("tap7", None)
  /\ validateInterfaceName (fun _ => None) 12 1000 0 "" = None.
Proof.
  destruct (validateInterfaceName_cases two_taps 12 5 0 "tap7") as [H1 _].
  destruct (validateInterfaceName_cases (fun _ => None) 12 1000 0 "") as [_ H2].
  split; [exact (H1 ltac:(discriminate)) | exact (H2 (fun _ => eq_refl))].
Defined.

End DeviceNameWitness.

(* ===================================================================== *)
(** * Requesting an address from the rendezvous service *)
(* ===================================================================== *)

Module Dhcp.

Import Runtime Addresses.

(** [p.Dht.IP] and [p.Dht.Network], which the reader of the rendezvous
    client stores when the service answers. *)
Record Lease : Type := mkLease { leaseIP : IP; leaseNet : option IPNet }.


(** How a call ends. *)
Inductive answer : Type :=
| Returned (ip : IP) (mask : list byte) (err : option error)
| Panicked
| Unfinished.

Section Request.

Variable M : Type.
Variable E : Env.

(** What the reader does to the lease during the [k]-th sleep. *)
Variable offers : nat -> Lease -> Lease.

(** The caller's view: the lease, the process, and the times of the
    calls [p.Dht.sendDHCP(nil, nil)] (not among the sources). *)
Record Req : Type := mkReq { lease : Lease; world : World M; dhcp : list Z }.


(** [time.Sleep(100 * time.Millisecond)] *)
Definition nap (r : Req) : Req :=
  mkReq (offers (ticks (world r)) (lease r)) (Sleep E (100 * Millisecond) (world r)) (dhcp r).



End Request.

End Dhcp.

Section DhcpClaims.

Import Runtime Dhcp.

Variable M : Type.
Variable E : Env.
Variable offers : nat -> Lease -> Lease.




End DhcpClaims.

Section DhcpWitness.

Import Runtime Dhcp.


End DhcpWitness.

(* ===================================================================== *)
(** * Shutdown of an instance that lacks components *)
(* ===================================================================== *)

Section ShutdownMore.

Import Runtime.

Variable M : Type.
Variable E : Env.

Lemma stopDHT_inst (w : World M) : inst (snd (stopDHT E w)) = inst w.
Proof. unfold stopDHT. now destruct (Dht (inst w)). Qed.

Lemma stopSocket_inst (w : World M) : inst (snd (stopSocket E w)) = inst w.
Proof. unfold stopSocket. now destruct (UDPSocket (inst w)). Qed.

Lemma stopInterface_inst (w : World M) : inst (snd (stopInterface E w)) = inst w.
Proof. unfold stopInterface. now destruct (Interface (inst w)). Qed.

Lemma stopPeers_finishes fuel (w : World M) :
  (52 <= fuel)%nat -> exists err w', stopPeers E fuel w = (Finished err, w').
Proof.
  intros Hfuel. unfold stopPeers. destruct (Swarm (inst w)); [| eauto].
  destruct (drain_wait_spec M E fuel
              (now (fold_left disconnect_peer (swarm_snapshot E w) w))
              (fold_left disconnect_peer (swarm_snapshot E w) w))
    as (k & w' & Hrun & _); [lia | unfold Second, Millisecond; lia |].
  rewrite Hrun. eauto.
Qed.

(** X25: [Close] returns nil on every instance and leaves it marked as
    shut down and ready to stop, whichever of the device, the swarm
    table, the rendezvous client and the socket are missing or fail to
    close: the errors of its steps are dropped.  It ends within 52 turns
    of the wait for the peers. *)
Theorem Close_always_completes (fuel : nat) (w : World M) :
  (52 <= fuel)%nat ->
  exists w',
    Close E fuel w = (Finished None, w')
    /\ Shutdown (inst w') = true
    /\ ReadyToStop (inst w') = true
    /\ Dht (inst w') = Dht (inst w)
    /\ UDPSocket (inst w') = UDPSocket (inst w).
Proof.
  intros Hfuel. unfold Close.
  assert (H1 : Dht (inst (snd (deactivateInterface w))) = Dht (inst w)
               /\ UDPSocket (inst (snd (deactivateInterface w))) = UDPSocket (inst w)).
  { unfold deactivateInterface. destruct (Interface (inst w)) as [t |]; [| auto].
    destruct (remove_first (tIP t) (ActiveInterfaces w)); auto. }
  set (w1 := snd (deactivateInterface w)) in *.
  assert (H2 : forall err w2, stopPeers E fuel w1 = (err, w2) ->
               Dht (inst w2) = Dht (inst w1) /\ UDPSocket (inst w2) = UDPSocket (inst w1)).
  { intros err w2. unfold stopPeers. destruct (Swarm (inst w1)) as [l |].
    - destruct (fold_disconnect M (swarm_snapshot E w1) w1) as (_ & _ & _ & Hsame).
      destruct Hsame as (_ & Hd & Hu & _).
      destruct (drain_wait_spec M E fuel
                  (now (fold_left disconnect_peer (swarm_snapshot E w1) w1))
                  (fold_left disconnect_peer (swarm_snapshot E w1) w1))
        as (k & w' & Hrun & _ & _ & Hd' & Hu' & _);
        [lia | unfold Second, Millisecond; lia |].
      rewrite Hrun. intros Heq. injection Heq as _ <-. split; congruence.
    - intros Heq. injection Heq as _ <-. auto. }
  destruct (stopPeers_finishes fuel w1 Hfuel) as (err & w2 & Hrun).
  destruct (H2 _ _ Hrun) as [Hd2 Hu2]. rewrite Hrun.
  eexists. split; [reflexivity |].
  cbn [inst add_log set_inst set_ReadyToStop Shutdown ReadyToStop Dht UDPSocket].
  rewrite stopInterface_inst, stopSocket_inst, stopDHT_inst.
  cbn [inst add_log set_inst set_Shutdown Shutdown Dht UDPSocket].
  destruct H1 as [Hd1 Hu1].
  split; [reflexivity |]. split; [reflexivity |]. split; congruence.
Qed.

End ShutdownMore.

Section ShutdownMoreWitness.

Import Runtime.

(** An instance without any component. *)
Definition bare : World unit :=
  mkWorld (mkP2P None None false false false "" None None IPnil) [] 0 0%nat [].

Lemma Close_always_completes_witness :
  (52 <= 52)%nat
  /\ exists w', Close calm 52 bare = (Finished None, w')
       /\ Shutdown (inst w') = true /\ ReadyToStop (inst w') = true.
Proof.
  assert (Hf : (52 <= 52)%nat) by lia.
  split; [exact Hf |].
  destruct (Close_always_completes unit calm 52 bare Hf) as (w' & Hc & Hs & Hr & _).
  exists w'. auto.
Defined.

End ShutdownMoreWitness.

(* ===================================================================== *)
(** * Reporting a static address *)
(* ===================================================================== *)

Module StaticIP.

Import Runtime Addresses Dhcp.

(** The character of code 34, which the message below quotes. *)
Definition dquote : string := String (Ascii.ascii_of_nat 34) EmptyString.

Definition invalid_address : error :=
  "Invalid address were provided for network interface. Use -ip " +:+ dquote +:+ "dhcp"
    +:+ dquote +:+ " or specify correct IP address".

Section Report.

Variable M : Type.
Variable E : Env.

(** The state after the call: the lease, the process, and the arguments
    of [p.Dht.sendDHCP(ip, ipnet)] (not among the sources) when it was
    called. *)
Record Rep : Type := mkRep {
  rLease : Lease;
  rWorld : World M;
  reported : option (IP * IPNet)
}.

(** [PeerToPeer.ReportIP].  After a successful [net.ParseCIDR] the
    network is not nil. *)
Definition ReportIP (ipAddress mac device : string) (l : Lease) (w : World M)
    : answer * Rep :=
  match Dht (inst w) with
  | None => (Returned IPnil [] (Some "nil dht"), mkRep l w None)
  | Some _ =>
      let parsed : (IP * IPNet) + error :=
        match ParseCIDR ipAddress with
        | Some r => inl r
        | None =>
            match ParseIP ipAddress with
            | IPnil => inr invalid_address
            | _ =>
                match ParseCIDR (ipAddress +:+ "/24") with
                | Some r => inl r
                | None => inr "Failed to configure interface with provided IP"
                end
            end
        end in
      match parsed with
      | inr err => (Returned IPnil [] (Some err), mkRep l w None)
      | inl (ip, ipnet) =>
          let l' := mkLease ip (Some ipnet) in
          match AssignInterface M E device w with
          | (Some err, w') =>
              (Returned IPnil [] (Some ("Failed to configure interface: " +:+ err)),
               mkRep l' w' (Some (ip, ipnet)))
          | (None, w') =>
              (Returned ip (netMask ipnet) None, mkRep l' w' (Some (ip, ipnet)))
          end
      end
  end.

End Report.

End StaticIP.

Section StaticIPClaims.

Import Runtime Addresses Dhcp StaticIP.

Lemma contains_slash_octet b : contains "/" (uitoa (Byte.to_N b)) = false.
Proof. destruct b; reflexivity. Qed.

Lemma contains_slash_IP_String a b c d : contains "/" (IP_String (IPv4 a b c d)) = false.
Proof. unfold IP_String. rewrite !contains_app, !contains_slash_octet. reflexivity. Qed.

Lemma split_slash_none s : contains "/" s = false -> split_slash s = None.
Proof.
  induction s as [| ch s IH]; [reflexivity |]. cbn [contains split_slash]. intros H.
  apply orb_false_elim in H as [Hc Hs]. rewrite Hc, (IH Hs). reflexivity.
Qed.

Lemma split_slash_app s m :
  contains "/" s = false -> split_slash (s +:+ String "/" m) = Some (s, m).
Proof.
  induction s as [| ch s IH]; [reflexivity |].
  intros H. cbn [contains] in H. apply orb_false_elim in H as [Hc Hs].
  change (String ch s +:+ String "/" m) with (String ch (s +:+ String "/" m)).
  cbn [split_slash]. rewrite Hc, (IH Hs). reflexivity.
Qed.

Lemma byte_and_ff x : byte_and x xff = x.
Proof. destruct x; reflexivity. Qed.

Lemma byte_and_00 x : byte_and x x00 = x00.
Proof. destruct x; reflexivity. Qed.

(** [net.ParseCIDR] reads an IPv4 address with a prefix length of at
    most 32 back from its text. *)
Lemma ParseCIDR_text a b c d (n : N) :
  (n <= 32)%N ->
  ParseCIDR (IP_String (IPv4 a b c d) +:+ "/" +:+ uitoa n)
  = Some (IPv4 a b c d, mkIPNet (IP_Mask (IPv4 a b c d) (CIDRMask n)) (CIDRMask n)).
Proof.
  intros Hn. unfold ParseCIDR.
  change ("/" +:+ uitoa n) with (String "/" (uitoa n)).
  rewrite split_slash_app by apply contains_slash_IP_String.
  rewrite parseIPv4_IP_String.
  destruct (port_text n ltac:(lia)) as (-> & _ & _).
  cbn [IP_is_nil negb orb]. rewrite Nat.eqb_refl. cbn [negb orb].
  destruct (32 <? n)%N eqn:H32; [apply N.ltb_lt in H32; lia | reflexivity].
Qed.

Variable M : Type.
Variable E : Env.

(** X26: [ReportIP] treats a plain IPv4 address as the same address
    with the prefix /24.  For an address a.b.c.d with a prefix length n
    of at most 32 it stores and reports the address with its network
    (the address masked, and the mask of n ones), and returns the address
    and the mask when [AssignInterface] succeeds; when that fails it
    returns the error "Failed to configure interface: ..." but the lease
    stays stored and reported. *)
Theorem ReportIP_prefix (a b c d : byte) (n : N) (mac device : string) (l : Lease)
    (w : World M) (dht : DHTClient) :
  Dht (inst w) = Some dht ->
  (n <= 32)%N ->
  let ip := IPv4 a b c d in
  let net := mkIPNet (IP_Mask ip (CIDRMask n)) (CIDRMask n) in
  let run := ReportIP M E (IP_String ip +:+ "/" +:+ uitoa n) mac device l w in
  ReportIP M E (IP_String ip) mac device l w
    = ReportIP M E (IP_String ip +:+ "/24") mac device l w
  /\ (n = 24%N -> net = mkIPNet (IPv4 a b c x00) [xff; xff; xff; x00])
  /\ rLease M (snd run) = mkLease ip (Some net)
  /\ reported M (snd run) = Some (ip, net)
  /\ rWorld M (snd run) = snd (AssignInterface M E device w)
  /\ fst run
     = match fst (AssignInterface M E device w) with
       | None => Returned ip (CIDRMask n) None
       | Some err => Returned IPnil [] (Some ("Failed to configure interface: " +:+ err))
       end.
Proof.
  intros Hd Hn. cbv zeta.
  split.
  { unfold ReportIP. rewrite Hd.
    unfold ParseCIDR at 1. rewrite (split_slash_none _ (contains_slash_IP_String a b c d)).
    rewrite ParseIP_IP_String.
    change "/24" with ("/" +:+ uitoa 24). rewrite !ParseCIDR_text by lia.
    reflexivity. }
  split.
  { intros ->. unfold CIDRMask. vm_compute CIDRMask_bytes. cbn [IP_Mask].
    now rewrite !byte_and_ff, byte_and_00. }
  unfold ReportIP. rewrite Hd, ParseCIDR_text by exact Hn.
  destruct (AssignInterface M E device w) as [[err |] w']; cbn; auto.
Qed.

End StaticIPClaims.

Section StaticIPWitness.

Import Runtime Addresses Dhcp StaticIP.

Lemma ReportIP_prefix_witness :
  (24 <= 32)%N
  /\ reported unit
       (snd (ReportIP unit calm "10.1.0.5" "06:00:00:00:00:05" "tap1"
               (mkLease IPnil None) starting))
     = Some (IPv4 x0a x01 x00 x05, mkIPNet (IPv4 x0a x01 x00 x00) [xff; xff; xff; x00]).
Proof.
  assert (Hn : (24 <= 32)%N) by lia.
  split; [exact Hn |].
  destruct (ReportIP_prefix unit calm x0a x01 x00 x05 24 "06:00:00:00:00:05" "tap1"
              (mkLease IPnil None) starting _ eq_refl Hn)
    as (Hplain & Hnet & _ & Hrep & _).
  change (IP_String (IPv4 x0a x01 x00 x05)) with "10.1.0.5" in Hplain.
  change (IP_String (IPv4 x0a x01 x00 x05) +:+ "/" +:+ uitoa 24) with "10.1.0.5/24" in Hrep.
  rewrite Hplain.
  change ("10.1.0.5" +:+ "/24") with "10.1.0.5/24".
  rewrite Hrep, (Hnet eq_refl). reflexivity.
Defined.

End StaticIPWitness.

(* ===================================================================== *)
(** * The addresses of the local interfaces *)
(* ===================================================================== *)

Module LocalAddresses.

Import Addresses.

(** A [net.Interface]: its name and what [Addrs] gives, the addresses in
    CIDR text or [None] for an error. *)
Record Iface : Type := mkIface { ifName : string; ifAddrs : option (list string) }.

Section Parse.

(** The registry [ActiveInterfaces] and the outcome of the ping that
    [FilterInterface] runs. *)
Variable active : list IP.
Variable pingFails : string -> bool.

(** [net.IP.IsGlobalUnicast] *)
Variable IsGlobalUnicast : IP -> bool.

(** One turn of the inner loop, on the slices [ips] and [reserve].  An
    address that is not IPv4 is skipped: by [IsIPv4] in the source, by
    [ParseCIDR] already here. *)
Definition scan_addr (name : string) (acc : list IP * list IP) (addr : string)
    : list IP * list IP :=
  let '(ips, reserve) := acc in
  match ParseCIDR addr with
  | None => acc
  | Some (ip, _) =>
      if IsGlobalUnicast ip && IsIPv4 (IP_String ip) then
        if negb (FilterInterface active pingFails name (IP_String ip))
        then (ips ++ [ip], reserve)
        else (ips, reserve ++ [ip])
      else acc
  end.

(** One turn of the outer loop. *)
Definition scan_iface (acc : list IP * list IP) (i : Iface) : list IP * list IP :=
  match ifAddrs i with
  | None => acc
  | Some addresses =>
      if Nat.eqb (length addresses) 0 then acc
      else fold_left (scan_addr (ifName i)) addresses acc
  end.

(** [PeerToPeer.ParseInterfaces] *)
Definition ParseInterfaces (interfaces : list Iface) : list IP :=
  let '(ips, reserve) := fold_left scan_iface interfaces ([], []) in
  if Nat.eqb (length ips) 0 then reserve else ips.

End Parse.

End LocalAddresses.

Section LocalAddressClaims.

Import Addresses LocalAddresses.

Variable active : list IP.
Variable pingFails : string -> bool.
Variable IsGlobalUnicast : IP -> bool.

(** The addresses that come into question, each with the name of its
    interface: the global unicast IPv4 addresses, in the order of the
    interfaces and of their addresses. *)
Definition candidate (name addr : string) : option (string * IP) :=
  match ParseCIDR addr with
  | Some (ip, _) =>
      if IsGlobalUnicast ip && IsIPv4 (IP_String ip) then Some (name, ip) else None
  | None => None
  end.

Definition candidates (interfaces : list Iface) : list (string * IP) :=
  flat_map (fun i => match ifAddrs i with
                     | Some addresses => omap (candidate (ifName i)) addresses
                     | None => []
                     end) interfaces.

Definition filtered (c : string * IP) : bool :=
  FilterInterface active pingFails (fst c) (IP_String (snd c)).

Definition passing (cs : list (string * IP)) : list IP :=
  map snd (List.filter (fun c => negb (filtered c)) cs).
Definition held_back (cs : list (string * IP)) : list IP :=
  map snd (List.filter filtered cs).

Lemma passing_app cs cs' : passing (cs ++ cs') = passing cs ++ passing cs'.
Proof. unfold passing. now rewrite List.filter_app, map_app. Qed.

Lemma held_back_app cs cs' : held_back (cs ++ cs') = held_back cs ++ held_back cs'.
Proof. unfold held_back. now rewrite List.filter_app, map_app. Qed.

Lemma scan_addr_candidate name ips reserve addr :
  scan_addr active pingFails IsGlobalUnicast name (ips, reserve) addr
  = match candidate name addr with
    | Some c => if negb (filtered c) then (ips ++ [snd c], reserve)
                else (ips, reserve ++ [snd c])
    | None => (ips, reserve)
    end.
Proof.
  unfold scan_addr, candidate, filtered.
  destruct (ParseCIDR addr) as [[ip net] |]; [| reflexivity].
  destruct (IsGlobalUnicast ip && IsIPv4 (IP_String ip)); reflexivity.
Qed.

Lemma scan_addrs name addresses : forall ips reserve,
  fold_left (scan_addr active pingFails IsGlobalUnicast name) addresses (ips, reserve)
  = (ips ++ passing (omap (candidate name) addresses),
     reserve ++ held_back (omap (candidate name) addresses)).
Proof.
  induction addresses as [| addr addresses IH]; intros ips reserve;
    cbn [fold_left omap list_omap].
  - unfold passing, held_back. cbn. now rewrite !app_nil_r.
  - rewrite scan_addr_candidate.
    destruct (candidate name addr) as [c |]; [| apply IH].
    destruct (filtered c) eqn:Hf; cbn [negb]; rewrite IH;
      unfold passing, held_back; cbn [List.filter]; rewrite Hf; cbn [negb map];
      rewrite <- ?app_assoc; reflexivity.
Qed.

Lemma scan_ifaces interfaces : forall ips reserve,
  fold_left (scan_iface active pingFails IsGlobalUnicast) interfaces (ips, reserve)
  = (ips ++ passing (candidates interfaces), reserve ++ held_back (candidates interfaces)).
Proof.
  induction interfaces as [| i interfaces IH]; intros ips reserve;
    cbn [fold_left candidates flat_map].
  - unfold passing, held_back. cbn. now rewrite !app_nil_r.
  - fold (candidates interfaces). rewrite passing_app, held_back_app.
    unfold scan_iface at 2.
    destruct (ifAddrs i) as [addresses |].
    + destruct addresses as [| addr addresses].
      * cbn [length Nat.eqb omap list_omap app]. apply IH.
      * cbn [length Nat.eqb]. rewrite scan_addrs, IH, <- !app_assoc. reflexivity.
    + apply IH.
Qed.

Lemma held_back_all cs : passing cs = [] -> held_back cs = map snd cs.
Proof.
  unfold passing, held_back. induction cs as [| c cs IH]; [reflexivity |].
  cbn [List.filter]. destruct (filtered c); cbn [negb map].
  - intros H. now rewrite IH.
  - discriminate.
Qed.

Lemma passing_not_172 cs b c d : ~ In (IPv4 xac b c d) (passing cs).
Proof.
  unfold passing. intros Hin. apply in_map_iff in Hin as ([name ip] & Hip & Hin).
  apply List.filter_In in Hin as [_ Hf]. cbn [snd] in Hip. subst ip.
  unfold filtered in Hf. cbn [fst snd] in Hf.
  destruct (IP_String_172 b c d) as [[r1 r2] Hs]. rewrite Hs in Hf. discriminate Hf.
Qed.

(** X27: [ParseInterfaces] returns the global unicast IPv4 addresses of
    the interfaces that [FilterInterface] lets pass, in the order of the
    interfaces and their addresses; only when none passes does it return
    the filtered ones instead, which are then all of them.  So an address
    172.b.c.d is returned only when no address passes the filter. *)
Theorem ParseInterfaces_fallback (interfaces : list Iface) :
  ParseInterfaces active pingFails IsGlobalUnicast interfaces
  = (match passing (candidates interfaces) with
     | [] => map snd (candidates interfaces)
     | ips => ips
     end)
  /\ forall b c d,
       In (IPv4 xac b c d) (ParseInterfaces active pingFails IsGlobalUnicast interfaces) ->
       passing (candidates interfaces) = [].
Proof.
  assert (Heq : ParseInterfaces active pingFails IsGlobalUnicast interfaces
                = match passing (candidates interfaces) with
                  | [] => map snd (candidates interfaces)
                  | ips => ips
                  end).
  { unfold ParseInterfaces. rewrite scan_ifaces. cbn [app].
    destruct (passing (candidates interfaces)) as [| ip ips] eqn:Hp; cbn [length Nat.eqb].
    - now apply held_back_all.
    - reflexivity. }
  split; [exact Heq |].
  intros b c d Hin. rewrite Heq in Hin.
  destruct (passing (candidates interfaces)) as [| ip ips] eqn:Hp; [reflexivity |].
  exfalso. apply (passing_not_172 (candidates interfaces) b c d). now rewrite Hp.
Qed.

End LocalAddressClaims.

Section LocalAddressWitness.

Import Addresses LocalAddresses.

(** A host with one LAN address, one address of a container bridge and
    an interface whose addresses cannot be read. *)
Definition three_ifaces : list Iface :=
  [mkIface "en0" (Some ["192.168.1.10/24"]);
   mkIface "bridge0" (Some ["172.17.0.1/16"]);
   mkIface "utun0" None].

Lemma ParseInterfaces_fallback_witness :
  ParseInterfaces [] (fun _ => false) (fun _ => true) three_ifaces
  = [IPv4 xc0 xa8 x01 x0a]
  /\ ~ In (IPv4 xac x11 x00 x01)
         (ParseInterfaces [] (fun _ => false) (fun _ => true) three_ifaces).
Proof.
  destruct (ParseInterfaces_fallback [] (fun _ => false) (fun _ => true) three_ifaces)
    as [Heq H172].
  split.
  - rewrite Heq. reflexivity.
  - intros Hin. specialize (H172 _ _ _ Hin). discriminate H172.
Defined.

End LocalAddressWitness.

(* ===================================================================== *)
(** * The hardware address of the device, and the discovery payloads *)
(* ===================================================================== *)

Section HardwareAddressMore.

Import Utils Runtime.

Lemma HW_String_nonempty b l : HW_String (Some (b :: l)) <> "".
Proof. cbn. discriminate. Qed.

(** X28: what [validateMac] returns is nil or an address of 6, 8 or 20
    bytes, whatever the mac option and the random source.  A mac option
    that is the text of such an address gives that address, and the
    random source is not consulted. *)
Theorem validateMac_length (rnd : option (list byte)) :
  (forall mac hw, validateMac rnd mac = Some hw ->
     (length hw = 6 \/ length hw = 8 \/ length hw = 20)%nat)
  /\ (forall hw, mac_len_ok (Z.of_nat (length hw)) = true ->
        validateMac rnd (HW_String (Some hw)) = Some hw).
Proof.
  split.
  - intros mac hw. unfold validateMac.
    assert (Hlen : forall s, ParseMAC s = Some hw ->
                     (length hw = 6 \/ length hw = 8 \/ length hw = 20)%nat).
    { intros s Hs. apply ParseMAC_length in Hs. unfold mac_len_ok in Hs. lia. }
    destruct (negb (String.eqb mac "")).
    + destruct (ParseMAC mac) as [hw' |] eqn:Hm; [| discriminate].
      intros H. injection H as ->. exact (Hlen _ Hm).
    + unfold GenerateMAC. destruct rnd as [buf |]; [| discriminate].
      cbv zeta. destruct (ParseMAC _) as [hw' |] eqn:Hm; [| discriminate].
      cbn [snd]. intros H. injection H as ->. exact (Hlen _ Hm).
  - intros hw Hok. unfold validateMac.
    destruct hw as [| b hw]; [discriminate Hok |].
    rewrite (eqb_empty_false _ (HW_String_nonempty b hw)). cbn [negb].
    now rewrite ParseMAC_HW_String.
Qed.

Lemma validateMac_length_witness :
  validateMac None "06:11:22:33:44:55" = Some [x06; x11; x22; x33; x44; x55].
Proof.
  destruct (validateMac_length None) as [_ H].
  exact (H [x06; x11; x22; x33; x44; x55] eq_refl).
Defined.

Lemma id36_length id : length (id36 id) = 36%nat.
Proof.
  unfold id36. rewrite length_app, repeat_length.
  pose proof (firstn_le_length 36 (list_byte_of_string id)). lia.
Qed.

Lemma id36_exact id :
  length (list_byte_of_string id) = 36%nat -> id36 id = list_byte_of_string id.
Proof.
  intros H. unfold id36. rewrite firstn_all2 by lia. rewrite H. cbn. apply app_nil_r.
Qed.

Lemma to_N_byte_of_N_mod n : Byte.to_N (byte_of_N n) = (n mod 256)%N.
Proof.
  unfold byte_of_N. destruct (Byte.of_N (n mod 256)) as [b |] eqn:Hb.
  - now apply Byte.to_of_N.
  - apply Byte.of_N_None_iff in Hb.
    pose proof (N.mod_upper_bound n 256 ltac:(lia)). lia.
Qed.

(** X29: the two requests of [discoverIP] have a fixed size, whatever
    the id of the rendezvous client: 38 bytes for the subnet request and
    42 for the query of a host.  The id fills bytes 2 to 37, cut or
    padded with zeros to 36 bytes, so an id of 36 bytes is carried as it
    is; the query ends in the first three octets of the subnet and the
    host number modulo 256. *)
Theorem discovery_payloads (CommIPSubnet CommIPInfo : Z) (id : string) (sn : IP) (i : Z) :
  length (subnetPayload CommIPSubnet id) = 38%nat
  /\ length (infoPayload CommIPInfo id sn i) = 42%nat
  /\ firstn 36 (skipn 2 (infoPayload CommIPInfo id sn i))
     = skipn 2 (subnetPayload CommIPSubnet id)
  /\ (length (list_byte_of_string id) = 36%nat ->
      skipn 2 (subnetPayload CommIPSubnet id) = list_byte_of_string id)
  /\ (forall a b c d, sn = IPv4 a b c d ->
      exists h, skipn 38 (infoPayload CommIPInfo id sn i) = [a; b; c; h]
                /\ Byte.to_N h = (Z.to_N i mod 256)%N).
Proof.
  unfold subnetPayload, infoPayload.
  split; [rewrite length_app, id36_length; reflexivity |].
  split; [destruct sn; rewrite !length_app, id36_length; reflexivity |].
  split.
  { destruct sn; cbn [put_uint16 app skipn]; rewrite !drop_0;
      rewrite firstn_app, id36_length, Nat.sub_diag, firstn_O, app_nil_r;
      apply firstn_all2; rewrite id36_length; lia. }
  split.
  { intros H36. cbn [put_uint16 app skipn]. rewrite drop_0. now apply id36_exact. }
  intros a b c d ->. eexists. split; [| apply to_N_byte_of_N_mod].
  cbn [put_uint16 app skipn].
  rewrite skipn_app, id36_length, Nat.sub_diag.
  rewrite skipn_all2 by (rewrite id36_length; lia). reflexivity.
Qed.

Lemma discovery_payloads_witness :
  skipn 2 (subnetPayload 1 "7c8f2a52-5bd4-11ea-8e2d-0242ac130003")
  = list_byte_of_string "7c8f2a52-5bd4-11ea-8e2d-0242ac130003".
Proof.
  destruct (discovery_payloads 1 2 "7c8f2a52-5bd4-11ea-8e2d-0242ac130003" IPnil 0)
    as (_ & _ & _ & H & _).
  exact (H eq_refl).
Defined.

End HardwareAddressMore.
